(** * Meta operations of the Intel ICD (icd/intel/cmd_meta.c)

    A shallow embedding of the command-buffer meta operations: buffer and
    image copies, buffer fill and update, clears and multisample resolves,
    all recorded as disguised draws.

    Everything this file does to the command buffer goes through
    collaborators declared in headers outside icd/intel/cmd_meta.c
    (cmd_fail, cmd_draw_meta, the view constructors and destructors,
    cmd_state_pointer).  The embedding records those calls, in program
    order, as a trace of events; the command buffer itself is only read
    (its device, its bound framebuffer and subpass). *)

From Stdlib Require Import String ZArith List Bool Lia.
Import ListNotations.
Local Open Scope Z_scope.

(** ** Machine integers *)

(** uint32_t and uint64_t (VkDeviceSize) values are carried as [Z]; the
    wrap-around of their arithmetic is written out where the code computes. *)
Definition u32 (z : Z) : Z := z mod 2 ^ 32.
Definition u64 (z : Z) : Z := z mod 2 ^ 64.

(** ** Enumerations

    The enumerations come from vulkan.h, dev.h and cmd_priv.h.  Each one
    lists the enumerators cmd_meta.c names. *)

Inductive VkResult :=
| VK_SUCCESS
| VK_ERROR_UNKNOWN
| VK_ERROR_UNAVAILABLE
| VK_RESULT_CODE (code : Z).   (* any other enumerator a collaborator returns *)

Inductive VkFormat :=
| VK_FORMAT_UNDEFINED
| VK_FORMAT_R8_UINT
| VK_FORMAT_R16_UINT
| VK_FORMAT_R32_UINT
| VK_FORMAT_R32G32_UINT
| VK_FORMAT_R32G32B32A32_UINT
| VK_FORMAT_R8G8B8A8_UINT
| VK_FORMAT_CODE (code : Z).   (* the formats cmd_meta.c does not name *)

Inductive VkImageType := VK_IMAGE_TYPE_1D | VK_IMAGE_TYPE_2D | VK_IMAGE_TYPE_3D.

Inductive VkImageViewType :=
| VK_IMAGE_VIEW_TYPE_1D
| VK_IMAGE_VIEW_TYPE_2D
| VK_IMAGE_VIEW_TYPE_3D
| VK_IMAGE_VIEW_TYPE_1D_ARRAY
| VK_IMAGE_VIEW_TYPE_2D_ARRAY.

Inductive VkImageAspect :=
| VK_IMAGE_ASPECT_COLOR
| VK_IMAGE_ASPECT_DEPTH
| VK_IMAGE_ASPECT_STENCIL.

Inductive VkImageLayout :=
| VK_IMAGE_LAYOUT_DEPTH_STENCIL_ATTACHMENT_OPTIMAL
| VK_IMAGE_LAYOUT_DEPTH_STENCIL_READ_ONLY_OPTIMAL
| VK_IMAGE_LAYOUT_CODE (code : Z).

Inductive VkBufferViewType := VK_BUFFER_VIEW_TYPE_FORMATTED.

Inductive VkChannelSwizzle :=
| VK_CHANNEL_SWIZZLE_R
| VK_CHANNEL_SWIZZLE_G
| VK_CHANNEL_SWIZZLE_B
| VK_CHANNEL_SWIZZLE_A.

Inductive intel_dev_meta_shader :=
| INTEL_DEV_META_VS_FILL_MEM
| INTEL_DEV_META_VS_COPY_MEM
| INTEL_DEV_META_VS_COPY_MEM_UNALIGNED
| INTEL_DEV_META_VS_COPY_R8_TO_MEM
| INTEL_DEV_META_VS_COPY_R16_TO_MEM
| INTEL_DEV_META_VS_COPY_R32_TO_MEM
| INTEL_DEV_META_VS_COPY_R32G32_TO_MEM
| INTEL_DEV_META_VS_COPY_R32G32B32A32_TO_MEM
| INTEL_DEV_META_FS_COPY_MEM_TO_IMG
| INTEL_DEV_META_FS_COPY_1D
| INTEL_DEV_META_FS_COPY_1D_ARRAY
| INTEL_DEV_META_FS_COPY_2D
| INTEL_DEV_META_FS_COPY_2D_ARRAY
| INTEL_DEV_META_FS_COPY_2D_MS
| INTEL_DEV_META_FS_CLEAR_COLOR
| INTEL_DEV_META_FS_CLEAR_DEPTH
| INTEL_DEV_META_FS_RESOLVE_2X
| INTEL_DEV_META_FS_RESOLVE_4X
| INTEL_DEV_META_FS_RESOLVE_8X
| INTEL_DEV_META_FS_RESOLVE_16X.

Inductive intel_cmd_meta_mode :=
| INTEL_CMD_META_FS_RECT
| INTEL_CMD_META_VS_POINTS
| INTEL_CMD_META_DEPTH_STENCIL_RECT.

Inductive intel_cmd_meta_ds_op :=
| INTEL_CMD_META_DS_NOP
| INTEL_CMD_META_DS_HIZ_CLEAR
| INTEL_CMD_META_DS_HIZ_RESOLVE
| INTEL_CMD_META_DS_RESOLVE.

Inductive intel_layout_aux_type :=
| INTEL_LAYOUT_AUX_NONE
| INTEL_LAYOUT_AUX_HIZ
| INTEL_LAYOUT_AUX_MCS.

Inductive intel_cmd_writer_type :=
| INTEL_CMD_WRITER_BATCH
| INTEL_CMD_WRITER_SURFACE
| INTEL_CMD_WRITER_STATE
| INTEL_CMD_WRITER_INSTRUCTION.

Inductive intel_cmd_item_type := INTEL_CMD_ITEM_BLOB.

(** The relocation flags this file sets; [reloc_flags] is the set of bits. *)
Inductive reloc_flag := INTEL_RELOC_WRITE | INTEL_CMD_RELOC_TARGET_IS_WRITER.

Definition VkResult_eq_dec (a b : VkResult) : {a = b} + {a <> b}.
Proof. decide equality; apply Z.eq_dec. Defined.

Definition VkFormat_eq_dec (a b : VkFormat) : {a = b} + {a <> b}.
Proof. decide equality; apply Z.eq_dec. Defined.

Definition VkImageType_eq_dec (a b : VkImageType) : {a = b} + {a <> b}.
Proof. decide equality. Defined.

Definition VkImageAspect_eq_dec (a b : VkImageAspect) : {a = b} + {a <> b}.
Proof. decide equality. Defined.

Definition intel_cmd_meta_ds_op_eq_dec (a b : intel_cmd_meta_ds_op) :
  {a = b} + {a <> b}.
Proof. decide equality. Defined.

(** ** Objects *)

Record intel_layout := {
  layout_format : VkFormat;
  layout_aux : intel_layout_aux_type;
  layout_block_width : Z;     (* unsigned *)
  layout_block_height : Z;    (* unsigned *)
  layout_width0 : Z;
  layout_height0 : Z
}.

Record intel_img := {
  img_bo : Z;                 (* obj.mem->bo *)
  img_type : VkImageType;
  img_mip_levels : Z;         (* uint32_t *)
  img_array_size : Z;         (* uint32_t *)
  img_samples : Z;            (* uint32_t *)
  img_layout : intel_layout
}.

Record intel_buf := {
  buf_bo : Z;                 (* obj.mem->bo *)
  buf_size : Z                (* VkDeviceSize *)
}.

(** *** View creation requests *)

Record VkBufferViewCreateInfo := {
  bvi_buffer : option intel_buf;        (* None is VK_NULL_HANDLE *)
  bvi_viewType : VkBufferViewType;
  bvi_format : VkFormat;
  bvi_offset : Z;
  bvi_range : Z
}.

Record VkImageSubresourceRange := {
  range_aspect : VkImageAspect;
  range_baseMipLevel : Z;
  range_mipLevels : Z;
  range_baseArraySlice : Z;
  range_arraySize : Z
}.

Definition VK_LAST_MIP_LEVEL : Z := 2 ^ 32 - 1.
Definition VK_LAST_ARRAY_SLICE : Z := 2 ^ 32 - 1.

Record VkImageViewCreateInfo := {
  ivi_image : intel_img;
  ivi_viewType : VkImageViewType;
  ivi_format : VkFormat;
  ivi_channels : VkChannelSwizzle * VkChannelSwizzle
                 * VkChannelSwizzle * VkChannelSwizzle;
  ivi_subresourceRange : VkImageSubresourceRange
}.

Record VkColorAttachmentViewCreateInfo := {
  cavi_image : intel_img;
  cavi_format : VkFormat;
  cavi_mipLevel : Z;
  cavi_baseArraySlice : Z;
  cavi_arraySize : Z
}.

Record VkDepthStencilViewCreateInfo := {
  dsvi_image : intel_img;
  dsvi_mipLevel : Z;
  dsvi_baseArraySlice : Z;
  dsvi_arraySize : Z
}.

(** *** Views: the encoded surface words and their count *)

Record intel_buf_view := {
  buf_view_cmd : list Z;
  buf_view_cmd_len : Z
}.

Record intel_img_view := {
  img_view_cmd : list Z;
  img_view_cmd_len : Z
}.

Record intel_att_view := {
  att_view_img : intel_img;
  att_view_mipLevel : Z;
  att_view_att_cmd : list Z;
  att_view_cmd_len : Z
}.

(** *** The meta operation descriptor (struct intel_cmd_meta) *)

Inductive reloc_target_t :=
| RELOC_NONE                              (* the zero of memset *)
| RELOC_BO (bo : Z)                       (* (intptr_t) obj.mem->bo *)
| RELOC_WRITER (w : intel_cmd_writer_type).  (* (intptr_t) writer *)

Record meta_surface := {
  m_valid : bool;
  m_surface : list Z;         (* uint32_t surface[8] *)
  m_surface_len : Z;
  m_reloc_target : reloc_target_t;
  m_reloc_offset : Z;
  m_reloc_flags : list reloc_flag;
  m_lod : Z;
  m_layer : Z;
  m_x : Z;
  m_y : Z
}.

Record meta_ds_state := {
  ds_view : option intel_att_view;
  ds_stencil_ref : Z;
  ds_aspect : VkImageAspect;
  ds_op : intel_cmd_meta_ds_op;
  ds_optimal : bool
}.

Record intel_cmd_meta := {
  meta_mode : intel_cmd_meta_mode;
  meta_shader_id : intel_dev_meta_shader;
  meta_src : meta_surface;
  meta_dst : meta_surface;
  meta_ds : meta_ds_state;
  meta_clear_val : list Z;    (* uint32_t clear_val[4] *)
  meta_width : Z;
  meta_height : Z;
  meta_samples : Z
}.

(** memset(&meta, 0, sizeof(meta)): every enumeration at its first
    enumerator, every number 0, every flag false. *)
Definition zero_surface : meta_surface :=
  {| m_valid := false; m_surface := repeat 0 8%nat; m_surface_len := 0;
     m_reloc_target := RELOC_NONE; m_reloc_offset := 0; m_reloc_flags := [];
     m_lod := 0; m_layer := 0; m_x := 0; m_y := 0 |}.

Definition zero_ds : meta_ds_state :=
  {| ds_view := None; ds_stencil_ref := 0; ds_aspect := VK_IMAGE_ASPECT_COLOR;
     ds_op := INTEL_CMD_META_DS_NOP; ds_optimal := false |}.

Definition zero_meta : intel_cmd_meta :=
  {| meta_mode := INTEL_CMD_META_FS_RECT;
     meta_shader_id := INTEL_DEV_META_VS_FILL_MEM;
     meta_src := zero_surface; meta_dst := zero_surface; meta_ds := zero_ds;
     meta_clear_val := repeat 0 4%nat;
     meta_width := 0; meta_height := 0; meta_samples := 0 |}.

(** Field assignments. *)
Definition set_valid (v : bool) (s : meta_surface) : meta_surface :=
  {| m_valid := v; m_surface := m_surface s; m_surface_len := m_surface_len s;
     m_reloc_target := m_reloc_target s; m_reloc_offset := m_reloc_offset s;
     m_reloc_flags := m_reloc_flags s; m_lod := m_lod s; m_layer := m_layer s;
     m_x := m_x s; m_y := m_y s |}.

Definition set_surface (w : list Z) (s : meta_surface) : meta_surface :=
  {| m_valid := m_valid s; m_surface := w; m_surface_len := m_surface_len s;
     m_reloc_target := m_reloc_target s; m_reloc_offset := m_reloc_offset s;
     m_reloc_flags := m_reloc_flags s; m_lod := m_lod s; m_layer := m_layer s;
     m_x := m_x s; m_y := m_y s |}.

Definition set_surface_len (n : Z) (s : meta_surface) : meta_surface :=
  {| m_valid := m_valid s; m_surface := m_surface s; m_surface_len := n;
     m_reloc_target := m_reloc_target s; m_reloc_offset := m_reloc_offset s;
     m_reloc_flags := m_reloc_flags s; m_lod := m_lod s; m_layer := m_layer s;
     m_x := m_x s; m_y := m_y s |}.

Definition set_reloc_target (t : reloc_target_t) (s : meta_surface) : meta_surface :=
  {| m_valid := m_valid s; m_surface := m_surface s;
     m_surface_len := m_surface_len s;
     m_reloc_target := t; m_reloc_offset := m_reloc_offset s;
     m_reloc_flags := m_reloc_flags s; m_lod := m_lod s; m_layer := m_layer s;
     m_x := m_x s; m_y := m_y s |}.

Definition set_reloc_offset (o : Z) (s : meta_surface) : meta_surface :=
  {| m_valid := m_valid s; m_surface := m_surface s;
     m_surface_len := m_surface_len s;
     m_reloc_target := m_reloc_target s; m_reloc_offset := o;
     m_reloc_flags := m_reloc_flags s; m_lod := m_lod s; m_layer := m_layer s;
     m_x := m_x s; m_y := m_y s |}.

Definition set_reloc_flags (f : list reloc_flag) (s : meta_surface) : meta_surface :=
  {| m_valid := m_valid s; m_surface := m_surface s;
     m_surface_len := m_surface_len s;
     m_reloc_target := m_reloc_target s; m_reloc_offset := m_reloc_offset s;
     m_reloc_flags := f; m_lod := m_lod s; m_layer := m_layer s;
     m_x := m_x s; m_y := m_y s |}.

Definition set_lod (v : Z) (s : meta_surface) : meta_surface :=
  {| m_valid := m_valid s; m_surface := m_surface s;
     m_surface_len := m_surface_len s;
     m_reloc_target := m_reloc_target s; m_reloc_offset := m_reloc_offset s;
     m_reloc_flags := m_reloc_flags s; m_lod := v; m_layer := m_layer s;
     m_x := m_x s; m_y := m_y s |}.

Definition set_layer (v : Z) (s : meta_surface) : meta_surface :=
  {| m_valid := m_valid s; m_surface := m_surface s;
     m_surface_len := m_surface_len s;
     m_reloc_target := m_reloc_target s; m_reloc_offset := m_reloc_offset s;
     m_reloc_flags := m_reloc_flags s; m_lod := m_lod s; m_layer := v;
     m_x := m_x s; m_y := m_y s |}.

Definition set_x (v : Z) (s : meta_surface) : meta_surface :=
  {| m_valid := m_valid s; m_surface := m_surface s;
     m_surface_len := m_surface_len s;
     m_reloc_target := m_reloc_target s; m_reloc_offset := m_reloc_offset s;
     m_reloc_flags := m_reloc_flags s; m_lod := m_lod s; m_layer := m_layer s;
     m_x := v; m_y := m_y s |}.

Definition set_y (v : Z) (s : meta_surface) : meta_surface :=
  {| m_valid := m_valid s; m_surface := m_surface s;
     m_surface_len := m_surface_len s;
     m_reloc_target := m_reloc_target s; m_reloc_offset := m_reloc_offset s;
     m_reloc_flags := m_reloc_flags s; m_lod := m_lod s; m_layer := m_layer s;
     m_x := m_x s; m_y := v |}.

Definition set_mode (v : intel_cmd_meta_mode) (m : intel_cmd_meta) : intel_cmd_meta :=
  {| meta_mode := v; meta_shader_id := meta_shader_id m; meta_src := meta_src m;
     meta_dst := meta_dst m; meta_ds := meta_ds m;
     meta_clear_val := meta_clear_val m; meta_width := meta_width m;
     meta_height := meta_height m; meta_samples := meta_samples m |}.

Definition set_shader_id (v : intel_dev_meta_shader) (m : intel_cmd_meta) : intel_cmd_meta :=
  {| meta_mode := meta_mode m; meta_shader_id := v; meta_src := meta_src m;
     meta_dst := meta_dst m; meta_ds := meta_ds m;
     meta_clear_val := meta_clear_val m; meta_width := meta_width m;
     meta_height := meta_height m; meta_samples := meta_samples m |}.

Definition upd_src (f : meta_surface -> meta_surface) (m : intel_cmd_meta) : intel_cmd_meta :=
  {| meta_mode := meta_mode m; meta_shader_id := meta_shader_id m;
     meta_src := f (meta_src m);
     meta_dst := meta_dst m; meta_ds := meta_ds m;
     meta_clear_val := meta_clear_val m; meta_width := meta_width m;
     meta_height := meta_height m; meta_samples := meta_samples m |}.

Definition upd_dst (f : meta_surface -> meta_surface) (m : intel_cmd_meta) : intel_cmd_meta :=
  {| meta_mode := meta_mode m; meta_shader_id := meta_shader_id m;
     meta_src := meta_src m;
     meta_dst := f (meta_dst m); meta_ds := meta_ds m;
     meta_clear_val := meta_clear_val m; meta_width := meta_width m;
     meta_height := meta_height m; meta_samples := meta_samples m |}.

Definition upd_ds (f : meta_ds_state -> meta_ds_state) (m : intel_cmd_meta) : intel_cmd_meta :=
  {| meta_mode := meta_mode m; meta_shader_id := meta_shader_id m;
     meta_src := meta_src m;
     meta_dst := meta_dst m; meta_ds := f (meta_ds m);
     meta_clear_val := meta_clear_val m; meta_width := meta_width m;
     meta_height := meta_height m; meta_samples := meta_samples m |}.

Definition set_clear_val (v : list Z) (m : intel_cmd_meta) : intel_cmd_meta :=
  {| meta_mode := meta_mode m; meta_shader_id := meta_shader_id m;
     meta_src := meta_src m;
     meta_dst := meta_dst m; meta_ds := meta_ds m;
     meta_clear_val := v; meta_width := meta_width m;
     meta_height := meta_height m; meta_samples := meta_samples m |}.

Definition set_width (v : Z) (m : intel_cmd_meta) : intel_cmd_meta :=
  {| meta_mode := meta_mode m; meta_shader_id := meta_shader_id m;
     meta_src := meta_src m;
     meta_dst := meta_dst m; meta_ds := meta_ds m;
     meta_clear_val := meta_clear_val m; meta_width := v;
     meta_height := meta_height m; meta_samples := meta_samples m |}.

Definition set_height (v : Z) (m : intel_cmd_meta) : intel_cmd_meta :=
  {| meta_mode := meta_mode m; meta_shader_id := meta_shader_id m;
     meta_src := meta_src m;
     meta_dst := meta_dst m; meta_ds := meta_ds m;
     meta_clear_val := meta_clear_val m; meta_width := meta_width m;
     meta_height := v; meta_samples := meta_samples m |}.

Definition set_samples (v : Z) (m : intel_cmd_meta) : intel_cmd_meta :=
  {| meta_mode := meta_mode m; meta_shader_id := meta_shader_id m;
     meta_src := meta_src m;
     meta_dst := meta_dst m; meta_ds := meta_ds m;
     meta_clear_val := meta_clear_val m; meta_width := meta_width m;
     meta_height := meta_height m; meta_samples := v |}.

Definition set_ds_view (v : option intel_att_view) (d : meta_ds_state) : meta_ds_state :=
  {| ds_view := v; ds_stencil_ref := ds_stencil_ref d; ds_aspect := ds_aspect d;
     ds_op := ds_op d; ds_optimal := ds_optimal d |}.

Definition set_ds_stencil_ref (v : Z) (d : meta_ds_state) : meta_ds_state :=
  {| ds_view := ds_view d; ds_stencil_ref := v; ds_aspect := ds_aspect d;
     ds_op := ds_op d; ds_optimal := ds_optimal d |}.

Definition set_ds_aspect (v : VkImageAspect) (d : meta_ds_state) : meta_ds_state :=
  {| ds_view := ds_view d; ds_stencil_ref := ds_stencil_ref d; ds_aspect := v;
     ds_op := ds_op d; ds_optimal := ds_optimal d |}.

Definition set_ds_op (v : intel_cmd_meta_ds_op) (d : meta_ds_state) : meta_ds_state :=
  {| ds_view := ds_view d; ds_stencil_ref := ds_stencil_ref d;
     ds_aspect := ds_aspect d; ds_op := v; ds_optimal := ds_optimal d |}.

Definition set_ds_optimal (v : bool) (d : meta_ds_state) : meta_ds_state :=
  {| ds_view := ds_view d; ds_stencil_ref := ds_stencil_ref d;
     ds_aspect := ds_aspect d; ds_op := ds_op d; ds_optimal := v |}.

(** a[i] = v on an array held as a list; [i] is in range in every use. *)
Fixpoint set_word (i : nat) (v : Z) (a : list Z) : list Z :=
  match a, i with
  | [], _ => []
  | _ :: t, O => v :: t
  | h :: t, S i' => h :: set_word i' v t
  end.

Definition word (i : nat) (a : list Z) : Z := nth i a 0.

Arguments set_word : simpl never.
Arguments word : simpl never.

(** memcpy(dst, src, sizeof(src[0]) * n) on arrays of words. *)
Definition memcpy_words (dst src : list Z) (n : Z) : list Z :=
  firstn (Z.to_nat n) src ++ skipn (Z.to_nat n) dst.

(** ** The device and the command buffer *)

(** The device owns the view constructors (intel_buf_view_create,
    intel_img_view_create, intel_att_view_create_for_color,
    intel_att_view_create_for_ds); each returns a status and, on
    VK_SUCCESS, the view. *)
Record intel_dev := {
  dev_gen : Z;                (* intel_gpu_gen(dev->gpu) *)
  intel_buf_view_create : VkBufferViewCreateInfo -> VkResult * intel_buf_view;
  intel_img_view_create : VkImageViewCreateInfo -> VkResult * intel_img_view;
  intel_att_view_create_for_color :
    VkColorAttachmentViewCreateInfo -> VkResult * intel_att_view;
  intel_att_view_create_for_ds :
    VkDepthStencilViewCreateInfo -> VkResult * intel_att_view
}.

Record intel_render_pass_subpass := {
  subpass_color_indices : list Z;
  subpass_ds_index : Z
}.

Record intel_fb := { fb_views : list intel_att_view }.

Record intel_cmd := {
  cmd_dev : intel_dev;
  cmd_bind_render_pass_subpass : intel_render_pass_subpass;
  cmd_bind_fb : intel_fb
}.

Definition cmd_gen (cmd : intel_cmd) : Z := dev_gen (cmd_dev cmd).

(** ** Events: the calls made to the collaborators *)

Inductive event :=
| EvFail (res : VkResult)                          (* cmd_fail(cmd, res) *)
| EvDraw (meta : intel_cmd_meta)                   (* cmd_draw_meta(cmd, &meta) *)
| EvBufViewCreate (info : VkBufferViewCreateInfo)
| EvImgViewCreate (info : VkImageViewCreateInfo)
| EvColorViewCreate (info : VkColorAttachmentViewCreateInfo)
| EvDsViewCreate (info : VkDepthStencilViewCreateInfo)
| EvBufViewDestroy (view : intel_buf_view)
| EvImgViewDestroy (view : intel_img_view)
| EvAttViewDestroy (view : option intel_att_view)
| EvStateBlob (offset : Z) (len : Z) (data : list Z) (* cmd_state_pointer + memcpy *)
| EvLog (msg : string)                             (* intel_dev_log(..., msg) *)
| EvAssert (msg : string).                         (* a failed assert() *)

(** A computation returns its value and the events it emitted. *)
Definition M (A : Type) : Type := A * list event.

Definition ret {A} (a : A) : M A := (a, []).

Definition bind {A B} (m : M A) (f : A -> M B) : M B :=
  let (a, e1) := m in
  let (b, e2) := f a in
  (b, e1 ++ e2).

Definition emit (ev : event) : M unit := (tt, [ev]).

Declare Scope meta_scope.
Delimit Scope meta_scope with meta.
Notation "x <- m ;; k" := (bind m (fun x => k))
  (at level 61, m at next level, right associativity) : meta_scope.
Notation "m ;; k" := (bind m (fun _ => k))
  (at level 61, right associativity) : meta_scope.
Local Open Scope meta_scope.

(** Modelled from the spec: cmd_fail (the error sink) and cmd_draw_meta (the
    meta dispatcher) are defined outside cmd_meta.c.  The spec has them take
    (context, error code) and (MetaOperation); a call is recorded as an
    event holding its argument. *)
Definition cmd_fail (cmd : intel_cmd) (res : VkResult) : M unit :=
  emit (EvFail res).

Definition cmd_draw_meta (cmd : intel_cmd) (meta : intel_cmd_meta) : M unit :=
  emit (EvDraw meta).

(** for (...) over a list of items, threading the variables the body writes. *)
Fixpoint for_each {A S} (l : list A) (body : A -> S -> M S) (s : S) : M S :=
  match l with
  | [] => ret s
  | a :: t => s' <- body a s ;; for_each t body s'
  end.

(** for (j = 0; j < n; j++) with a body that does not read j. *)
Fixpoint repeat_loop {S} (n : nat) (body : S -> M S) (s : S) : M S :=
  match n with
  | O => ret s
  | S n' => s' <- body s ;; repeat_loop n' body s'
  end.

Definition events_of {A} (m : M A) : list event := snd m.

Fixpoint draws (t : list event) : list intel_cmd_meta :=
  match t with
  | [] => []
  | EvDraw m :: t' => m :: draws t'
  | _ :: t' => draws t'
  end.

Fixpoint fails (t : list event) : list VkResult :=
  match t with
  | [] => []
  | EvFail r :: t' => r :: fails t'
  | _ :: t' => fails t'
  end.

(** Modelled from the spec: the error sink behind cmd_fail is outside
    cmd_meta.c; the spec has it record the first error reported on the
    context and ignore later ones.  [cmd_result] is the status a context
    that started clean carries after the events [t]. *)
Definition cmd_result (t : list event) : VkResult :=
  match fails t with
  | [] => VK_SUCCESS
  | r :: _ => r
  end.

(** ** Parameters of the entry points (vulkan.h) *)

Record VkBufferCopy := {
  bc_srcOffset : Z;           (* VkDeviceSize *)
  bc_destOffset : Z;
  bc_copySize : Z
}.

Record VkImageSubresource := {
  sub_aspect : VkImageAspect;
  sub_mipLevel : Z;
  sub_arraySlice : Z
}.

Record VkOffset3D := { off_x : Z; off_y : Z; off_z : Z }.          (* int32_t *)
Record VkExtent3D := { ext_width : Z; ext_height : Z; ext_depth : Z }.
Record VkRect3D := { rect_offset : VkOffset3D; rect_extent : VkExtent3D }.

Record VkImageCopy := {
  ic_srcSubresource : VkImageSubresource;
  ic_srcOffset : VkOffset3D;
  ic_destSubresource : VkImageSubresource;
  ic_destOffset : VkOffset3D;
  ic_extent : VkExtent3D
}.

Record VkBufferImageCopy := {
  bic_bufferOffset : Z;
  bic_imageSubresource : VkImageSubresource;
  bic_imageOffset : VkOffset3D;
  bic_imageExtent : VkExtent3D
}.

Record VkImageResolve := {
  ir_srcSubresource : VkImageSubresource;
  ir_srcOffset : VkOffset3D;
  ir_destSubresource : VkImageSubresource;
  ir_destOffset : VkOffset3D;
  ir_extent : VkExtent3D
}.

Record VkImageBlit := {
  ib_srcSubresource : VkImageSubresource;
  ib_srcOffset : VkOffset3D;
  ib_srcExtent : VkExtent3D;
  ib_destSubresource : VkImageSubresource;
  ib_destOffset : VkOffset3D;
  ib_destExtent : VkExtent3D
}.

Inductive VkTexFilter := VK_TEX_FILTER_NEAREST | VK_TEX_FILTER_LINEAR.

(** VkImageAspectFlags: the two bits vkCmdClearDepthStencilAttachment tests. *)
Record VkImageAspectFlags := {
  VK_IMAGE_ASPECT_DEPTH_BIT : bool;
  VK_IMAGE_ASPECT_STENCIL_BIT : bool
}.

(** ** Collaborators outside cmd_meta.c *)

(** A field of the hardware surface state: its bit offset and its mask
    (the F__SHIFT and F__MASK constants of the generation headers). *)
Record gen_field := {
  f_shift : Z;
  f_mask : Z
}.

(** Modelled from the spec: the macros GEN_EXTRACT and GEN_SHIFT32 are
    defined in genhw.h.  A field is described by a bit offset and a mask:
    reading masks the word and shifts it down, writing shifts the 32-bit
    value up to the field's offset. *)
Definition GEN_EXTRACT (val : Z) (f : gen_field) : Z :=
  Z.shiftr (Z.land val (f_mask f)) (f_shift f).

Definition GEN_SHIFT32 (val : Z) (f : gen_field) : Z :=
  u32 (Z.shiftl (u32 val) (f_shift f)).

(** The functions and constants cmd_meta.c takes from other files:
    format queries (icd-format.h), image layout (layout.h, img.h), the
    generation headers, small utilities, and the state writer. *)
Class externals := {
  c_float : Type;
  INTEL_GEN : Z -> Z;
  icd_format_get_size : VkFormat -> Z;
  icd_format_is_compressed : VkFormat -> bool;
  icd_format_get_block_width : VkFormat -> Z;
  (* returns the tile-aligned byte offset and the x and y offsets *)
  intel_layout_get_slice_tile_offset : intel_layout -> Z -> Z -> Z * Z * Z;
  intel_img_can_enable_hiz : intel_img -> Z -> bool;
  u_minify : Z -> Z -> Z;
  u_fui : c_float -> Z;
  (* the offset cmd_state_pointer returns for an item of [len] dwords *)
  cmd_state_pointer : intel_cmd -> intel_cmd_item_type -> Z -> Z -> Z;
  GEN6_SURFACE_DW2_WIDTH : gen_field;
  GEN6_SURFACE_DW2_HEIGHT : gen_field;
  GEN6_SURFACE_DW4_MIN_ARRAY_ELEMENT : gen_field;
  GEN6_SURFACE_DW5_X_OFFSET : gen_field;
  GEN6_SURFACE_DW5_Y_OFFSET : gen_field;
  GEN7_SURFACE_DW2_WIDTH : gen_field;
  GEN7_SURFACE_DW2_HEIGHT : gen_field;
  GEN7_SURFACE_DW4_MIN_ARRAY_ELEMENT : gen_field;
  GEN7_SURFACE_DW5_X_OFFSET : gen_field;
  GEN7_SURFACE_DW5_Y_OFFSET : gen_field
}.

(** The outcome of a function that guards a case with assert(): either the
    value, or the failed assertion together with the value a build without
    assertions goes on with. *)
Inductive checked (A : Type) :=
| Passed (a : A)
| AssertFailed (msg : string) (a : A).
Arguments Passed {A} a.
Arguments AssertFailed {A} msg a.

(** A caller goes on with the value; a failed assertion is recorded in the
    trace. *)
Definition run_checked {A} (c : checked A) : M A :=
  match c with
  | Passed a => ret a
  | AssertFailed msg a => emit (EvAssert msg) ;; ret a
  end.

Section Meta.

Context {X : externals}.

(** ** Surface bindings *)

Definition cmd_meta_create_buf_view (cmd : intel_cmd) (buf : option intel_buf)
    (range : Z) (format : VkFormat) : M (VkResult * intel_buf_view) :=
  let stride := icd_format_get_size format in
  let range :=
    if range mod stride =? 0 then range
    else u64 (range + (stride - range mod stride)) in
  let info := {| bvi_buffer := buf;
                 bvi_viewType := VK_BUFFER_VIEW_TYPE_FORMATTED;
                 bvi_format := format;
                 bvi_offset := 0;
                 bvi_range := range |} in
  emit (EvBufViewCreate info) ;;
  ret (intel_buf_view_create (cmd_dev cmd) info).

Definition cmd_meta_set_src_for_buf (cmd : intel_cmd) (buf : intel_buf)
    (format : VkFormat) (meta : intel_cmd_meta) : M intel_cmd_meta :=
  rv <- cmd_meta_create_buf_view cmd (Some buf) (buf_size buf) format ;;
  let (res, view) := rv in
  if VkResult_eq_dec res VK_SUCCESS then
    let meta := upd_src (set_valid true) meta in
    let meta := upd_src (fun s => set_surface
                  (memcpy_words (m_surface s) (buf_view_cmd view)
                     (buf_view_cmd_len view)) s) meta in
    let meta := upd_src (set_surface_len (buf_view_cmd_len view)) meta in
    emit (EvBufViewDestroy view) ;;
    let meta := upd_src (set_reloc_target (RELOC_BO (buf_bo buf))) meta in
    let meta := upd_src (set_reloc_offset 0) meta in
    ret (upd_src (set_reloc_flags []) meta)
  else
    cmd_fail cmd res ;; ret meta.

Definition cmd_meta_set_dst_for_buf (cmd : intel_cmd) (buf : intel_buf)
    (format : VkFormat) (meta : intel_cmd_meta) : M intel_cmd_meta :=
  rv <- cmd_meta_create_buf_view cmd (Some buf) (buf_size buf) format ;;
  let (res, view) := rv in
  if VkResult_eq_dec res VK_SUCCESS then
    let meta := upd_dst (set_valid true) meta in
    let meta := upd_dst (fun s => set_surface
                  (memcpy_words (m_surface s) (buf_view_cmd view)
                     (buf_view_cmd_len view)) s) meta in
    let meta := upd_dst (set_surface_len (buf_view_cmd_len view)) meta in
    emit (EvBufViewDestroy view) ;;
    let meta := upd_dst (set_reloc_target (RELOC_BO (buf_bo buf))) meta in
    let meta := upd_dst (set_reloc_offset 0) meta in
    ret (upd_dst (set_reloc_flags [INTEL_RELOC_WRITE]) meta)
  else
    cmd_fail cmd res ;; ret meta.

Definition cmd_meta_set_src_for_img (cmd : intel_cmd) (img : intel_img)
    (format : VkFormat) (aspect : VkImageAspect) (meta : intel_cmd_meta)
    : M intel_cmd_meta :=
  let viewType :=
    if img_array_size img =? 1 then
      match img_type img with
      | VK_IMAGE_TYPE_1D => VK_IMAGE_VIEW_TYPE_1D
      | VK_IMAGE_TYPE_2D => VK_IMAGE_VIEW_TYPE_2D
      | _ => VK_IMAGE_VIEW_TYPE_1D        (* left at the zero of memset *)
      end
    else
      match img_type img with
      | VK_IMAGE_TYPE_1D => VK_IMAGE_VIEW_TYPE_1D_ARRAY
      | VK_IMAGE_TYPE_2D => VK_IMAGE_VIEW_TYPE_2D_ARRAY
      | VK_IMAGE_TYPE_3D => VK_IMAGE_VIEW_TYPE_3D
      end in
  let info := {| ivi_image := img;
                 ivi_viewType := viewType;
                 ivi_format := format;
                 ivi_channels := (VK_CHANNEL_SWIZZLE_R, VK_CHANNEL_SWIZZLE_G,
                                  VK_CHANNEL_SWIZZLE_B, VK_CHANNEL_SWIZZLE_A);
                 ivi_subresourceRange :=
                   {| range_aspect := aspect;
                      range_baseMipLevel := 0;
                      range_mipLevels := VK_LAST_MIP_LEVEL;
                      range_baseArraySlice := 0;
                      range_arraySize := VK_LAST_ARRAY_SLICE |} |} in
  emit (EvImgViewCreate info) ;;
  let (res, view) := intel_img_view_create (cmd_dev cmd) info in
  if VkResult_eq_dec res VK_SUCCESS then
    let meta := upd_src (set_valid true) meta in
    let meta := upd_src (fun s => set_surface
                  (memcpy_words (m_surface s) (img_view_cmd view)
                     (img_view_cmd_len view)) s) meta in
    let meta := upd_src (set_surface_len (img_view_cmd_len view)) meta in
    let meta := upd_src (set_reloc_target (RELOC_BO (img_bo img))) meta in
    let meta := upd_src (set_reloc_offset 0) meta in
    let meta := upd_src (set_reloc_flags []) meta in
    emit (EvImgViewDestroy view) ;;
    ret meta
  else
    cmd_fail cmd res ;; ret meta.

(** ** The compressed-layout adjuster *)

Definition cmd_meta_adjust_compressed_dst (cmd : intel_cmd) (img : intel_img)
    (meta : intel_cmd_meta) : intel_cmd_meta :=
  let gen7 := INTEL_GEN 7 <=? cmd_gen cmd in
  let surf := m_surface (meta_dst meta) in
  let w := if gen7 then GEN_EXTRACT (word 2 surf) GEN7_SURFACE_DW2_WIDTH
           else GEN_EXTRACT (word 2 surf) GEN6_SURFACE_DW2_WIDTH in
  let h := if gen7 then GEN_EXTRACT (word 2 surf) GEN7_SURFACE_DW2_HEIGHT
           else GEN_EXTRACT (word 2 surf) GEN6_SURFACE_DW2_HEIGHT in
  let layer :=
    if gen7 then GEN_EXTRACT (word 4 surf) GEN7_SURFACE_DW4_MIN_ARRAY_ELEMENT
    else GEN_EXTRACT (word 4 surf) GEN6_SURFACE_DW4_MIN_ARRAY_ELEMENT in
  let bw := layout_block_width (img_layout img) in
  let bh := layout_block_height (img_layout img) in
  (* note that the width/height fields have the real values minus 1 *)
  let w := u32 (u32 (w + bw) / bw - 1) in
  let h := u32 (u32 (h + bh) / bh - 1) in
  (* adjust width and height *)
  let dw2 :=
    if gen7 then
      Z.lor (Z.land (word 2 surf)
               (u32 (Z.lnot (Z.lor (f_mask GEN7_SURFACE_DW2_WIDTH)
                                   (f_mask GEN7_SURFACE_DW2_HEIGHT)))))
            (Z.lor (GEN_SHIFT32 w GEN7_SURFACE_DW2_WIDTH)
                   (GEN_SHIFT32 h GEN7_SURFACE_DW2_HEIGHT))
    else
      Z.lor (Z.land (word 2 surf)
               (u32 (Z.lnot (Z.lor (f_mask GEN6_SURFACE_DW2_WIDTH)
                                   (f_mask GEN6_SURFACE_DW2_HEIGHT)))))
            (Z.lor (GEN_SHIFT32 w GEN6_SURFACE_DW2_WIDTH)
                   (GEN_SHIFT32 h GEN6_SURFACE_DW2_HEIGHT)) in
  let meta := upd_dst (fun s => set_surface (set_word 2 dw2 (m_surface s)) s) meta in
  if layer =? 0 then meta
  else
    let '(offset, x_offset, y_offset) :=
      intel_layout_get_slice_tile_offset (img_layout img) 0 layer in
    let meta := upd_dst (set_reloc_offset (u32 offset)) meta in
    (* the lower 2 bits (or 1 bit for Y) are missing *)
    let x_offset := Z.shiftr (x_offset / bw) 2 in
    let y_offset := Z.shiftr (y_offset / bh) 1 in
    (* adjust min array element and X/Y offsets *)
    let surf := m_surface (meta_dst meta) in
    let dw4 :=
      if gen7 then
        Z.land (word 4 surf)
          (u32 (Z.lnot (f_mask GEN7_SURFACE_DW4_MIN_ARRAY_ELEMENT)))
      else
        Z.land (word 4 surf)
          (u32 (Z.lnot (f_mask GEN6_SURFACE_DW4_MIN_ARRAY_ELEMENT))) in
    let dw5 :=
      if gen7 then
        Z.lor (word 5 surf)
          (Z.lor (GEN_SHIFT32 x_offset GEN7_SURFACE_DW5_X_OFFSET)
                 (GEN_SHIFT32 y_offset GEN7_SURFACE_DW5_Y_OFFSET))
      else
        Z.lor (word 5 surf)
          (Z.lor (GEN_SHIFT32 x_offset GEN6_SURFACE_DW5_X_OFFSET)
                 (GEN_SHIFT32 y_offset GEN6_SURFACE_DW5_Y_OFFSET)) in
    upd_dst (fun s => set_surface
               (set_word 5 dw5 (set_word 4 dw4 (m_surface s))) s) meta.

Definition cmd_meta_set_dst_for_img (cmd : intel_cmd) (img : intel_img)
    (format : VkFormat) (lod layer : Z) (meta : intel_cmd_meta)
    : M intel_cmd_meta :=
  let info := {| cavi_image := img;
                 cavi_format := format;
                 cavi_mipLevel := lod;
                 cavi_baseArraySlice := layer;
                 cavi_arraySize := 1 |} in
  emit (EvColorViewCreate info) ;;
  let (res, view) := intel_att_view_create_for_color (cmd_dev cmd) info in
  if VkResult_eq_dec res VK_SUCCESS then
    let meta := upd_dst (set_valid true) meta in
    let meta := upd_dst (fun s => set_surface
                  (memcpy_words (m_surface s) (att_view_att_cmd view)
                     (att_view_cmd_len view)) s) meta in
    let meta := upd_dst (set_surface_len (att_view_cmd_len view)) meta in
    let meta := upd_dst (set_reloc_target (RELOC_BO (img_bo img))) meta in
    let meta := upd_dst (set_reloc_offset 0) meta in
    let meta := upd_dst (set_reloc_flags [INTEL_RELOC_WRITE]) meta in
    let meta :=
      if icd_format_is_compressed (layout_format (img_layout img))
      then cmd_meta_adjust_compressed_dst cmd img meta
      else meta in
    emit (EvAttViewDestroy (Some view)) ;;
    ret meta
  else
    cmd_fail cmd res ;; ret meta.

Definition cmd_meta_set_src_for_writer (cmd : intel_cmd)
    (writer : intel_cmd_writer_type) (size : Z) (format : VkFormat)
    (meta : intel_cmd_meta) : M intel_cmd_meta :=
  rv <- cmd_meta_create_buf_view cmd None size format ;;
  let (res, view) := rv in
  if VkResult_eq_dec res VK_SUCCESS then
    let meta := upd_src (set_valid true) meta in
    let meta := upd_src (fun s => set_surface
                  (memcpy_words (m_surface s) (buf_view_cmd view)
                     (buf_view_cmd_len view)) s) meta in
    let meta := upd_src (set_surface_len (buf_view_cmd_len view)) meta in
    emit (EvBufViewDestroy view) ;;
    let meta := upd_src (set_reloc_target (RELOC_WRITER writer)) meta in
    let meta := upd_src (set_reloc_offset 0) meta in
    ret (upd_src (set_reloc_flags [INTEL_CMD_RELOC_TARGET_IS_WRITER]) meta)
  else
    cmd_fail cmd res ;; ret meta.

Definition cmd_meta_set_ds_view (cmd : intel_cmd) (img : intel_img)
    (lod layer : Z) (meta : intel_cmd_meta) : M intel_cmd_meta :=
  let info := {| dsvi_image := img;
                 dsvi_mipLevel := lod;
                 dsvi_baseArraySlice := layer;
                 dsvi_arraySize := 1 |} in
  emit (EvDsViewCreate info) ;;
  let (res, view) := intel_att_view_create_for_ds (cmd_dev cmd) info in
  if VkResult_eq_dec res VK_SUCCESS then
    ret (upd_ds (set_ds_view (Some view)) meta)
  else
    cmd_fail cmd res ;; ret meta.

Definition cmd_meta_set_ds_state (cmd : intel_cmd) (aspect : VkImageAspect)
    (stencil_ref : Z) (meta : intel_cmd_meta) : intel_cmd_meta :=
  upd_ds (set_ds_aspect aspect) (upd_ds (set_ds_stencil_ref stencil_ref) meta).

(** ** Shader and format selection *)

Definition get_shader_id (dev : intel_dev) (img : intel_img)
    (copy_array : bool) : intel_dev_meta_shader :=
  match img_type img with
  | VK_IMAGE_TYPE_1D =>
      if copy_array then INTEL_DEV_META_FS_COPY_1D_ARRAY
      else INTEL_DEV_META_FS_COPY_1D
  | VK_IMAGE_TYPE_2D =>
      if 1 <? img_samples img then INTEL_DEV_META_FS_COPY_2D_MS
      else if copy_array then INTEL_DEV_META_FS_COPY_2D_ARRAY
      else INTEL_DEV_META_FS_COPY_2D
  | VK_IMAGE_TYPE_3D => INTEL_DEV_META_FS_COPY_2D_ARRAY
  end.

Definition cmd_meta_mem_dword_aligned (cmd : intel_cmd)
    (src_offset dst_offset size : Z) : bool :=
  Z.land (Z.lor (Z.lor src_offset dst_offset) size) 3 =? 0.

Definition cmd_meta_img_raw_format (cmd : intel_cmd) (format : VkFormat)
    : checked VkFormat :=
  match icd_format_get_size format with
  | 1 => Passed VK_FORMAT_R8_UINT
  | 2 => Passed VK_FORMAT_R16_UINT
  | 4 => Passed VK_FORMAT_R32_UINT
  | 8 => Passed VK_FORMAT_R32G32_UINT
  | 16 => Passed VK_FORMAT_R32G32B32A32_UINT
  | _ => AssertFailed "unsupported image format for raw blit op"
           VK_FORMAT_UNDEFINED
  end.

(** ** Buffer copies *)

(** The tail of one iteration of vkCmdCopyBuffer: rebind when the stride
    format changes, then draw. *)
Definition copy_buffer_draw (cmd : intel_cmd) (src dst : intel_buf)
    (format fmt : VkFormat) (meta : intel_cmd_meta)
    : M (VkFormat * intel_cmd_meta) :=
  if VkFormat_eq_dec format fmt then
    cmd_draw_meta cmd meta ;; ret (format, meta)
  else
    meta <- cmd_meta_set_src_for_buf cmd src fmt meta ;;
    meta <- cmd_meta_set_dst_for_buf cmd dst fmt meta ;;
    cmd_draw_meta cmd meta ;; ret (fmt, meta).

(** One iteration of the region loop; the loop carries [format] and [meta]. *)
Definition copy_buffer_region (cmd : intel_cmd) (src dst : intel_buf)
    (region : VkBufferCopy) (st : VkFormat * intel_cmd_meta)
    : M (VkFormat * intel_cmd_meta) :=
  let (format, meta) := st in
  let meta := upd_src (set_x (u32 (bc_srcOffset region))) meta in
  let meta := upd_dst (set_x (u32 (bc_destOffset region))) meta in
  let meta := set_width (u32 (bc_copySize region)) meta in
  if cmd_meta_mem_dword_aligned cmd (bc_srcOffset region)
       (bc_destOffset region) (bc_copySize region) then
    let meta := set_shader_id INTEL_DEV_META_VS_COPY_MEM meta in
    let meta := upd_src (fun s => set_x (m_x s / 4) s) meta in
    let meta := upd_dst (fun s => set_x (m_x s / 4) s) meta in
    let meta := set_width (meta_width meta / 4) meta in
    (* INTEL_DEV_META_VS_COPY_MEM is untyped but expects the stride to be 16 *)
    copy_buffer_draw cmd src dst format VK_FORMAT_R32G32B32A32_UINT meta
  else if cmd_gen cmd =? INTEL_GEN 6 then
    emit (EvLog "unaligned vkCmdCopyBuffer unsupported") ;;
    cmd_fail cmd VK_ERROR_UNKNOWN ;;
    ret (format, meta)                                    (* continue *)
  else
    let meta := set_shader_id INTEL_DEV_META_VS_COPY_MEM_UNALIGNED meta in
    (* INTEL_DEV_META_VS_COPY_MEM_UNALIGNED is untyped but expects the
       stride to be 4 *)
    copy_buffer_draw cmd src dst format VK_FORMAT_R8G8B8A8_UINT meta.

(** The state of the loop when it is entered. *)
Definition copy_buffer_init : VkFormat * intel_cmd_meta :=
  (VK_FORMAT_UNDEFINED,
   set_samples 1 (set_height 1 (set_mode INTEL_CMD_META_VS_POINTS zero_meta))).

Definition vkCmdCopyBuffer (cmd : intel_cmd) (src dst : intel_buf)
    (pRegions : list VkBufferCopy) : M unit :=
  for_each pRegions (copy_buffer_region cmd src dst) copy_buffer_init ;;
  ret tt.

(** ** Image copies *)

Definition copy_image_layer (cmd : intel_cmd) (dst : intel_img)
    (format : VkFormat) (meta : intel_cmd_meta) : M intel_cmd_meta :=
  meta <- cmd_meta_set_dst_for_img cmd dst format
            (m_lod (meta_dst meta)) (m_layer (meta_dst meta)) meta ;;
  cmd_draw_meta cmd meta ;;
  let meta := upd_src (fun s => set_layer (u32 (m_layer s + 1)) s) meta in
  ret (upd_dst (fun s => set_layer (u32 (m_layer s + 1)) s) meta).

(** [raw] is [Some raw_format] when raw_copy is set. *)
Definition copy_image_region (cmd : intel_cmd) (src dst : intel_img)
    (raw : option VkFormat) (region : VkImageCopy) (meta : intel_cmd_meta)
    : M intel_cmd_meta :=
  let meta := set_shader_id
                (get_shader_id (cmd_dev cmd) src
                   (1 <? ext_depth (ic_extent region))) meta in
  let meta := upd_src (set_lod (sub_mipLevel (ic_srcSubresource region))) meta in
  let meta := upd_src (set_layer
                (u32 (sub_arraySlice (ic_srcSubresource region)
                      + off_z (ic_srcOffset region)))) meta in
  let meta := upd_src (set_x (u32 (off_x (ic_srcOffset region)))) meta in
  let meta := upd_src (set_y (u32 (off_y (ic_srcOffset region)))) meta in
  let meta := upd_dst (set_lod (sub_mipLevel (ic_destSubresource region))) meta in
  let meta := upd_dst (set_layer
                (u32 (sub_arraySlice (ic_destSubresource region)
                      + off_z (ic_destOffset region)))) meta in
  let meta := upd_dst (set_x (u32 (off_x (ic_destOffset region)))) meta in
  let meta := upd_dst (set_y (u32 (off_y (ic_destOffset region)))) meta in
  let meta := set_width (u32 (ext_width (ic_extent region))) meta in
  let meta := set_height (u32 (ext_height (ic_extent region))) meta in
  let meta :=
    match raw with
    | Some raw_format =>
        let block_width := u32 (icd_format_get_block_width raw_format) in
        let meta := upd_src (fun s => set_x (m_x s / block_width) s) meta in
        let meta := upd_src (fun s => set_y (m_y s / block_width) s) meta in
        let meta := upd_dst (fun s => set_x (m_x s / block_width) s) meta in
        let meta := upd_dst (fun s => set_y (m_y s / block_width) s) meta in
        let meta := set_width (meta_width meta / block_width) meta in
        set_height (meta_height meta / block_width) meta
    | None => meta
    end in
  repeat_loop (Z.to_nat (u32 (ext_depth (ic_extent region))))
    (copy_image_layer cmd dst
       (match raw with
        | Some raw_format => raw_format
        | None => layout_format (img_layout dst)
        end))
    meta.

Definition copy_image_regions (cmd : intel_cmd) (src dst : intel_img)
    (raw : option VkFormat) (pRegions : list VkImageCopy) : M unit :=
  let meta := set_mode INTEL_CMD_META_FS_RECT zero_meta in
  meta <- cmd_meta_set_src_for_img cmd src
            (match raw with
             | Some raw_format => raw_format
             | None => layout_format (img_layout src)
             end)
            VK_IMAGE_ASPECT_COLOR meta ;;
  let meta := set_samples (img_samples dst) meta in
  for_each pRegions (copy_image_region cmd src dst raw) meta ;;
  ret tt.

Definition vkCmdCopyImage (cmd : intel_cmd) (src dst : intel_img)
    (pRegions : list VkImageCopy) : M unit :=
  if VkImageType_eq_dec (img_type src) (img_type dst) then
    if VkFormat_eq_dec (layout_format (img_layout src))
                       (layout_format (img_layout dst)) then
      raw_format <- run_checked
                      (cmd_meta_img_raw_format cmd
                         (layout_format (img_layout src))) ;;
      copy_image_regions cmd src dst (Some raw_format) pRegions
    else if icd_format_is_compressed (layout_format (img_layout src))
            || icd_format_is_compressed (layout_format (img_layout dst)) then
      cmd_fail cmd VK_ERROR_UNKNOWN
    else
      copy_image_regions cmd src dst None pRegions
  else
    cmd_fail cmd VK_ERROR_UNKNOWN.

Definition vkCmdBlitImage (cmd : intel_cmd)
    (srcImage : intel_img) (srcImageLayout : VkImageLayout)
    (destImage : intel_img) (destImageLayout : VkImageLayout)
    (pRegions : list VkImageBlit) (filter : VkTexFilter) : M unit :=
  (* TODO: Implement actual blit function. *)
  cmd_fail cmd VK_ERROR_UNAVAILABLE.

(** ** Copies between buffers and images *)

Definition copy_mem_to_img_layer (cmd : intel_cmd) (img : intel_img)
    (format : VkFormat) (meta : intel_cmd_meta) : M intel_cmd_meta :=
  meta <- cmd_meta_set_dst_for_img cmd img format
            (m_lod (meta_dst meta)) (m_layer (meta_dst meta)) meta ;;
  cmd_draw_meta cmd meta ;;
  let meta := upd_src (fun s => set_x
                (u32 (m_x s + u32 (meta_width meta * meta_height meta))) s)
                meta in
  ret (upd_dst (fun s => set_layer (u32 (m_layer s + 1)) s) meta).

(** vkCmdCopyBufferToImage where its divisions are defined. *)
Definition copy_mem_to_img_regions (cmd : intel_cmd) (buf : intel_buf)
    (img : intel_img) (pRegions : list VkBufferImageCopy) : M unit :=
  let meta := set_mode INTEL_CMD_META_FS_RECT zero_meta in
  let meta := set_shader_id INTEL_DEV_META_FS_COPY_MEM_TO_IMG meta in
  let meta := set_samples (img_samples img) meta in
  format <- run_checked
              (cmd_meta_img_raw_format cmd (layout_format (img_layout img))) ;;
  let block_width :=
    u32 (icd_format_get_block_width (layout_format (img_layout img))) in
  meta <- cmd_meta_set_src_for_buf cmd buf format meta ;;
  for_each pRegions
    (fun region meta =>
       let meta := upd_src (set_x
                     (u32 (bic_bufferOffset region
                           / icd_format_get_size format))) meta in
       let meta := upd_dst (set_lod
                     (sub_mipLevel (bic_imageSubresource region))) meta in
       let meta := upd_dst (set_layer
                     (u32 (sub_arraySlice (bic_imageSubresource region)
                           + off_z (bic_imageOffset region)))) meta in
       let meta := upd_dst (set_x
                     (u32 (off_x (bic_imageOffset region)) / block_width))
                     meta in
       let meta := upd_dst (set_y
                     (u32 (off_y (bic_imageOffset region)) / block_width))
                     meta in
       let meta := set_width
                     (u32 (ext_width (bic_imageExtent region)) / block_width)
                     meta in
       let meta := set_height
                     (u32 (ext_height (bic_imageExtent region)) / block_width)
                     meta in
       repeat_loop (Z.to_nat (u32 (ext_depth (bic_imageExtent region))))
         (copy_mem_to_img_layer cmd img format) meta)
    meta ;;
  ret tt.

(** The call divides by the size of the raw format: range % stride in
    cmd_meta_create_buf_view, for the source binding, and
    bufferOffset / size in the loop.  When that size is 0, as it is for the
    VK_FORMAT_UNDEFINED that cmd_meta_img_raw_format leaves for a texel size
    it does not know, the first division has no result and the call does not
    return: [None]. *)
Definition vkCmdCopyBufferToImage (cmd : intel_cmd) (buf : intel_buf)
    (img : intel_img) (pRegions : list VkBufferImageCopy) : option (M unit) :=
  let format :=
    match cmd_meta_img_raw_format cmd (layout_format (img_layout img)) with
    | Passed format => format
    | AssertFailed _ format => format
    end in
  if icd_format_get_size format =? 0 then None
  else Some (copy_mem_to_img_regions cmd buf img pRegions).

Definition copy_img_to_mem_layer (cmd : intel_cmd) (meta : intel_cmd_meta)
    : M intel_cmd_meta :=
  cmd_draw_meta cmd meta ;;
  let meta := upd_src (fun s => set_layer (u32 (m_layer s + 1)) s) meta in
  ret (upd_dst (fun s => set_x
         (u32 (m_x s + u32 (meta_width meta * meta_height meta))) s) meta).

Definition vkCmdCopyImageToBuffer (cmd : intel_cmd) (img : intel_img)
    (buf : intel_buf) (pRegions : list VkBufferImageCopy) : M unit :=
  let meta := set_mode INTEL_CMD_META_VS_POINTS zero_meta in
  img_format <- run_checked
                  (cmd_meta_img_raw_format cmd
                     (layout_format (img_layout img))) ;;
  let block_width := u32 (icd_format_get_block_width img_format) in
  (* buf_format is ignored by hw, but we derive stride from it *)
  let '(meta, img_format, buf_format) :=
    match img_format with
    | VK_FORMAT_R8_UINT =>
        (set_shader_id INTEL_DEV_META_VS_COPY_R8_TO_MEM meta,
         img_format, VK_FORMAT_R8G8B8A8_UINT)
    | VK_FORMAT_R16_UINT =>
        (set_shader_id INTEL_DEV_META_VS_COPY_R16_TO_MEM meta,
         img_format, VK_FORMAT_R8G8B8A8_UINT)
    | VK_FORMAT_R32_UINT =>
        (set_shader_id INTEL_DEV_META_VS_COPY_R32_TO_MEM meta,
         img_format, VK_FORMAT_R32G32B32A32_UINT)
    | VK_FORMAT_R32G32_UINT =>
        (set_shader_id INTEL_DEV_META_VS_COPY_R32G32_TO_MEM meta,
         img_format, VK_FORMAT_R32G32B32A32_UINT)
    | VK_FORMAT_R32G32B32A32_UINT =>
        (set_shader_id INTEL_DEV_META_VS_COPY_R32G32B32A32_TO_MEM meta,
         img_format, VK_FORMAT_R32G32B32A32_UINT)
    | _ => (meta, VK_FORMAT_UNDEFINED, VK_FORMAT_UNDEFINED)
    end in
  if (if VkFormat_eq_dec img_format VK_FORMAT_UNDEFINED then true else false)
     || ((cmd_gen cmd =? INTEL_GEN 6)
         && (icd_format_get_size img_format <? 4)) then
    emit (EvLog "vkCmdCopyImageToBuffer with bpp %d unsupported") ;;
    cmd_fail cmd VK_ERROR_UNKNOWN
  else
    meta <- cmd_meta_set_src_for_img cmd img img_format
              VK_IMAGE_ASPECT_COLOR meta ;;
    meta <- cmd_meta_set_dst_for_buf cmd buf buf_format meta ;;
    let meta := set_samples 1 meta in
    for_each pRegions
      (fun region meta =>
         let meta := upd_src (set_lod
                       (sub_mipLevel (bic_imageSubresource region))) meta in
         let meta := upd_src (set_layer
                       (u32 (sub_arraySlice (bic_imageSubresource region)
                             + off_z (bic_imageOffset region)))) meta in
         let meta := upd_src (set_x
                       (u32 (off_x (bic_imageOffset region)) / block_width))
                       meta in
         let meta := upd_src (set_y
                       (u32 (off_y (bic_imageOffset region)) / block_width))
                       meta in
         let meta := upd_dst (set_x
                       (u32 (bic_bufferOffset region
                             / icd_format_get_size img_format))) meta in
         let meta := set_width
                       (u32 (ext_width (bic_imageExtent region)) / block_width)
                       meta in
         let meta := set_height
                       (u32 (ext_height (bic_imageExtent region)) / block_width)
                       meta in
         repeat_loop (Z.to_nat (u32 (ext_depth (bic_imageExtent region))))
           (copy_img_to_mem_layer cmd) meta)
      meta ;;
    ret tt.

(** ** Buffer update and fill *)

Definition vkCmdUpdateBuffer (cmd : intel_cmd) (dst : intel_buf)
    (destOffset dataSize : Z) (pData : list Z) : M unit :=
  (* must be 4-byte aligned *)
  if negb (Z.land (Z.lor destOffset dataSize) 3 =? 0) then
    cmd_fail cmd VK_ERROR_UNKNOWN
  else
    (* write to dynamic state writer first *)
    let offset := u32 (cmd_state_pointer cmd INTEL_CMD_ITEM_BLOB 32
                         (u32 (u64 (dataSize + 3) / 4))) in
    emit (EvStateBlob offset dataSize pData) ;;
    let meta := set_mode INTEL_CMD_META_VS_POINTS zero_meta in
    let meta := set_shader_id INTEL_DEV_META_VS_COPY_MEM meta in
    let meta := upd_src (set_x (offset / 4)) meta in
    let meta := upd_dst (set_x (u32 (destOffset / 4))) meta in
    let meta := set_width (u32 (dataSize / 4)) meta in
    let meta := set_height 1 meta in
    let meta := set_samples 1 meta in
    (* INTEL_DEV_META_VS_COPY_MEM is untyped but expects the stride to be 16 *)
    let format := VK_FORMAT_R32G32B32A32_UINT in
    meta <- cmd_meta_set_src_for_writer cmd INTEL_CMD_WRITER_STATE
              (u64 (offset + dataSize)) format meta ;;
    meta <- cmd_meta_set_dst_for_buf cmd dst format meta ;;
    cmd_draw_meta cmd meta.

Definition vkCmdFillBuffer (cmd : intel_cmd) (dst : intel_buf)
    (destOffset fillSize : Z) (data : Z) : M unit :=
  (* must be 4-byte aligned *)
  if negb (Z.land (Z.lor destOffset fillSize) 3 =? 0) then
    cmd_fail cmd VK_ERROR_UNKNOWN
  else
    let meta := set_mode INTEL_CMD_META_VS_POINTS zero_meta in
    let meta := set_shader_id INTEL_DEV_META_VS_FILL_MEM meta in
    let meta := set_clear_val (set_word 0 data (meta_clear_val meta)) meta in
    let meta := upd_dst (set_x (u32 (destOffset / 4))) meta in
    let meta := set_width (u32 (fillSize / 4)) meta in
    let meta := set_height 1 meta in
    let meta := set_samples 1 meta in
    (* INTEL_DEV_META_VS_FILL_MEM is untyped but expects the stride to be 16 *)
    let format := VK_FORMAT_R32G32B32A32_UINT in
    meta <- cmd_meta_set_dst_for_buf cmd dst format meta ;;
    cmd_draw_meta cmd meta.

(** ** Clears *)

(** The counter values 0, 1, ..., n-1 of a for loop. *)
Definition upto (n : Z) : list Z := map Z.of_nat (seq 0 (Z.to_nat n)).

Definition clear_image_layer (cmd : intel_cmd) (img : intel_img)
    (format : VkFormat) (range : VkImageSubresourceRange)
    (meta : intel_cmd_meta) : M intel_cmd_meta :=
  meta <-
    (if VkImageAspect_eq_dec (range_aspect range) VK_IMAGE_ASPECT_COLOR then
       meta <- cmd_meta_set_dst_for_img cmd img format
                 (m_lod (meta_dst meta)) (m_layer (meta_dst meta)) meta ;;
       cmd_draw_meta cmd meta ;;
       ret meta
     else
       meta <- cmd_meta_set_ds_view cmd img
                 (m_lod (meta_dst meta)) (m_layer (meta_dst meta)) meta ;;
       let meta := cmd_meta_set_ds_state cmd (range_aspect range)
                     (word 1 (meta_clear_val meta)) meta in
       cmd_draw_meta cmd meta ;;
       emit (EvAttViewDestroy (ds_view (meta_ds meta))) ;;
       ret meta) ;;
  ret (upd_dst (fun s => set_layer (u32 (m_layer s + 1)) s) meta).

Definition clear_image_level (cmd : intel_cmd) (img : intel_img)
    (format : VkFormat) (range : VkImageSubresourceRange) (array_size : Z)
    (i : Z) (meta : intel_cmd_meta) : M intel_cmd_meta :=
  let meta := upd_dst (set_lod (u32 (range_baseMipLevel range + i))) meta in
  let meta := upd_dst (set_layer (range_baseArraySlice range)) meta in
  (* TODO INTEL_CMD_META_DS_HIZ_CLEAR requires 8x4 aligned rectangle *)
  let meta := set_width
                (u32 (u_minify (layout_width0 (img_layout img))
                        (m_lod (meta_dst meta)))) meta in
  let meta := set_height
                (u32 (u_minify (layout_height0 (img_layout img))
                        (m_lod (meta_dst meta)))) meta in
  if (if intel_cmd_meta_ds_op_eq_dec (ds_op (meta_ds meta))
           INTEL_CMD_META_DS_NOP then false else true)
     && negb (intel_img_can_enable_hiz img (m_lod (meta_dst meta))) then
    ret meta                                              (* continue *)
  else
    repeat_loop (Z.to_nat array_size)
      (clear_image_layer cmd img format range) meta.

Definition cmd_meta_clear_image (cmd : intel_cmd) (img : intel_img)
    (format : VkFormat) (meta : intel_cmd_meta)
    (range : VkImageSubresourceRange) : M intel_cmd_meta :=
  if (img_mip_levels img <=? range_baseMipLevel range)
     || (img_array_size img <=? range_baseArraySlice range) then
    ret meta
  else
    let mip_levels := u32 (img_mip_levels img - range_baseMipLevel range) in
    let mip_levels :=
      if range_mipLevels range <? mip_levels then range_mipLevels range
      else mip_levels in
    let array_size := u32 (img_array_size img - range_baseArraySlice range) in
    let array_size :=
      if range_arraySize range <? array_size then range_arraySize range
      else array_size in
    for_each (upto mip_levels)
      (clear_image_level cmd img format range array_size) meta.

Definition cmd_meta_ds_op (cmd : intel_cmd) (op : intel_cmd_meta_ds_op)
    (img : intel_img) (range : VkImageSubresourceRange) : M unit :=
  match layout_aux (img_layout img), range_aspect range with
  | INTEL_LAYOUT_AUX_HIZ, VK_IMAGE_ASPECT_DEPTH =>
      let meta := set_mode INTEL_CMD_META_DEPTH_STENCIL_RECT zero_meta in
      let meta := set_samples (img_samples img) meta in
      let meta := upd_ds (set_ds_aspect VK_IMAGE_ASPECT_DEPTH) meta in
      let meta := upd_ds (set_ds_op op) meta in
      let meta := upd_ds (set_ds_optimal true) meta in
      cmd_meta_clear_image cmd img (layout_format (img_layout img)) meta range ;;
      ret tt
  | _, _ => ret tt
  end.

Definition cmd_meta_clear_color_image (cmd : intel_cmd) (img : intel_img)
    (imageLayout : VkImageLayout) (pClearColor : list Z)
    (pRanges : list VkImageSubresourceRange) : M unit :=
  let meta := set_mode INTEL_CMD_META_FS_RECT zero_meta in
  let meta := set_shader_id INTEL_DEV_META_FS_CLEAR_COLOR meta in
  let meta := set_samples (img_samples img) meta in
  let meta := set_clear_val
                [word 0 pClearColor; word 1 pClearColor;
                 word 2 pClearColor; word 3 pClearColor] meta in
  let format := layout_format (img_layout img) in
  for_each pRanges
    (fun range meta => cmd_meta_clear_image cmd img format meta range) meta ;;
  ret tt.

Definition vkCmdClearColorImage := cmd_meta_clear_color_image.

Definition cmd_meta_clear_depth_stencil_image (cmd : intel_cmd)
    (img : intel_img) (imageLayout : VkImageLayout) (depth : c_float)
    (stencil : Z) (pRanges : list VkImageSubresourceRange) : M unit :=
  let meta := set_mode INTEL_CMD_META_DEPTH_STENCIL_RECT zero_meta in
  let meta := set_shader_id INTEL_DEV_META_FS_CLEAR_DEPTH meta in
  let meta := set_samples (img_samples img) meta in
  let meta := set_clear_val
                (set_word 1 stencil
                   (set_word 0 (u_fui depth) (meta_clear_val meta))) meta in
  let meta :=
    match imageLayout with
    | VK_IMAGE_LAYOUT_DEPTH_STENCIL_ATTACHMENT_OPTIMAL
    | VK_IMAGE_LAYOUT_DEPTH_STENCIL_READ_ONLY_OPTIMAL =>
        upd_ds (set_ds_optimal true) meta
    | _ => meta
    end in
  for_each pRanges
    (fun range meta =>
       cmd_meta_clear_image cmd img (layout_format (img_layout img))
         meta range) meta ;;
  ret tt.

Definition vkCmdClearDepthStencilImage := cmd_meta_clear_depth_stencil_image.

(** fb->views[i]: [None] when the index is outside the array, where the C
    code reads out of bounds. *)
Definition fb_view (cmd : intel_cmd) (i : Z) : option intel_att_view :=
  if i <? 0 then None else nth_error (fb_views (cmd_bind_fb cmd)) (Z.to_nat i).

Definition color_attachment_range (view : intel_att_view) (rect : VkRect3D)
    : VkImageSubresourceRange :=
  {| range_aspect := VK_IMAGE_ASPECT_COLOR;
     range_baseMipLevel := att_view_mipLevel view;
     range_mipLevels := 1;
     range_baseArraySlice := u32 (off_z (rect_offset rect));
     range_arraySize := u32 (ext_depth (rect_extent rect)) |}.

Definition vkCmdClearColorAttachment (cmd : intel_cmd) (colorAttachment : Z)
    (imageLayout : VkImageLayout) (pColor : list Z) (pRects : list VkRect3D)
    : option (M unit) :=
  match nth_error
          (subpass_color_indices (cmd_bind_render_pass_subpass cmd))
          (Z.to_nat colorAttachment) with
  | None => None
  | Some index =>
      match fb_view cmd index with
      | None => None
      | Some view =>
          (* Convert each rect3d to clear into a subresource clear. *)
          Some (for_each pRects
                  (fun rect _ =>
                     cmd_meta_clear_color_image cmd (att_view_img view)
                       imageLayout pColor
                       [color_attachment_range view rect])
                  tt)
      end
  end.

Definition depth_stencil_attachment_range (view : intel_att_view)
    (rect : VkRect3D) : VkImageSubresourceRange :=
  {| range_aspect := VK_IMAGE_ASPECT_DEPTH;
     range_baseMipLevel := 0;  (* ds->mipLevel, *)
     range_mipLevels := 1;
     range_baseArraySlice := u32 (off_z (rect_offset rect));
     range_arraySize := u32 (ext_depth (rect_extent rect)) |}.

Definition set_range_aspect (a : VkImageAspect) (r : VkImageSubresourceRange)
    : VkImageSubresourceRange :=
  {| range_aspect := a;
     range_baseMipLevel := range_baseMipLevel r;
     range_mipLevels := range_mipLevels r;
     range_baseArraySlice := range_baseArraySlice r;
     range_arraySize := range_arraySize r |}.

Definition vkCmdClearDepthStencilAttachment (cmd : intel_cmd)
    (imageAspectMask : VkImageAspectFlags) (imageLayout : VkImageLayout)
    (depth : c_float) (stencil : Z) (pRects : list VkRect3D)
    : option (M unit) :=
  match fb_view cmd (subpass_ds_index (cmd_bind_render_pass_subpass cmd)) with
  | None => None
  | Some view =>
      (* Convert each rect3d to clear into a subresource clear. *)
      Some (for_each pRects
              (fun rect _ =>
                 let range := depth_stencil_attachment_range view rect in
                 (if VK_IMAGE_ASPECT_DEPTH_BIT imageAspectMask then
                    cmd_meta_clear_depth_stencil_image cmd (att_view_img view)
                      imageLayout depth stencil [range]
                  else ret tt) ;;
                 (if VK_IMAGE_ASPECT_STENCIL_BIT imageAspectMask then
                    let range := set_range_aspect VK_IMAGE_ASPECT_STENCIL range in
                    cmd_meta_clear_depth_stencil_image cmd (att_view_img view)
                      imageLayout depth stencil [range]
                  else ret tt))
              tt)
  end.

(** ** Multisample resolve *)

Definition resolve_shader (samples : Z) : intel_dev_meta_shader :=
  match samples with
  | 4 => INTEL_DEV_META_FS_RESOLVE_4X
  | 8 => INTEL_DEV_META_FS_RESOLVE_8X
  | 16 => INTEL_DEV_META_FS_RESOLVE_16X
  | _ => INTEL_DEV_META_FS_RESOLVE_2X        (* case 2: default: *)
  end.

Definition resolve_slice (cmd : intel_cmd) (dst : intel_img)
    (format : VkFormat) (region : VkImageResolve) (arraySlice : Z)
    (meta : intel_cmd_meta) : M intel_cmd_meta :=
  let meta := upd_src (set_lod (sub_mipLevel (ir_srcSubresource region))) meta in
  let meta := upd_src (set_layer
                (u32 (sub_arraySlice (ir_srcSubresource region) + arraySlice)))
                meta in
  let meta := upd_src (set_x (u32 (off_x (ir_srcOffset region)))) meta in
  let meta := upd_src (set_y (u32 (off_y (ir_srcOffset region)))) meta in
  let meta := upd_dst (set_lod (sub_mipLevel (ir_destSubresource region))) meta in
  let meta := upd_dst (set_layer
                (u32 (sub_arraySlice (ir_destSubresource region) + arraySlice)))
                meta in
  let meta := upd_dst (set_x (u32 (off_x (ir_destOffset region)))) meta in
  let meta := upd_dst (set_y (u32 (off_y (ir_destOffset region)))) meta in
  let meta := set_width (u32 (ext_width (ir_extent region))) meta in
  let meta := set_height (u32 (ext_height (ir_extent region))) meta in
  meta <- cmd_meta_set_dst_for_img cmd dst format
            (m_lod (meta_dst meta)) (m_layer (meta_dst meta)) meta ;;
  cmd_draw_meta cmd meta ;;
  ret meta.

Definition vkCmdResolveImage (cmd : intel_cmd) (src dst : intel_img)
    (pRegions : list VkImageResolve) : M unit :=
  if (img_samples src <=? 1) || (1 <? img_samples dst)
     || (if VkFormat_eq_dec (layout_format (img_layout src))
                            (layout_format (img_layout dst))
         then false else true) then
    cmd_fail cmd VK_ERROR_UNKNOWN
  else
    let meta := set_mode INTEL_CMD_META_FS_RECT zero_meta in
    let meta := set_shader_id (resolve_shader (img_samples src)) meta in
    let meta := set_samples 1 meta in
    format <- run_checked
                (cmd_meta_img_raw_format cmd (layout_format (img_layout src))) ;;
    meta <- cmd_meta_set_src_for_img cmd src format
              VK_IMAGE_ASPECT_COLOR meta ;;
    for_each pRegions
      (fun region meta =>
         for_each (upto (ext_depth (ir_extent region)))
           (resolve_slice cmd dst format region) meta)
      meta ;;
    ret tt.

End Meta.

(** ** A sample platform

    Concrete collaborators on which the model can be evaluated: the field
    layout of the two hardware generations, a few formats, and devices
    whose view constructors succeed or fail. *)

Module Sample.

(** Two formats outside the named ones: a three-channel 32-bit format
    (12 bytes a texel) and a 4x4 block-compressed format (8 bytes a block). *)
Definition R32G32B32_UINT : VkFormat := VK_FORMAT_CODE 0.
Definition BC1_RGB_UNORM : VkFormat := VK_FORMAT_CODE 1.

Definition format_size (f : VkFormat) : Z :=
  match f with
  | VK_FORMAT_UNDEFINED => 0
  | VK_FORMAT_R8_UINT => 1
  | VK_FORMAT_R16_UINT => 2
  | VK_FORMAT_R32_UINT => 4
  | VK_FORMAT_R32G32_UINT => 8
  | VK_FORMAT_R32G32B32A32_UINT => 16
  | VK_FORMAT_R8G8B8A8_UINT => 4
  | VK_FORMAT_CODE 0 => 12
  | VK_FORMAT_CODE 1 => 8
  | VK_FORMAT_CODE _ => 4
  end.

Definition format_is_compressed (f : VkFormat) : bool :=
  match f with
  | VK_FORMAT_CODE 1 => true
  | _ => false
  end.

Definition format_block_width (f : VkFormat) : Z :=
  match f with
  | VK_FORMAT_CODE 1 => 4
  | _ => 1
  end.

#[global] Instance platform : externals := {|
  c_float := Z;
  INTEL_GEN := fun gen => gen * 100;
  icd_format_get_size := format_size;
  icd_format_is_compressed := format_is_compressed;
  icd_format_get_block_width := format_block_width;
  intel_layout_get_slice_tile_offset :=
    fun layout level slice => (4096 * slice, 64 * slice, 8 * slice);
  intel_img_can_enable_hiz := fun img lod => lod =? 0;
  u_minify := fun value levels => Z.max (Z.shiftr value levels) 1;
  u_fui := fun bits => bits;
  cmd_state_pointer := fun cmd item alignment len => 256;
  GEN6_SURFACE_DW2_WIDTH := {| f_shift := 6; f_mask := 0x0007ffc0 |};
  GEN6_SURFACE_DW2_HEIGHT := {| f_shift := 19; f_mask := 0xfff80000 |};
  GEN6_SURFACE_DW4_MIN_ARRAY_ELEMENT := {| f_shift := 17; f_mask := 0x0ffe0000 |};
  GEN6_SURFACE_DW5_X_OFFSET := {| f_shift := 25; f_mask := 0xfe000000 |};
  GEN6_SURFACE_DW5_Y_OFFSET := {| f_shift := 20; f_mask := 0x00f00000 |};
  GEN7_SURFACE_DW2_WIDTH := {| f_shift := 0; f_mask := 0x00003fff |};
  GEN7_SURFACE_DW2_HEIGHT := {| f_shift := 16; f_mask := 0x3fff0000 |};
  GEN7_SURFACE_DW4_MIN_ARRAY_ELEMENT := {| f_shift := 18; f_mask := 0x1ffc0000 |};
  GEN7_SURFACE_DW5_X_OFFSET := {| f_shift := 25; f_mask := 0xfe000000 |};
  GEN7_SURFACE_DW5_Y_OFFSET := {| f_shift := 21; f_mask := 0x01e00000 |}
|}.

Definition words : list Z := [1; 2; 3; 4; 5; 6; 7; 8].

Definition img2d (format : VkFormat) (samples : Z) : intel_img :=
  {| img_bo := 100; img_type := VK_IMAGE_TYPE_2D;
     img_mip_levels := 3; img_array_size := 4; img_samples := samples;
     img_layout := {| layout_format := format;
                      layout_aux := INTEL_LAYOUT_AUX_NONE;
                      layout_block_width := format_block_width format;
                      layout_block_height := format_block_width format;
                      layout_width0 := 64; layout_height0 := 64 |} |}.

(** A 2D image that is not an array. *)
Definition img2d_flat (format : VkFormat) (samples : Z) : intel_img :=
  {| img_bo := 102; img_type := VK_IMAGE_TYPE_2D;
     img_mip_levels := 1; img_array_size := 1; img_samples := samples;
     img_layout := {| layout_format := format;
                      layout_aux := INTEL_LAYOUT_AUX_NONE;
                      layout_block_width := format_block_width format;
                      layout_block_height := format_block_width format;
                      layout_width0 := 64; layout_height0 := 64 |} |}.

Definition img1d (format : VkFormat) : intel_img :=
  {| img_bo := 101; img_type := VK_IMAGE_TYPE_1D;
     img_mip_levels := 1; img_array_size := 1; img_samples := 1;
     img_layout := {| layout_format := format;
                      layout_aux := INTEL_LAYOUT_AUX_NONE;
                      layout_block_width := 1; layout_block_height := 1;
                      layout_width0 := 64; layout_height0 := 1 |} |}.

Definition buf_a : intel_buf := {| buf_bo := 200; buf_size := 4096 |}.
Definition buf_b : intel_buf := {| buf_bo := 201; buf_size := 4096 |}.

(** A device of generation [gen] whose view constructors all return
    [status]. *)
Definition dev (gen : Z) (status : VkResult) : intel_dev :=
  {| dev_gen := gen;
     intel_buf_view_create := fun info =>
       (status, {| buf_view_cmd := words; buf_view_cmd_len := 6 |});
     intel_img_view_create := fun info =>
       (status, {| img_view_cmd := words; img_view_cmd_len := 6 |});
     intel_att_view_create_for_color := fun info =>
       (status, {| att_view_img := cavi_image info;
                   att_view_mipLevel := cavi_mipLevel info;
                   att_view_att_cmd := words; att_view_cmd_len := 6 |});
     intel_att_view_create_for_ds := fun info =>
       (status, {| att_view_img := dsvi_image info;
                   att_view_mipLevel := dsvi_mipLevel info;
                   att_view_att_cmd := words; att_view_cmd_len := 6 |}) |}.

(** A command buffer on that device; its framebuffer has one view, of mip
    level [mip] of [img], used as color attachment 0 and as depth/stencil
    attachment. *)
Definition cmd_on (d : intel_dev) (img : intel_img) (mip : Z) : intel_cmd :=
  {| cmd_dev := d;
     cmd_bind_render_pass_subpass :=
       {| subpass_color_indices := [0]; subpass_ds_index := 0 |};
     cmd_bind_fb :=
       {| fb_views := [ {| att_view_img := img; att_view_mipLevel := mip;
                           att_view_att_cmd := words;
                           att_view_cmd_len := 6 |} ] |} |}.

Definition cmd6 : intel_cmd :=
  cmd_on (dev 600 VK_SUCCESS) (img2d VK_FORMAT_R8G8B8A8_UINT 1) 2.
Definition cmd7 : intel_cmd :=
  cmd_on (dev 700 VK_SUCCESS) (img2d VK_FORMAT_R8G8B8A8_UINT 1) 2.

Definition subresource (mip slice : Z) : VkImageSubresource :=
  {| sub_aspect := VK_IMAGE_ASPECT_COLOR;
     sub_mipLevel := mip; sub_arraySlice := slice |}.

Definition origin : VkOffset3D := {| off_x := 0; off_y := 0; off_z := 0 |}.

(** A 16x16 region at the origin of mip 0, [depth] layers deep. *)
Definition image_copy (depth : Z) : VkImageCopy :=
  {| ic_srcSubresource := subresource 0 0; ic_srcOffset := origin;
     ic_destSubresource := subresource 0 0; ic_destOffset := origin;
     ic_extent := {| ext_width := 16; ext_height := 16; ext_depth := depth |} |}.

Definition image_resolve (depth : Z) : VkImageResolve :=
  {| ir_srcSubresource := subresource 0 0; ir_srcOffset := origin;
     ir_destSubresource := subresource 0 0; ir_destOffset := origin;
     ir_extent := {| ext_width := 16; ext_height := 16; ext_depth := depth |} |}.

(** A 4x4 block-compressed image and, for generation 7, a destination
    descriptor of 130x130 pixels (both size fields hold 129) whose
    minimum-array-element field holds layer 2; bit 31 of dword 2 lies outside
    the size fields. *)
Definition bc1_img : intel_img := img2d BC1_RGB_UNORM 1.

Definition bc1_meta (layer : Z) : intel_cmd_meta :=
  upd_dst (set_surface
             [0; 0; 2 ^ 31 + 129 * 2 ^ 16 + 129; 0; layer * 2 ^ 18; 0; 0; 0])
    zero_meta.

End Sample.

(** ** The selection table of the specification

    The table is read on an image kind: its type, whether the copy is
    arrayed, whether it is multisampled.  A 2D image that is both arrayed and
    multisampled matches two rows, so the table gives the set of shaders
    its rows allow. *)
Definition spec_copy_shaders (img : intel_img) (arrayed : bool)
    : list intel_dev_meta_shader :=
  match img_type img with
  | VK_IMAGE_TYPE_1D =>
      if arrayed then [INTEL_DEV_META_FS_COPY_1D_ARRAY]
      else [INTEL_DEV_META_FS_COPY_1D]
  | VK_IMAGE_TYPE_2D =>
      if 1 <? img_samples img then
        if arrayed then [INTEL_DEV_META_FS_COPY_2D_MS;
                         INTEL_DEV_META_FS_COPY_2D_ARRAY]
        else [INTEL_DEV_META_FS_COPY_2D_MS]
      else
        if arrayed then [INTEL_DEV_META_FS_COPY_2D_ARRAY]
        else [INTEL_DEV_META_FS_COPY_2D]
  | VK_IMAGE_TYPE_3D => [INTEL_DEV_META_FS_COPY_2D_ARRAY]
  end.

(** The copy shader follows the table read on the destination image: every
    draw of the call carries a shader the table allows for the destination
    and for the depth of one of the regions. *)
Definition copy_shader_by_destination {X : externals} (cmd : intel_cmd)
    (src dst : intel_img) (pRegions : list VkImageCopy) : Prop :=
  forall m, In m (draws (events_of (vkCmdCopyImage cmd src dst pRegions))) ->
    exists region, In region pRegions
      /\ In (meta_shader_id m)
            (spec_copy_shaders dst (1 <? ext_depth (ic_extent region))).

(** * Vocabulary of the properties *)

Section Vocabulary.

Context {X : externals}.

(** What a binding step may change of a surface: everything but the
    coordinates [lod], [layer], [x] and [y]. *)
Definition same_coords (d d' : meta_surface) : Prop :=
  m_lod d' = m_lod d /\ m_layer d' = m_layer d
  /\ m_x d' = m_x d /\ m_y d' = m_y d.

(** The texel sizes the raw-format mapper knows. *)
Definition raw_sizes : list Z := [1; 2; 4; 8; 16].

(** The number of draws vkCmdResolveImage owes to its regions: one for
    each array slice of each region. *)
Definition resolve_draw_count (pRegions : list VkImageResolve) : nat :=
  list_sum (map (fun region => Z.to_nat (ext_depth (ir_extent region))) pRegions).

(** The shader vkCmdCopyImage gives the draws of a region. *)
Definition region_shader (cmd : intel_cmd) (src : intel_img)
    (region : VkImageCopy) : intel_dev_meta_shader :=
  get_shader_id (cmd_dev cmd) src (1 <? ext_depth (ic_extent region)).

(** The number of layers vkCmdCopyImage draws for a region. *)
Definition region_layers (region : VkImageCopy) : nat :=
  Z.to_nat (u32 (ext_depth (ic_extent region))).

(** What a draw of the clear of [range] on [img] may target. *)
Definition in_clear_range (img : intel_img) (range : VkImageSubresourceRange)
    (m : intel_cmd_meta) : Prop :=
  range_baseMipLevel range <= m_lod (meta_dst m) < img_mip_levels img
  /\ m_lod (meta_dst m) < range_baseMipLevel range + range_mipLevels range
  /\ range_baseArraySlice range <= m_layer (meta_dst m) < img_array_size img
  /\ m_layer (meta_dst m) < range_baseArraySlice range + range_arraySize range.

(** The clamped counts of cmd_meta_clear_image. *)
Definition clamped_mip_levels (img : intel_img) (range : VkImageSubresourceRange)
    : Z :=
  Z.min (img_mip_levels img - range_baseMipLevel range) (range_mipLevels range).

Definition clamped_array_size (img : intel_img) (range : VkImageSubresourceRange)
    : Z :=
  Z.min (img_array_size img - range_baseArraySlice range) (range_arraySize range).

(** The values of a uint32_t. *)
Definition uint32 (z : Z) : Prop := 0 <= z < 2 ^ 32.

(** The device builds every buffer view it is asked for. *)
Definition buf_views_ok (cmd : intel_cmd) : Prop :=
  forall info, fst (intel_buf_view_create (cmd_dev cmd) info) = VK_SUCCESS.

(** What a dispatch does, apart from the surfaces it is bound to: its
    shader, the positions in the source and the destination, the width. *)
Definition geometry (m : intel_cmd_meta)
    : intel_dev_meta_shader * Z * Z * Z :=
  (meta_shader_id m, m_x (meta_src m), m_x (meta_dst m), meta_width m).

(** Both offsets and the size of a copy region are multiples of 4. *)
Definition multiples_of_4 (region : VkBufferCopy) : Prop :=
  bc_srcOffset region mod 4 = 0 /\ bc_destOffset region mod 4 = 0
  /\ bc_copySize region mod 4 = 0.

(** The dispatches and the error reports a region of vkCmdCopyBuffer gives
    rise to; neither depends on the bindings. *)
Definition region_dispatch (cmd : intel_cmd) (region : VkBufferCopy)
    : list (intel_dev_meta_shader * Z * Z * Z) :=
  if cmd_meta_mem_dword_aligned cmd (bc_srcOffset region)
       (bc_destOffset region) (bc_copySize region) then
    [(INTEL_DEV_META_VS_COPY_MEM, u32 (bc_srcOffset region) / 4,
      u32 (bc_destOffset region) / 4, u32 (bc_copySize region) / 4)]
  else if cmd_gen cmd =? INTEL_GEN 6 then []
  else
    [(INTEL_DEV_META_VS_COPY_MEM_UNALIGNED, u32 (bc_srcOffset region),
      u32 (bc_destOffset region), u32 (bc_copySize region))].

Definition region_fails (cmd : intel_cmd) (region : VkBufferCopy)
    : list VkResult :=
  if cmd_meta_mem_dword_aligned cmd (bc_srcOffset region)
       (bc_destOffset region) (bc_copySize region) then []
  else if cmd_gen cmd =? INTEL_GEN 6 then [VK_ERROR_UNKNOWN]
  else [].

(** The part of the descriptor an iteration of vkCmdCopyBuffer does not
    overwrite before using it. *)
Definition forget_coords (m : intel_cmd_meta) : intel_cmd_meta :=
  set_width 0 (upd_dst (set_x 0) (upd_src (set_x 0) m)).

(** [f] is a field of [n] bits inside a 32-bit word: its mask covers the
    bits [f_shift f] to [f_shift f + n - 1]. *)
Definition field_bits (f : gen_field) (n : Z) : Prop :=
  0 <= f_shift f /\ 0 < n /\ f_shift f + n <= 32
  /\ f_mask f = Z.shiftl (Z.ones n) (f_shift f).

Definition fields_disjoint (f : gen_field) (nf : Z) (g : gen_field) (ng : Z)
    : Prop :=
  f_shift f + nf <= f_shift g \/ f_shift g + ng <= f_shift f.

(** The fields of the generation of the command buffer. *)
Definition surface_width (cmd : intel_cmd) : gen_field :=
  if INTEL_GEN 7 <=? cmd_gen cmd then GEN7_SURFACE_DW2_WIDTH
  else GEN6_SURFACE_DW2_WIDTH.

Definition surface_height (cmd : intel_cmd) : gen_field :=
  if INTEL_GEN 7 <=? cmd_gen cmd then GEN7_SURFACE_DW2_HEIGHT
  else GEN6_SURFACE_DW2_HEIGHT.

Definition surface_min_array_element (cmd : intel_cmd) : gen_field :=
  if INTEL_GEN 7 <=? cmd_gen cmd then GEN7_SURFACE_DW4_MIN_ARRAY_ELEMENT
  else GEN6_SURFACE_DW4_MIN_ARRAY_ELEMENT.

Definition surface_x_offset (cmd : intel_cmd) : gen_field :=
  if INTEL_GEN 7 <=? cmd_gen cmd then GEN7_SURFACE_DW5_X_OFFSET
  else GEN6_SURFACE_DW5_X_OFFSET.

Definition surface_y_offset (cmd : intel_cmd) : gen_field :=
  if INTEL_GEN 7 <=? cmd_gen cmd then GEN7_SURFACE_DW5_Y_OFFSET
  else GEN6_SURFACE_DW5_Y_OFFSET.

(** The adjuster written once, over the fields of a generation. *)
Definition adjust_with (W H L XO YO : gen_field) (img : intel_img)
    (meta : intel_cmd_meta) : intel_cmd_meta :=
  let surf := m_surface (meta_dst meta) in
  let bw := layout_block_width (img_layout img) in
  let bh := layout_block_height (img_layout img) in
  let w := u32 (u32 (GEN_EXTRACT (word 2 surf) W + bw) / bw - 1) in
  let h := u32 (u32 (GEN_EXTRACT (word 2 surf) H + bh) / bh - 1) in
  let dw2 := Z.lor (Z.land (word 2 surf)
                      (u32 (Z.lnot (Z.lor (f_mask W) (f_mask H)))))
                   (Z.lor (GEN_SHIFT32 w W) (GEN_SHIFT32 h H)) in
  let meta := upd_dst (fun s => set_surface (set_word 2 dw2 (m_surface s)) s)
                meta in
  if GEN_EXTRACT (word 4 surf) L =? 0 then meta
  else
    let '(offset, x_offset, y_offset) :=
      intel_layout_get_slice_tile_offset (img_layout img) 0
        (GEN_EXTRACT (word 4 surf) L) in
    let meta := upd_dst (set_reloc_offset (u32 offset)) meta in
    let surf := m_surface (meta_dst meta) in
    let dw4 := Z.land (word 4 surf) (u32 (Z.lnot (f_mask L))) in
    let dw5 := Z.lor (word 5 surf)
                 (Z.lor (GEN_SHIFT32 (Z.shiftr (x_offset / bw) 2) XO)
                        (GEN_SHIFT32 (Z.shiftr (y_offset / bh) 1) YO)) in
    upd_dst (fun s => set_surface
               (set_word 5 dw5 (set_word 4 dw4 (m_surface s))) s) meta.

End Vocabulary.

(** * Observations on a trace *)

(** The views of any kind, to compare what a call builds with what it
    destroys. *)
Inductive any_view :=
| BufView (view : intel_buf_view)
| ImgView (view : intel_img_view)
| AttView (view : intel_att_view).

(** The views the constructors of [dev] hand out for the requests of [t]:
    a request whose constructor fails builds nothing. *)
Definition built (dev : intel_dev) (t : list event) : list any_view :=
  flat_map
    (fun ev =>
       match ev with
       | EvBufViewCreate info =>
           if VkResult_eq_dec (fst (intel_buf_view_create dev info)) VK_SUCCESS
           then [BufView (snd (intel_buf_view_create dev info))] else []
       | EvImgViewCreate info =>
           if VkResult_eq_dec (fst (intel_img_view_create dev info)) VK_SUCCESS
           then [ImgView (snd (intel_img_view_create dev info))] else []
       | EvColorViewCreate info =>
           if VkResult_eq_dec
                (fst (intel_att_view_create_for_color dev info)) VK_SUCCESS
           then [AttView (snd (intel_att_view_create_for_color dev info))]
           else []
       | EvDsViewCreate info =>
           if VkResult_eq_dec
                (fst (intel_att_view_create_for_ds dev info)) VK_SUCCESS
           then [AttView (snd (intel_att_view_create_for_ds dev info))]
           else []
       | _ => []
       end) t.

(** The arguments of the destructor calls of [t]; [None] is a call on the
    null pointer. *)
Definition destroyed (t : list event) : list (option any_view) :=
  flat_map
    (fun ev =>
       match ev with
       | EvBufViewDestroy view => [Some (BufView view)]
       | EvImgViewDestroy view => [Some (ImgView view)]
       | EvAttViewDestroy (Some view) => [Some (AttView view)]
       | EvAttViewDestroy None => [None]
       | _ => []
       end) t.

(** The buffer views requested. *)
Definition buf_view_requests (t : list event) : list VkBufferViewCreateInfo :=
  flat_map
    (fun ev => match ev with EvBufViewCreate info => [info] | _ => [] end) t.

(** The image views requested. *)
Definition img_view_requests (t : list event) : list VkImageViewCreateInfo :=
  flat_map
    (fun ev => match ev with EvImgViewCreate info => [info] | _ => [] end) t.

(** The subresources (image, mip level, array slice, slice count) for which
    a destination view, color or depth/stencil, was requested. *)
Definition dst_view_targets (t : list event) : list (intel_img * Z * Z * Z) :=
  flat_map
    (fun ev =>
       match ev with
       | EvColorViewCreate info =>
           [(cavi_image info, cavi_mipLevel info, cavi_baseArraySlice info,
             cavi_arraySize info)]
       | EvDsViewCreate info =>
           [(dsvi_image info, dsvi_mipLevel info, dsvi_baseArraySlice info,
             dsvi_arraySize info)]
       | _ => []
       end) t.

(** The value a checked computation goes on with. *)
Definition checked_value {A} (c : checked A) : A :=
  match c with
  | Passed a => a
  | AssertFailed _ a => a
  end.

(** A surface is bound to [target] with [flags]: valid, relocated at offset 0
    of the target. *)
Definition bound_to (target : reloc_target_t) (flags : list reloc_flag)
    (s : meta_surface) : Prop :=
  m_valid s = true /\ m_reloc_target s = target
  /\ m_reloc_offset s = 0 /\ m_reloc_flags s = flags.

(** The device refuses every buffer view it is asked for. *)
Definition buf_views_fail (cmd : intel_cmd) : Prop :=
  forall info, fst (intel_buf_view_create (cmd_dev cmd) info) <> VK_SUCCESS.

(** Source and destination of a buffer copy are bound to the two buffers. *)
Definition copy_bound (src dst : intel_buf) (m : intel_cmd_meta) : Prop :=
  bound_to (RELOC_BO (buf_bo src)) [] (meta_src m)
  /\ bound_to (RELOC_BO (buf_bo dst)) [INTEL_RELOC_WRITE] (meta_dst m).

(** The buffer and the format a buffer view is requested for. *)
Definition request_key (info : VkBufferViewCreateInfo)
    : option intel_buf * VkFormat :=
  (bvi_buffer info, bvi_format info).

(** A device of generation 7 that refuses every view, with error code 7, and
    a command buffer on it. *)
Definition refusing_cmd : intel_cmd :=
  Sample.cmd_on (Sample.dev 700 (VK_RESULT_CODE 7))
    (Sample.img2d VK_FORMAT_R8G8B8A8_UINT 1) 2.

Definition copy_of (srcOffset destOffset copySize : Z) : VkBufferCopy :=
  {| bc_srcOffset := srcOffset; bc_destOffset := destOffset;
     bc_copySize := copySize |}.

(** A region that never takes the byte-granular path: it is aligned, or the
    generation refuses it. *)
Definition no_fallback {X : externals} (cmd : intel_cmd)
    (region : VkBufferCopy) : Prop :=
  cmd_meta_mem_dword_aligned cmd (bc_srcOffset region) (bc_destOffset region)
    (bc_copySize region) = true
  \/ cmd_gen cmd = INTEL_GEN 6.

(** Where a draw reads and writes: mip level, layer, x and y of the source
    and of the destination, then width and height. *)
Definition surface_coords (s : meta_surface) : Z * Z * Z * Z :=
  (m_lod s, m_layer s, m_x s, m_y s).

Definition draw_coords (m : intel_cmd_meta)
    : (Z * Z * Z * Z) * (Z * Z * Z * Z) * (Z * Z) :=
  (surface_coords (meta_src m), surface_coords (meta_dst m),
   (meta_width m, meta_height m)).

(** The coordinates of layer [j] of a region of an image copy: pixel
    coordinates and sizes divided by the block width of the raw format in a
    raw copy, the layers of source and destination advancing together. *)
Definition copy_image_expected {X : externals} (raw : option VkFormat)
    (region : VkImageCopy) (j : nat)
    : (Z * Z * Z * Z) * (Z * Z * Z * Z) * (Z * Z) :=
  let scale v :=
    match raw with
    | Some raw_format => u32 v / u32 (icd_format_get_block_width raw_format)
    | None => u32 v
    end in
  ((sub_mipLevel (ic_srcSubresource region),
    u32 (sub_arraySlice (ic_srcSubresource region)
         + off_z (ic_srcOffset region) + Z.of_nat j),
    scale (off_x (ic_srcOffset region)), scale (off_y (ic_srcOffset region))),
   (sub_mipLevel (ic_destSubresource region),
    u32 (sub_arraySlice (ic_destSubresource region)
         + off_z (ic_destOffset region) + Z.of_nat j),
    scale (off_x (ic_destOffset region)), scale (off_y (ic_destOffset region))),
   (scale (ext_width (ic_extent region)),
    scale (ext_height (ic_extent region)))).

(** A 16x16 region at (8, 4) of mip 0, layer 1, copied to the origin of
    mip 1, layer 2, two layers deep. *)
Definition layered_copy : VkImageCopy :=
  {| ic_srcSubresource := Sample.subresource 0 1;
     ic_srcOffset := {| off_x := 8; off_y := 4; off_z := 0 |};
     ic_destSubresource := Sample.subresource 1 2;
     ic_destOffset := Sample.origin;
     ic_extent := {| ext_width := 16; ext_height := 16; ext_depth := 2 |} |}.

(** How a draw is made: its mode, its shader and its sample count. *)
Definition draw_kind (m : intel_cmd_meta)
    : intel_cmd_meta_mode * intel_dev_meta_shader * Z :=
  (meta_mode m, meta_shader_id m, meta_samples m).

Definition draw_shape (m : intel_cmd_meta) :=
  (draw_kind m, draw_coords m).

(** The layers of a region of a copy between a buffer and an image. *)
Definition buffer_image_layers (region : VkBufferImageCopy) : nat :=
  Z.to_nat (u32 (ext_depth (bic_imageExtent region))).

(** Layer [j] of a region of a copy between a buffer and an image: the
    position in the image, in blocks of [block_width], and the index of the
    first element in the buffer, in elements of [elem_size] bytes, the layers
    following each other in the buffer without padding.  The result is
    (buffer element, (mip level, layer, x, y), (width, height)). *)
Definition buffer_image_expected (elem_size block_width : Z)
    (region : VkBufferImageCopy) (j : nat) : Z * (Z * Z * Z * Z) * (Z * Z) :=
  let width := u32 (ext_width (bic_imageExtent region)) / block_width in
  let height := u32 (ext_height (bic_imageExtent region)) / block_width in
  (u32 (bic_bufferOffset region / elem_size + Z.of_nat j * (width * height)),
   (sub_mipLevel (bic_imageSubresource region),
    u32 (sub_arraySlice (bic_imageSubresource region)
         + off_z (bic_imageOffset region) + Z.of_nat j),
    u32 (off_x (bic_imageOffset region)) / block_width,
    u32 (off_y (bic_imageOffset region)) / block_width),
   (width, height)).

(** The shader and the format of the buffer view of a copy from an image
    to a buffer, by the texel size of the image. *)
Definition to_mem_shader (size : Z) : intel_dev_meta_shader :=
  if size =? 1 then INTEL_DEV_META_VS_COPY_R8_TO_MEM
  else if size =? 2 then INTEL_DEV_META_VS_COPY_R16_TO_MEM
  else if size =? 4 then INTEL_DEV_META_VS_COPY_R32_TO_MEM
  else if size =? 8 then INTEL_DEV_META_VS_COPY_R32G32_TO_MEM
  else INTEL_DEV_META_VS_COPY_R32G32B32A32_TO_MEM.

Definition to_mem_buf_format (size : Z) : VkFormat :=
  if (size =? 1) || (size =? 2) then VK_FORMAT_R8G8B8A8_UINT
  else VK_FORMAT_R32G32B32A32_UINT.

(** The raw format of an image. *)
Definition raw_format_of {X : externals} (cmd : intel_cmd) (img : intel_img)
    : VkFormat :=
  checked_value (cmd_meta_img_raw_format cmd (layout_format (img_layout img))).

(** vkCmdCopyImageToBuffer cannot serve the image: its texel size has no raw
    format, or the device is of generation 6 and the raw format is narrower
    than four bytes. *)
Definition to_mem_unsupported {X : externals} (cmd : intel_cmd)
    (img : intel_img) : Prop :=
  ~ In (icd_format_get_size (layout_format (img_layout img))) raw_sizes
  \/ (cmd_gen cmd = INTEL_GEN 6
      /\ icd_format_get_size (raw_format_of cmd img) < 4).

Definition buffer_image_copy (bufferOffset slice depth : Z)
    : VkBufferImageCopy :=
  {| bic_bufferOffset := bufferOffset;
     bic_imageSubresource := Sample.subresource 0 slice;
     bic_imageOffset := {| off_x := 8; off_y := 4; off_z := 0 |};
     bic_imageExtent := {| ext_width := 16; ext_height := 8;
                           ext_depth := depth |} |}.

(** A draw of a copy from a buffer to an image: its kind, the buffer
    element it reads from, the position it writes to, and its size. *)
Definition to_img_draw (m : intel_cmd_meta) :=
  (draw_kind m,
   (m_x (meta_src m), surface_coords (meta_dst m),
    (meta_width m, meta_height m))).

(** A draw of a copy from an image to a buffer: its kind, the buffer
    element it writes to, the position it reads from, and its size. *)
Definition to_mem_draw (m : intel_cmd_meta) :=
  (draw_kind m,
   (m_x (meta_dst m), surface_coords (meta_src m),
    (meta_width m, meta_height m))).

(** What a clear leaves as the caller set it: mode, shader, sample count,
    clear values, HiZ operation and layout flag, and the origin of the
    rectangle. *)
Definition clear_kept (meta m : intel_cmd_meta) : Prop :=
  meta_mode m = meta_mode meta /\ meta_shader_id m = meta_shader_id meta
  /\ meta_samples m = meta_samples meta
  /\ meta_clear_val m = meta_clear_val meta
  /\ ds_op (meta_ds m) = ds_op (meta_ds meta)
  /\ ds_optimal (meta_ds m) = ds_optimal (meta_ds meta)
  /\ m_x (meta_dst m) = m_x (meta_dst meta)
  /\ m_y (meta_dst m) = m_y (meta_dst meta).

(** The rectangle of a draw is the whole of the mip level it targets. *)
Definition whole_level {X : externals} (img : intel_img) (m : intel_cmd_meta)
    : Prop :=
  meta_width m
  = u32 (u_minify (layout_width0 (img_layout img)) (m_lod (meta_dst m)))
  /\ meta_height m
     = u32 (u_minify (layout_height0 (img_layout img)) (m_lod (meta_dst m))).

(** A draw that carries a HiZ operation targets a level that can have HiZ. *)
Definition hiz_gated {X : externals} (img : intel_img) (m : intel_cmd_meta)
    : Prop :=
  ds_op (meta_ds m) <> INTEL_CMD_META_DS_NOP ->
  intel_img_can_enable_hiz img (m_lod (meta_dst m)) = true.

(** The depth/stencil state of a draw of a clear of a range that is not a
    color range: the aspect of the range, the second clear value as stencil
    reference. *)
Definition ds_state_set (range : VkImageSubresourceRange) (m : intel_cmd_meta)
    : Prop :=
  range_aspect range <> VK_IMAGE_ASPECT_COLOR ->
  ds_aspect (meta_ds m) = range_aspect range
  /\ ds_stencil_ref (meta_ds m) = word 1 (meta_clear_val m).

(** A depth range over the whole of the sample images. *)
Definition depth_range : VkImageSubresourceRange :=
  {| range_aspect := VK_IMAGE_ASPECT_DEPTH;
     range_baseMipLevel := 0; range_mipLevels := 3;
     range_baseArraySlice := 0; range_arraySize := 4 |}.

(** The rectangle of a draw starts at the origin of its level. *)
Definition from_origin (m : intel_cmd_meta) : Prop :=
  m_x (meta_dst m) = 0 /\ m_y (meta_dst m) = 0.

(** The image layouts in which depth/stencil is read or written in place. *)
Definition optimal_layout (imageLayout : VkImageLayout) : bool :=
  match imageLayout with
  | VK_IMAGE_LAYOUT_DEPTH_STENCIL_ATTACHMENT_OPTIMAL
  | VK_IMAGE_LAYOUT_DEPTH_STENCIL_READ_ONLY_OPTIMAL => true
  | _ => false
  end.

(** A draw of a color clear of [img] with the four values of [color]. *)
Definition color_clear_draw {X : externals} (img : intel_img) (color : list Z)
    (m : intel_cmd_meta) : Prop :=
  draw_kind m
  = (INTEL_CMD_META_FS_RECT, INTEL_DEV_META_FS_CLEAR_COLOR, img_samples img)
  /\ meta_clear_val m
     = [word 0 color; word 1 color; word 2 color; word 3 color]
  /\ whole_level img m /\ from_origin m.

(** A draw of a depth/stencil clear of [img]. *)
Definition depth_clear_draw {X : externals} (img : intel_img)
    (imageLayout : VkImageLayout) (depth : c_float) (stencil : Z)
    (m : intel_cmd_meta) : Prop :=
  draw_kind m
  = (INTEL_CMD_META_DEPTH_STENCIL_RECT, INTEL_DEV_META_FS_CLEAR_DEPTH,
     img_samples img)
  /\ word 0 (meta_clear_val m) = u_fui depth
  /\ word 1 (meta_clear_val m) = stencil
  /\ ds_op (meta_ds m) = INTEL_CMD_META_DS_NOP
  /\ ds_optimal (meta_ds m) = optimal_layout imageLayout
  /\ whole_level img m /\ from_origin m.

(** A sample depth image with a HiZ buffer. *)
Definition hiz_img : intel_img :=
  {| img_bo := 103; img_type := VK_IMAGE_TYPE_2D;
     img_mip_levels := 3; img_array_size := 4; img_samples := 1;
     img_layout := {| layout_format := VK_FORMAT_R32_UINT;
                      layout_aux := INTEL_LAYOUT_AUX_HIZ;
                      layout_block_width := 1; layout_block_height := 1;
                      layout_width0 := 64; layout_height0 := 64 |} |}.

(** A 16x8 rectangle at (8, 4), two layers deep from layer 1. *)
Definition offset_rect : VkRect3D :=
  {| rect_offset := {| off_x := 8; off_y := 4; off_z := 1 |};
     rect_extent := {| ext_width := 16; ext_height := 8; ext_depth := 2 |} |}.

Definition both_aspects : VkImageAspectFlags :=
  {| VK_IMAGE_ASPECT_DEPTH_BIT := true; VK_IMAGE_ASPECT_STENCIL_BIT := true |}.

(** A computation destroys exactly the views it was handed, in the order
    it was handed them. *)
Definition balanced {A} (dev : intel_dev) (m : M A) : Prop :=
  destroyed (events_of m) = map Some (built dev (events_of m)).

(** The device builds every depth/stencil view it is asked for, or none. *)
Definition ds_views_ok (cmd : intel_cmd) : Prop :=
  forall info,
    fst (intel_att_view_create_for_ds (cmd_dev cmd) info) = VK_SUCCESS.

Definition ds_views_fail (cmd : intel_cmd) : Prop :=
  forall info,
    fst (intel_att_view_create_for_ds (cmd_dev cmd) info) <> VK_SUCCESS.

(** What is left of a depth/stencil clear when no view can be built: nothing
    is built, every draw goes ahead without a view and reports one error, and
    each is followed by a destructor call on the null pointer. *)
Definition drawn_without_view (dev : intel_dev) (t : list event) : Prop :=
  built dev t = []
  /\ destroyed t = map (fun _ => None) (draws t)
  /\ length (fails t) = length (draws t)
  /\ Forall (fun m => ds_view (meta_ds m) = None) (draws t).

Definition color_ranges (pRanges : list VkImageSubresourceRange) : Prop :=
  Forall (fun range => range_aspect range = VK_IMAGE_ASPECT_COLOR) pRanges.

Definition depth_stencil_ranges (pRanges : list VkImageSubresourceRange)
    : Prop :=
  Forall (fun range => range_aspect range <> VK_IMAGE_ASPECT_COLOR) pRanges.

(** The coordinates of slice [k] of a region of a resolve: the slices of
    source and destination advance together from the slices of the
    subresources; x, y, width and height are those of the region. *)
Definition resolve_expected (region : VkImageResolve) (k : Z)
    : (Z * Z * Z * Z) * (Z * Z * Z * Z) * (Z * Z) :=
  ((sub_mipLevel (ir_srcSubresource region),
    u32 (sub_arraySlice (ir_srcSubresource region) + k),
    u32 (off_x (ir_srcOffset region)), u32 (off_y (ir_srcOffset region))),
   (sub_mipLevel (ir_destSubresource region),
    u32 (sub_arraySlice (ir_destSubresource region) + k),
    u32 (off_x (ir_destOffset region)), u32 (off_y (ir_destOffset region))),
   (u32 (ext_width (ir_extent region)), u32 (ext_height (ir_extent region)))).

(** The subresource a draw writes to: one array slice of one mip level. *)
Definition draw_target (img : intel_img) (m : intel_cmd_meta)
    : intel_img * Z * Z * Z :=
  (img, m_lod (meta_dst m), m_layer (meta_dst m), 1).

(** A computation requests one destination view for each of its draws, for
    the subresource of [img] the draw writes to, and no other. *)
Definition matched {A} (img : intel_img) (m : M A) : Prop :=
  dst_view_targets (events_of m)
  = map (draw_target img) (draws (events_of m)).

(** A region of a resolve away from the origin, two slices from slice 1. *)
Definition offset_resolve : VkImageResolve :=
  {| ir_srcSubresource := Sample.subresource 0 1;
     ir_srcOffset := {| off_x := 8; off_y := 4; off_z := 3 |};
     ir_destSubresource := Sample.subresource 1 2;
     ir_destOffset := Sample.origin;
     ir_extent := {| ext_width := 16; ext_height := 8; ext_depth := 2 |} |}.

(** What an image view is requested for: the image, the format and the
    range of subresources. *)
Definition image_request_key (info : VkImageViewCreateInfo)
    : intel_img * VkFormat * VkImageSubresourceRange :=
  (ivi_image info, ivi_format info, ivi_subresourceRange info).

(** The color aspect of every mip level and array slice of an image. *)
Definition whole_color_range : VkImageSubresourceRange :=
  {| range_aspect := VK_IMAGE_ASPECT_COLOR;
     range_baseMipLevel := 0; range_mipLevels := VK_LAST_MIP_LEVEL;
     range_baseArraySlice := 0; range_arraySize := VK_LAST_ARRAY_SLICE |}.

(** A computation requests no image view. *)
Definition unsourced {A} (m : M A) : Prop :=
  img_view_requests (events_of m) = [].

(** The mip level and the array layer a draw writes to. *)
Definition level_layer (m : intel_cmd_meta) : Z * Z :=
  (m_lod (meta_dst m), m_layer (meta_dst m)).

(** The number of layers a clear of [range] covers on a level of [img]: none
    when the base level or the base layer lies outside the image, the
    requested count clamped to what the image has left otherwise. *)
Definition cleared_layers (img : intel_img) (range : VkImageSubresourceRange)
    : nat :=
  if (img_mip_levels img <=? range_baseMipLevel range)
     || (img_array_size img <=? range_baseArraySlice range) then 0%nat
  else Z.to_nat (Z.min (img_array_size img - range_baseArraySlice range)
                   (range_arraySize range)).

(** The levels and layers a clear of the rectangle [rect] writes to when it
    is made at mip level [level] of [img]: that level alone, and the layers
    from the z of the rectangle on, as many as its depth and the image
    allow. *)
Definition rect_targets (img : intel_img) (level : Z) (rect : VkRect3D)
    : list (Z * Z) :=
  map (fun j => (level, u32 (u32 (off_z (rect_offset rect)) + Z.of_nat j)))
    (seq 0 (cleared_layers img
              {| range_aspect := VK_IMAGE_ASPECT_COLOR;
                 range_baseMipLevel := level;
                 range_mipLevels := 1;
                 range_baseArraySlice := u32 (off_z (rect_offset rect));
                 range_arraySize := u32 (ext_depth (rect_extent rect)) |})).

(** The stride format a region of vkCmdCopyBuffer is dispatched with: 16
    bytes for an aligned region, 4 for an unaligned one; [None] for a region
    that is refused. *)
Definition region_format {X : externals} (cmd : intel_cmd)
    (region : VkBufferCopy) : option VkFormat :=
  if cmd_meta_mem_dword_aligned cmd (bc_srcOffset region)
       (bc_destOffset region) (bc_copySize region)
  then Some VK_FORMAT_R32G32B32A32_UINT
  else if cmd_gen cmd =? INTEL_GEN 6 then None
  else Some VK_FORMAT_R8G8B8A8_UINT.

(** The device refuses every buffer view of format [fmt]. *)
Definition refuses (cmd : intel_cmd) (fmt : VkFormat) : Prop :=
  forall info, bvi_format info = fmt ->
    fst (intel_buf_view_create (cmd_dev cmd) info) <> VK_SUCCESS.

(** The variables of the loop of vkCmdCopyBuffer after the regions
    [before]: the format of the last binding attempted, and the
    descriptor. *)
Definition loop_state {X : externals} (cmd : intel_cmd) (src dst : intel_buf)
    (before : list VkBufferCopy) : VkFormat * intel_cmd_meta :=
  fst (for_each before (copy_buffer_region cmd src dst) copy_buffer_init).

(** What a surface is bound to, and the two bindings of a descriptor. *)
Definition binding (s : meta_surface) :=
  (m_valid s, m_surface s, m_surface_len s,
   m_reloc_target s, m_reloc_offset s, m_reloc_flags s).

Definition bindings (m : intel_cmd_meta) :=
  (binding (meta_src m), binding (meta_dst m)).

(** A device of generation 7 whose buffer views begin with the element size
    of their format, and which refuses the buffer views of the formats
    [refused] picks, with error code 7. *)
Definition stride_dev (refused : VkFormat -> bool) : intel_dev :=
  {| dev_gen := 700;
     intel_buf_view_create := fun info =>
       (if refused (bvi_format info) then VK_RESULT_CODE 7 else VK_SUCCESS,
        {| buf_view_cmd :=
             [Sample.format_size (bvi_format info); 2; 3; 4; 5; 6; 7; 8];
           buf_view_cmd_len := 6 |});
     intel_img_view_create :=
       intel_img_view_create (Sample.dev 700 VK_SUCCESS);
     intel_att_view_create_for_color :=
       intel_att_view_create_for_color (Sample.dev 700 VK_SUCCESS);
     intel_att_view_create_for_ds :=
       intel_att_view_create_for_ds (Sample.dev 700 VK_SUCCESS) |}.

Definition byte_stride (format : VkFormat) : bool :=
  if VkFormat_eq_dec format VK_FORMAT_R8G8B8A8_UINT then true else false.

(** A command buffer on a device that refuses the views of 4-byte stride,
    and one on the same device when it builds them all. *)
Definition picky_cmd : intel_cmd :=
  Sample.cmd_on (stride_dev byte_stride)
    (Sample.img2d VK_FORMAT_R8G8B8A8_UINT 1) 2.

Definition willing_cmd : intel_cmd :=
  Sample.cmd_on (stride_dev (fun _ => false))
    (Sample.img2d VK_FORMAT_R8G8B8A8_UINT 1) 2.

(** * Properties *)

(** ** Traces *)

Lemma value_bind {A B} (m : M A) (f : A -> M B) :
  fst (bind m f) = fst (f (fst m)).
Proof. unfold bind. destruct m as [a e]. simpl. destruct (f a). reflexivity. Qed.

Lemma events_bind {A B} (m : M A) (f : A -> M B) :
  events_of (bind m f) = events_of m ++ events_of (f (fst m)).
Proof.
  unfold bind, events_of. destruct m as [a e]. simpl.
  destruct (f a). reflexivity.
Qed.

Lemma draws_app t1 t2 : draws (t1 ++ t2) = draws t1 ++ draws t2.
Proof.
  induction t1 as [|e t1 IH]; simpl; [reflexivity|].
  destruct e; simpl; rewrite ?IH; reflexivity.
Qed.

Lemma fails_app t1 t2 : fails (t1 ++ t2) = fails t1 ++ fails t2.
Proof.
  induction t1 as [|e t1 IH]; simpl; [reflexivity|].
  destruct e; simpl; rewrite ?IH; reflexivity.
Qed.

Lemma for_each_app {A S} (l1 l2 : list A) (body : A -> S -> M S) (s : S) :
  for_each (l1 ++ l2) body s
  = bind (for_each l1 body s) (for_each l2 body).
Proof.
  revert s. induction l1 as [|a l1 IH]; intros s; simpl.
  - unfold bind, ret. destruct (for_each l2 body s). reflexivity.
  - unfold bind at 1 3. destruct (body a s) as [s1 e1].
    rewrite IH. unfold bind.
    destruct (for_each l1 body s1) as [s2 e2].
    destruct (for_each l2 body s2) as [s3 e3].
    rewrite app_assoc. reflexivity.
Qed.

(** A loop keeps an invariant [I] of its variables and a property [Q] of
    the emitted events that is closed under concatenation. *)
Section LoopInvariants.

Context {S : Type} (I : S -> Prop) (Q : list event -> Prop).
Hypothesis Q_nil : Q [].
Hypothesis Q_app : forall t1 t2, Q t1 -> Q t2 -> Q (t1 ++ t2).

Lemma for_each_inv {A} (l : list A) (body : A -> S -> M S) :
  (forall a s, In a l -> I s -> I (fst (body a s)) /\ Q (events_of (body a s))) ->
  forall s, I s ->
    I (fst (for_each l body s)) /\ Q (events_of (for_each l body s)).
Proof.
  induction l as [|a l IH]; intros Hb s Hs; simpl.
  - split; [exact Hs | exact Q_nil].
  - destruct (Hb a s (or_introl eq_refl) Hs) as [Hi Hq].
    destruct (IH (fun a' s' H' => Hb a' s' (or_intror H')) _ Hi) as [Hi' Hq'].
    rewrite value_bind, events_bind. split; [exact Hi'|].
    apply Q_app; assumption.
Qed.

Lemma repeat_loop_inv (n : nat) (body : S -> M S) :
  (forall s, I s -> I (fst (body s)) /\ Q (events_of (body s))) ->
  forall s, I s ->
    I (fst (repeat_loop n body s)) /\ Q (events_of (repeat_loop n body s)).
Proof.
  intros Hb. induction n as [|n IH]; intros s Hs; simpl.
  - split; [exact Hs | exact Q_nil].
  - destruct (Hb s Hs) as [Hi Hq]. destruct (IH _ Hi) as [Hi' Hq'].
    rewrite value_bind, events_bind. split; [exact Hi'|].
    apply Q_app; assumption.
Qed.

End LoopInvariants.

(** ** The bindings leave the rest of the descriptor alone *)

Section Bindings.

Context {X : externals}.

Lemma same_coords_refl d : same_coords d d.
Proof. repeat split. Qed.

Lemma upd_dst_id (meta : intel_cmd_meta) :
  upd_dst (fun _ => meta_dst meta) meta = meta.
Proof. destruct meta; reflexivity. Qed.

Lemma upd_src_id (meta : intel_cmd_meta) :
  upd_src (fun _ => meta_src meta) meta = meta.
Proof. destruct meta; reflexivity. Qed.

Lemma adjust_compressed_dst_frame cmd img meta :
  exists d, cmd_meta_adjust_compressed_dst cmd img meta
            = upd_dst (fun _ => d) meta
            /\ same_coords (meta_dst meta) d.
Proof.
  unfold cmd_meta_adjust_compressed_dst.
  destruct (INTEL_GEN 7 <=? cmd_gen cmd); cbv zeta;
    (match goal with |- context [if ?l =? 0 then _ else _] =>
       destruct (l =? 0) end);
    try destruct (intel_layout_get_slice_tile_offset _ _ _) as [[o xo] yo];
    eexists; (split; [reflexivity | repeat split]).
Qed.

Lemma set_dst_for_img_frame cmd img format lod layer meta :
  exists d, fst (cmd_meta_set_dst_for_img cmd img format lod layer meta)
            = upd_dst (fun _ => d) meta
            /\ same_coords (meta_dst meta) d.
Proof.
  unfold cmd_meta_set_dst_for_img, cmd_fail, emit, bind, ret.
  destruct (intel_att_view_create_for_color _ _) as [res view].
  destruct (VkResult_eq_dec res VK_SUCCESS); simpl.
  - destruct (icd_format_is_compressed _).
    + match goal with |- context [cmd_meta_adjust_compressed_dst ?c ?i ?m] =>
        destruct (adjust_compressed_dst_frame c i m) as (d & -> & Hd) end.
      exists d. split; [reflexivity | exact Hd].
    + eexists; split; [reflexivity | repeat split].
  - exists (meta_dst meta). rewrite upd_dst_id. split; [reflexivity|].
    apply same_coords_refl.
Qed.

Lemma set_dst_for_img_draws cmd img format lod layer meta :
  draws (events_of (cmd_meta_set_dst_for_img cmd img format lod layer meta)) = [].
Proof.
  unfold cmd_meta_set_dst_for_img, cmd_fail, emit, bind, ret, events_of.
  destruct (intel_att_view_create_for_color _ _) as [res view].
  destruct (VkResult_eq_dec res VK_SUCCESS); reflexivity.
Qed.

Lemma set_dst_for_img_fails cmd img format lod layer meta :
  (forall info, fst (intel_att_view_create_for_color (cmd_dev cmd) info)
                = VK_SUCCESS) ->
  fails (events_of (cmd_meta_set_dst_for_img cmd img format lod layer meta)) = [].
Proof.
  intros Hok.
  unfold cmd_meta_set_dst_for_img, cmd_fail, emit, bind, ret, events_of.
  match goal with |- context [intel_att_view_create_for_color ?d ?i] =>
    specialize (Hok i); destruct (intel_att_view_create_for_color d i) as [res view]
  end.
  simpl in Hok. subst res.
  destruct (VkResult_eq_dec VK_SUCCESS VK_SUCCESS); [reflexivity | congruence].
Qed.

Lemma set_src_for_img_frame cmd img format aspect meta :
  exists d, fst (cmd_meta_set_src_for_img cmd img format aspect meta)
            = upd_src (fun _ => d) meta
            /\ same_coords (meta_src meta) d.
Proof.
  unfold cmd_meta_set_src_for_img, cmd_fail, emit, bind, ret.
  destruct (intel_img_view_create _ _) as [res view].
  destruct (VkResult_eq_dec res VK_SUCCESS); simpl.
  - eexists; split; [reflexivity | repeat split].
  - exists (meta_src meta). rewrite upd_src_id. split; [reflexivity|].
    apply same_coords_refl.
Qed.

Lemma set_src_for_img_draws cmd img format aspect meta :
  draws (events_of (cmd_meta_set_src_for_img cmd img format aspect meta)) = [].
Proof.
  unfold cmd_meta_set_src_for_img, cmd_fail, emit, bind, ret, events_of.
  destruct (intel_img_view_create _ _) as [res view].
  destruct (VkResult_eq_dec res VK_SUCCESS); reflexivity.
Qed.

Lemma set_src_for_img_fails cmd img format aspect meta :
  (forall info, fst (intel_img_view_create (cmd_dev cmd) info) = VK_SUCCESS) ->
  fails (events_of (cmd_meta_set_src_for_img cmd img format aspect meta)) = [].
Proof.
  intros Hok.
  unfold cmd_meta_set_src_for_img, cmd_fail, emit, bind, ret, events_of.
  match goal with |- context [intel_img_view_create ?d ?i] =>
    specialize (Hok i); destruct (intel_img_view_create d i) as [res view]
  end.
  simpl in Hok. subst res.
  destruct (VkResult_eq_dec VK_SUCCESS VK_SUCCESS); [reflexivity | congruence].
Qed.

Lemma run_checked_draws {A} (c : checked A) :
  draws (events_of (run_checked c)) = [].
Proof. destruct c; reflexivity. Qed.

Lemma run_checked_fails {A} (c : checked A) :
  fails (events_of (run_checked c)) = [].
Proof. destruct c; reflexivity. Qed.

End Bindings.

(** Splits the trace of a sequence of steps into the traces of the steps. *)
Ltac msteps := repeat (rewrite ?events_bind, ?value_bind; cbv beta).

(** ** Counting dispatches *)

Lemma for_each_count {A S} (f : A -> nat) (l : list A) (body : A -> S -> M S) :
  (forall a s, In a l -> length (draws (events_of (body a s))) = f a) ->
  forall s, length (draws (events_of (for_each l body s))) = list_sum (map f l).
Proof.
  induction l as [|a l IH]; intros Hb s; simpl; [reflexivity|].
  rewrite events_bind, draws_app, length_app.
  rewrite (Hb a s (or_introl eq_refl)).
  rewrite IH; [reflexivity|]. intros a' s' H'. apply Hb. right. exact H'.
Qed.

Lemma list_sum_const {A} (k : nat) (l : list A) :
  list_sum (map (fun _ => k) l) = (length l * k)%nat.
Proof. induction l as [|a l IH]; simpl; [reflexivity | rewrite IH; reflexivity]. Qed.

Lemma length_upto n : length (upto n) = Z.to_nat n.
Proof. unfold upto. rewrite length_map, length_seq. reflexivity. Qed.

(** ** Filtered blit *)

Section Blit.

Context {X : externals}.

(** C9: every call of vkCmdBlitImage, whatever its arguments, reports
    VK_ERROR_UNAVAILABLE to the error sink and does nothing else: no view is
    built and no draw is dispatched. *)
Theorem blit_image_unavailable (cmd : intel_cmd)
    (srcImage : intel_img) (srcImageLayout : VkImageLayout)
    (destImage : intel_img) (destImageLayout : VkImageLayout)
    (pRegions : list VkImageBlit) (filter : VkTexFilter) :
  let t := events_of (vkCmdBlitImage cmd srcImage srcImageLayout
                        destImage destImageLayout pRegions filter) in
  t = [EvFail VK_ERROR_UNAVAILABLE]
  /\ draws t = []
  /\ cmd_result t = VK_ERROR_UNAVAILABLE.
Proof. repeat split. Qed.

End Blit.

(** ** The raw-format mapper *)

Section RawFormat.

Context {X : externals}.

Lemma raw_format_cases cmd format :
  match cmd_meta_img_raw_format cmd format with
  | Passed f => In (icd_format_get_size format) raw_sizes
                /\ f <> VK_FORMAT_UNDEFINED
  | AssertFailed _ f => ~ In (icd_format_get_size format) raw_sizes
                        /\ f = VK_FORMAT_UNDEFINED
  end.
Proof.
  unfold cmd_meta_img_raw_format, raw_sizes.
  destruct (icd_format_get_size format) as [|p|p]; simpl.
  - split; [lia | reflexivity].
  - do 5 (try destruct p as [p|p|]); simpl;
      try (split; [lia | reflexivity]);
      (split; [tauto | discriminate]).
  - split; [lia | reflexivity].
Qed.

(** C5: the raw-format mapper sends the texel sizes 1, 2, 4, 8 and 16 to
    R8_UINT, R16_UINT, R32_UINT, R32G32_UINT and R32G32B32A32_UINT; formats
    of different sizes among these get different raw formats; a format of
    any other size trips the assertion, and the value left for a build
    without assertions is VK_FORMAT_UNDEFINED. *)
Theorem raw_format_table (cmd : intel_cmd) (format : VkFormat) :
  (icd_format_get_size format = 1 ->
     cmd_meta_img_raw_format cmd format = Passed VK_FORMAT_R8_UINT)
  /\ (icd_format_get_size format = 2 ->
     cmd_meta_img_raw_format cmd format = Passed VK_FORMAT_R16_UINT)
  /\ (icd_format_get_size format = 4 ->
     cmd_meta_img_raw_format cmd format = Passed VK_FORMAT_R32_UINT)
  /\ (icd_format_get_size format = 8 ->
     cmd_meta_img_raw_format cmd format = Passed VK_FORMAT_R32G32_UINT)
  /\ (icd_format_get_size format = 16 ->
     cmd_meta_img_raw_format cmd format = Passed VK_FORMAT_R32G32B32A32_UINT)
  /\ (~ In (icd_format_get_size format) raw_sizes ->
     exists msg, cmd_meta_img_raw_format cmd format
                 = AssertFailed msg VK_FORMAT_UNDEFINED)
  /\ (forall format',
        In (icd_format_get_size format) raw_sizes ->
        cmd_meta_img_raw_format cmd format
        = cmd_meta_img_raw_format cmd format' ->
        icd_format_get_size format = icd_format_get_size format').
Proof.
  repeat split.
  1-5: intros H; unfold cmd_meta_img_raw_format; rewrite H; reflexivity.
  - intros H. pose proof (raw_format_cases cmd format) as Hc.
    destruct (cmd_meta_img_raw_format cmd format) as [f|msg f].
    + tauto.
    + destruct Hc as [_ ->]. exists msg. reflexivity.
  - intros format' Hin Heq.
    pose proof (raw_format_cases cmd format') as Hc'. rewrite <- Heq in Hc'.
    revert Heq Hc'. unfold cmd_meta_img_raw_format, raw_sizes in *.
    simpl in Hin.
    destruct Hin as [H|[H|[H|[H|[H|[]]]]]]; rewrite <- H; simpl;
      intros Heq [Hin' _]; simpl in Hin';
      destruct Hin' as [H'|[H'|[H'|[H'|[H'|[]]]]]]; rewrite <- H' in *;
      simpl in Heq; try reflexivity; discriminate.
Qed.

End RawFormat.

(** On the sample platform: one format of each size, and a 12-byte one. *)
Lemma raw_format_table_witness :
  cmd_meta_img_raw_format Sample.cmd6 VK_FORMAT_R8_UINT
    = Passed VK_FORMAT_R8_UINT
  /\ cmd_meta_img_raw_format Sample.cmd6 VK_FORMAT_R16_UINT
    = Passed VK_FORMAT_R16_UINT
  /\ cmd_meta_img_raw_format Sample.cmd6 VK_FORMAT_R8G8B8A8_UINT
    = Passed VK_FORMAT_R32_UINT
  /\ cmd_meta_img_raw_format Sample.cmd6 Sample.BC1_RGB_UNORM
    = Passed VK_FORMAT_R32G32_UINT
  /\ cmd_meta_img_raw_format Sample.cmd6 VK_FORMAT_R32G32B32A32_UINT
    = Passed VK_FORMAT_R32G32B32A32_UINT
  /\ (exists msg, cmd_meta_img_raw_format Sample.cmd6 Sample.R32G32B32_UINT
                  = AssertFailed msg VK_FORMAT_UNDEFINED)
  /\ icd_format_get_size VK_FORMAT_R32_UINT
     = icd_format_get_size VK_FORMAT_R8G8B8A8_UINT.
Proof.
  split; [apply (raw_format_table Sample.cmd6 VK_FORMAT_R8_UINT); reflexivity|].
  split; [apply (raw_format_table Sample.cmd6 VK_FORMAT_R16_UINT); reflexivity|].
  split; [apply (raw_format_table Sample.cmd6 VK_FORMAT_R8G8B8A8_UINT); reflexivity|].
  split; [apply (raw_format_table Sample.cmd6 Sample.BC1_RGB_UNORM); reflexivity|].
  split; [apply (raw_format_table Sample.cmd6 VK_FORMAT_R32G32B32A32_UINT);
          reflexivity|].
  split.
  - apply (raw_format_table Sample.cmd6 Sample.R32G32B32_UINT).
    unfold raw_sizes; simpl; lia.
  - apply (raw_format_table Sample.cmd6 VK_FORMAT_R32_UINT).
    + unfold raw_sizes; simpl; lia.
    + reflexivity.
Defined.

(** ** Image copies: validation *)

Section CopyImageValidation.

Context {X : externals}.

(** C7: when the two images differ in type, or differ in format while one
    of the formats is block-compressed, vkCmdCopyImage reports
    VK_ERROR_UNKNOWN and returns: that report is the whole trace of the
    call, so no view was requested, no binding built and no draw
    dispatched, whatever the regions. *)
Theorem copy_image_mismatch_fails (cmd : intel_cmd) (src dst : intel_img)
    (pRegions : list VkImageCopy) :
  img_type src <> img_type dst
  \/ (layout_format (img_layout src) <> layout_format (img_layout dst)
      /\ (icd_format_is_compressed (layout_format (img_layout src)) = true
          \/ icd_format_is_compressed (layout_format (img_layout dst)) = true)) ->
  vkCmdCopyImage cmd src dst pRegions = (tt, [EvFail VK_ERROR_UNKNOWN]).
Proof.
  intros H. unfold vkCmdCopyImage.
  destruct (VkImageType_eq_dec (img_type src) (img_type dst)) as [Et|Nt];
    [|reflexivity].
  destruct H as [H|[Hf Hc]]; [contradiction|].
  destruct (VkFormat_eq_dec _ _) as [Ef|Nf]; [contradiction|].
  destruct Hc as [-> | ->]; [reflexivity|].
  rewrite orb_true_r. reflexivity.
Qed.

End CopyImageValidation.

(** On the sample platform: a 1D image copied to a 2D one, and an
    uncompressed 2D image copied to a block-compressed one. *)
Lemma copy_image_mismatch_fails_witness :
  vkCmdCopyImage Sample.cmd7 (Sample.img1d VK_FORMAT_R8_UINT)
    (Sample.img2d VK_FORMAT_R8_UINT 1) [] = (tt, [EvFail VK_ERROR_UNKNOWN])
  /\ vkCmdCopyImage Sample.cmd7 (Sample.img2d VK_FORMAT_R32G32_UINT 1)
       (Sample.img2d Sample.BC1_RGB_UNORM 1) []
     = (tt, [EvFail VK_ERROR_UNKNOWN]).
Proof.
  split.
  - apply (copy_image_mismatch_fails Sample.cmd7
             (Sample.img1d VK_FORMAT_R8_UINT) (Sample.img2d VK_FORMAT_R8_UINT 1)).
    left. simpl. discriminate.
  - apply (copy_image_mismatch_fails Sample.cmd7
             (Sample.img2d VK_FORMAT_R32G32_UINT 1)
             (Sample.img2d Sample.BC1_RGB_UNORM 1)).
    right. simpl. split; [discriminate | right; reflexivity].
Defined.

(** ** Multisample resolve *)

Section Resolve.

Context {X : externals}.

Lemma resolve_slice_draw cmd dst format region i meta :
  draws (events_of (resolve_slice cmd dst format region i meta))
  = [fst (resolve_slice cmd dst format region i meta)]
  /\ meta_shader_id (fst (resolve_slice cmd dst format region i meta))
     = meta_shader_id meta.
Proof.
  unfold resolve_slice. cbv zeta.
  match goal with |- context [cmd_meta_set_dst_for_img ?c ?i ?f ?l ?y ?m] =>
    destruct (set_dst_for_img_frame c i f l y m) as (d & Hd & _);
    pose proof (set_dst_for_img_draws c i f l y m) as Hn;
    destruct (cmd_meta_set_dst_for_img c i f l y m) as [m1 e1]
  end.
  unfold events_of in *. simpl in Hd, Hn. subst m1. simpl.
  rewrite draws_app, Hn. split; reflexivity.
Qed.

Lemma resolve_slice_fails cmd dst format region i meta :
  (forall info, fst (intel_att_view_create_for_color (cmd_dev cmd) info)
                = VK_SUCCESS) ->
  fails (events_of (resolve_slice cmd dst format region i meta)) = [].
Proof.
  intros Hok. unfold resolve_slice. cbv zeta.
  match goal with |- context [cmd_meta_set_dst_for_img ?c ?i ?f ?l ?y ?m] =>
    pose proof (set_dst_for_img_fails c i f l y m Hok) as Hn;
    destruct (cmd_meta_set_dst_for_img c i f l y m) as [m1 e1]
  end.
  unfold events_of in *. simpl in Hn. simpl.
  rewrite fails_app, Hn. reflexivity.
Qed.

(** C3: vkCmdResolveImage reports VK_ERROR_UNKNOWN and does nothing else (no
    draw) when the source has at most one sample, or the destination has
    more than one, or the formats differ.  Otherwise it goes on: it
    dispatches one draw for each array slice of each region, every draw
    carries the resolve shader of the source sample count, it reports no
    error as long as the device builds the views, and the shaders chosen for
    2, 4, 8 and 16 samples are four different ones (2X, 4X, 8X, 16X). *)
Theorem resolve_image_precondition (cmd : intel_cmd) (src dst : intel_img)
    (pRegions : list VkImageResolve) :
  let t := events_of (vkCmdResolveImage cmd src dst pRegions) in
  (img_samples src <= 1 \/ img_samples dst > 1
   \/ layout_format (img_layout src) <> layout_format (img_layout dst) ->
   t = [EvFail VK_ERROR_UNKNOWN] /\ draws t = [])
  /\ (img_samples src > 1 -> img_samples dst <= 1 ->
      layout_format (img_layout src) = layout_format (img_layout dst) ->
      In (img_samples src) [2; 4; 8; 16] ->
      Forall (fun m => meta_shader_id m = resolve_shader (img_samples src))
        (draws t)
      /\ length (draws t) = resolve_draw_count pRegions
      /\ ((forall info, fst (intel_img_view_create (cmd_dev cmd) info)
                        = VK_SUCCESS) ->
          (forall info, fst (intel_att_view_create_for_color (cmd_dev cmd) info)
                        = VK_SUCCESS) ->
          fails t = []))
  /\ map resolve_shader [2; 4; 8; 16]
     = [INTEL_DEV_META_FS_RESOLVE_2X; INTEL_DEV_META_FS_RESOLVE_4X;
        INTEL_DEV_META_FS_RESOLVE_8X; INTEL_DEV_META_FS_RESOLVE_16X]
  /\ NoDup (map resolve_shader [2; 4; 8; 16]).
Proof.
  cbv zeta. split; [|split; [|split]].
  - intros H. unfold vkCmdResolveImage.
    assert ((img_samples src <=? 1) || (1 <? img_samples dst)
            || (if VkFormat_eq_dec (layout_format (img_layout src))
                                   (layout_format (img_layout dst))
                then false else true) = true) as ->.
    { destruct H as [H|[H|H]].
      - apply Z.leb_le in H. rewrite H. reflexivity.
      - assert ((1 <? img_samples dst) = true) as -> by (apply Z.ltb_lt; lia).
        rewrite orb_true_r. reflexivity.
      - destruct (VkFormat_eq_dec _ _); [contradiction|].
        rewrite orb_true_r. reflexivity. }
    split; reflexivity.
  - intros Hs Hd Hf Hin. unfold vkCmdResolveImage.
    assert ((img_samples src <=? 1) || (1 <? img_samples dst)
            || (if VkFormat_eq_dec (layout_format (img_layout src))
                                   (layout_format (img_layout dst))
                then false else true) = false) as ->.
    { assert ((img_samples src <=? 1) = false) as -> by (apply Z.leb_gt; lia).
      assert ((1 <? img_samples dst) = false) as -> by (apply Z.ltb_ge; lia).
      destruct (VkFormat_eq_dec _ _); [reflexivity | contradiction]. }
    cbv zeta.
    set (sh := resolve_shader (img_samples src)).
    set (meta0 := set_samples 1 (set_shader_id sh _)).
    set (format := fst (run_checked (cmd_meta_img_raw_format cmd
                                       (layout_format (img_layout src))))).
    msteps. fold format.
    set (meta1 := fst (cmd_meta_set_src_for_img cmd src format
                         VK_IMAGE_ASPECT_COLOR meta0)).
    assert (Hsh : meta_shader_id meta1 = sh).
    { subst meta1.
      destruct (set_src_for_img_frame cmd src format VK_IMAGE_ASPECT_COLOR meta0)
        as (d & -> & _). reflexivity. }
    rewrite !draws_app, !fails_app, run_checked_draws, run_checked_fails,
      set_src_for_img_draws. simpl. rewrite !app_nil_r.
    split; [|split].
    + apply (for_each_inv (fun m => meta_shader_id m = sh)
               (fun t => Forall (fun m => meta_shader_id m = sh) (draws t)));
        [constructor | | | exact Hsh].
      * intros t1 t2 H1 H2. rewrite draws_app. apply Forall_app. tauto.
      * intros region m _ Hm.
        apply (for_each_inv (fun m => meta_shader_id m = sh)
               (fun t => Forall (fun m => meta_shader_id m = sh) (draws t)));
          [constructor | | | exact Hm].
        -- intros t1 t2 H1 H2. rewrite draws_app. apply Forall_app. tauto.
        -- intros i m' _ Hm'.
           destruct (resolve_slice_draw cmd dst format region i m') as [Hdr Hid].
           rewrite Hdr. split; [congruence|]. repeat constructor. congruence.
    + unfold resolve_draw_count. apply for_each_count.
      intros region m _.
      rewrite (for_each_count (fun _ => 1%nat)).
      * rewrite list_sum_const, length_upto. lia.
      * intros i m' _.
        rewrite (proj1 (resolve_slice_draw cmd dst format region i m')).
        reflexivity.
    + intros Hi Ha. rewrite set_src_for_img_fails by exact Hi. simpl.
      apply (for_each_inv (fun _ => True) (fun t => fails t = []));
        [reflexivity | | | exact I].
      * intros t1 t2 H1 H2. rewrite fails_app, H1, H2. reflexivity.
      * intros region m _ _. split; [exact I|].
        apply (for_each_inv (fun _ => True) (fun t => fails t = []));
          [reflexivity | | | exact I].
        -- intros t1 t2 H1 H2. rewrite fails_app, H1, H2. reflexivity.
        -- intros i m' _ _. split; [exact I|].
           apply resolve_slice_fails. exact Ha.
  - reflexivity.
  - simpl. repeat constructor; simpl; intuition discriminate.
Qed.

End Resolve.

(** ** Image copies: the shader of each draw *)

Lemma for_each_projection {A S B} (g : intel_cmd_meta -> B) (h : A -> list B)
    (l : list A) (body : A -> S -> M S) :
  (forall a s, In a l -> map g (draws (events_of (body a s))) = h a) ->
  forall s, map g (draws (events_of (for_each l body s))) = flat_map h l.
Proof.
  induction l as [|a l IH]; intros Hb s; simpl; [reflexivity|].
  rewrite events_bind, draws_app, map_app, (Hb a s (or_introl eq_refl)).
  rewrite IH; [reflexivity|]. intros a' s' H'. apply Hb. right. exact H'.
Qed.

Lemma repeat_loop_projection {S B} (g : intel_cmd_meta -> B) (I : S -> Prop)
    (v : B) (n : nat) (body : S -> M S) :
  (forall s, I s ->
     I (fst (body s)) /\ map g (draws (events_of (body s))) = [v]) ->
  forall s, I s ->
    map g (draws (events_of (repeat_loop n body s))) = repeat v n.
Proof.
  intros Hb. induction n as [|n IH]; intros s Hs; simpl; [reflexivity|].
  destruct (Hb s Hs) as [Hi Hg].
  rewrite events_bind, draws_app, map_app, Hg, (IH _ Hi). reflexivity.
Qed.

Section CopyImageShader.

Context {X : externals}.

Lemma copy_image_layer_draw cmd dst format meta :
  draws (events_of (copy_image_layer cmd dst format meta))
  = [fst (cmd_meta_set_dst_for_img cmd dst format
            (m_lod (meta_dst meta)) (m_layer (meta_dst meta)) meta)]
  /\ meta_shader_id (fst (copy_image_layer cmd dst format meta))
     = meta_shader_id meta.
Proof.
  unfold copy_image_layer.
  destruct (set_dst_for_img_frame cmd dst format
              (m_lod (meta_dst meta)) (m_layer (meta_dst meta)) meta)
    as (d & Hd & _).
  pose proof (set_dst_for_img_draws cmd dst format
                (m_lod (meta_dst meta)) (m_layer (meta_dst meta)) meta) as Hn.
  destruct (cmd_meta_set_dst_for_img _ _ _ _ _ _) as [m1 e1].
  unfold events_of in *. simpl in Hd, Hn. subst m1. simpl.
  rewrite draws_app, Hn. split; reflexivity.
Qed.

Lemma copy_image_region_shaders cmd src dst raw region meta :
  map meta_shader_id
    (draws (events_of (copy_image_region cmd src dst raw region meta)))
  = repeat (region_shader cmd src region) (region_layers region).
Proof.
  unfold copy_image_region. cbv zeta.
  apply (repeat_loop_projection meta_shader_id
           (fun m => meta_shader_id m = region_shader cmd src region)).
  - intros m Hm.
    destruct (copy_image_layer_draw cmd dst
                (match raw with
                 | Some raw_format => raw_format
                 | None => layout_format (img_layout dst)
                 end) m) as [Hdr Hid].
    split; [congruence|]. rewrite Hdr. simpl.
    destruct (set_dst_for_img_frame cmd dst
                (match raw with
                 | Some raw_format => raw_format
                 | None => layout_format (img_layout dst)
                 end) (m_lod (meta_dst m)) (m_layer (meta_dst m)) m)
      as (d & -> & _).
    simpl. rewrite Hm. reflexivity.
  - destruct raw; reflexivity.
Qed.

Lemma copy_image_regions_shaders cmd src dst raw pRegions :
  map meta_shader_id
    (draws (events_of (copy_image_regions cmd src dst raw pRegions)))
  = flat_map (fun region =>
                repeat (region_shader cmd src region) (region_layers region))
      pRegions.
Proof.
  unfold copy_image_regions. cbv zeta. msteps.
  rewrite !draws_app, set_src_for_img_draws. simpl. rewrite app_nil_r.
  apply for_each_projection. intros region m _.
  apply copy_image_region_shaders.
Qed.


End CopyImageShader.



(** On the sample platform: a single-sampled source is refused; a
    4-sample source is resolved, two layers deep, with the 4X shader. *)
Lemma resolve_image_precondition_witness :
  (events_of (vkCmdResolveImage Sample.cmd7
                (Sample.img2d VK_FORMAT_R8G8B8A8_UINT 1)
                (Sample.img2d VK_FORMAT_R8G8B8A8_UINT 1)
                [Sample.image_resolve 2])
   = [EvFail VK_ERROR_UNKNOWN])
  /\ Forall (fun m => meta_shader_id m = INTEL_DEV_META_FS_RESOLVE_4X)
       (draws (events_of (vkCmdResolveImage Sample.cmd7
                            (Sample.img2d VK_FORMAT_R8G8B8A8_UINT 4)
                            (Sample.img2d VK_FORMAT_R8G8B8A8_UINT 1)
                            [Sample.image_resolve 2])))
  /\ length (draws (events_of (vkCmdResolveImage Sample.cmd7
                                 (Sample.img2d VK_FORMAT_R8G8B8A8_UINT 4)
                                 (Sample.img2d VK_FORMAT_R8G8B8A8_UINT 1)
                                 [Sample.image_resolve 2]))) = 2%nat
  /\ fails (events_of (vkCmdResolveImage Sample.cmd7
                         (Sample.img2d VK_FORMAT_R8G8B8A8_UINT 4)
                         (Sample.img2d VK_FORMAT_R8G8B8A8_UINT 1)
                         [Sample.image_resolve 2])) = [].
Proof.
  split.
  { apply (resolve_image_precondition Sample.cmd7
             (Sample.img2d VK_FORMAT_R8G8B8A8_UINT 1)
             (Sample.img2d VK_FORMAT_R8G8B8A8_UINT 1)
             [Sample.image_resolve 2]).
    left. simpl. lia. }
  destruct (resolve_image_precondition Sample.cmd7
              (Sample.img2d VK_FORMAT_R8G8B8A8_UINT 4)
              (Sample.img2d VK_FORMAT_R8G8B8A8_UINT 1)
              [Sample.image_resolve 2]) as (_ & H & _).
  destruct H as (Hs & Hc & Hf);
    [simpl; lia | simpl; lia | reflexivity | simpl; tauto |].
  split; [exact Hs|]. split; [exact Hc|].
  apply Hf; intros info; reflexivity.
Defined.

(** ** Image clears *)

Lemma u32_small z : 0 <= z < 2 ^ 32 -> u32 z = z.
Proof. intros H. unfold u32. apply Z.mod_small. exact H. Qed.

Lemma In_upto i n : In i (upto n) -> 0 <= i < n.
Proof.
  unfold upto. rewrite in_map_iff. intros (k & <- & Hk).
  apply in_seq in Hk. lia.
Qed.

(** A counted loop keeps an invariant that follows the counter. *)
Lemma repeat_loop_inv_ix {S} (I : nat -> S -> Prop) (Q : list event -> Prop)
    (n : nat) (body : S -> M S) :
  Q [] ->
  (forall t1 t2, Q t1 -> Q t2 -> Q (t1 ++ t2)) ->
  (forall k s, (k < n)%nat -> I k s ->
     I (Datatypes.S k) (fst (body s)) /\ Q (events_of (body s))) ->
  forall s, I O s ->
    I n (fst (repeat_loop n body s)) /\ Q (events_of (repeat_loop n body s)).
Proof.
  intros Qnil Qapp. revert I.
  induction n as [|n IH]; intros I Hb s Hs; simpl.
  - split; [exact Hs | exact Qnil].
  - destruct (Hb O s ltac:(lia) Hs) as [Hi Hq].
    destruct (IH (fun k => I (Datatypes.S k))
                (fun k s' Hk => Hb (Datatypes.S k) s' ltac:(lia)) _ Hi)
      as [Hi' Hq'].
    rewrite value_bind, events_bind. split; [exact Hi'|].
    apply Qapp; assumption.
Qed.

Lemma for_each_count_inv {A S} (I : S -> Prop) (f : A -> nat) (l : list A)
    (body : A -> S -> M S) :
  (forall a s, In a l -> I s ->
     I (fst (body a s)) /\ length (draws (events_of (body a s))) = f a) ->
  forall s, I s ->
    length (draws (events_of (for_each l body s))) = list_sum (map f l).
Proof.
  induction l as [|a l IH]; intros Hb s Hs; simpl; [reflexivity|].
  destruct (Hb a s (or_introl eq_refl) Hs) as [Hi Hc].
  rewrite events_bind, draws_app, length_app, Hc.
  rewrite (IH (fun a' s' H' => Hb a' s' (or_intror H')) _ Hi). reflexivity.
Qed.

Lemma repeat_loop_count_inv {S} (I : S -> Prop) (k : nat) (n : nat)
    (body : S -> M S) :
  (forall s, I s -> I (fst (body s)) /\ length (draws (events_of (body s))) = k) ->
  forall s, I s ->
    I (fst (repeat_loop n body s))
    /\ length (draws (events_of (repeat_loop n body s))) = (n * k)%nat.
Proof.
  intros Hb. induction n as [|n IH]; intros s Hs; simpl.
  - split; [exact Hs | reflexivity].
  - destruct (Hb s Hs) as [Hi Hc]. destruct (IH _ Hi) as [Hi' Hc'].
    rewrite value_bind, events_bind, draws_app, length_app, Hc, Hc'.
    split; [exact Hi' | reflexivity].
Qed.

Section ClearImage.

Context {X : externals}.

(** One layer of a clear: one draw, at the level and layer the descriptor
    holds; then the layer moves on by one. *)
Lemma clear_image_layer_draw cmd img format range meta :
  exists m1,
    draws (events_of (clear_image_layer cmd img format range meta)) = [m1]
    /\ m_lod (meta_dst m1) = m_lod (meta_dst meta)
    /\ m_layer (meta_dst m1) = m_layer (meta_dst meta)
    /\ m_lod (meta_dst (fst (clear_image_layer cmd img format range meta)))
       = m_lod (meta_dst meta)
    /\ m_layer (meta_dst (fst (clear_image_layer cmd img format range meta)))
       = u32 (m_layer (meta_dst meta) + 1)
    /\ ds_op (meta_ds (fst (clear_image_layer cmd img format range meta)))
       = ds_op (meta_ds meta).
Proof.
  unfold clear_image_layer.
  destruct (VkImageAspect_eq_dec (range_aspect range) VK_IMAGE_ASPECT_COLOR).
  - destruct (set_dst_for_img_frame cmd img format
                (m_lod (meta_dst meta)) (m_layer (meta_dst meta)) meta)
      as (d & Hd & Hl & Hy & _).
    pose proof (set_dst_for_img_draws cmd img format
                  (m_lod (meta_dst meta)) (m_layer (meta_dst meta)) meta) as Hn.
    destruct (cmd_meta_set_dst_for_img _ _ _ _ _ _) as [m1 e1].
    unfold events_of in *. simpl in Hd, Hn. subst m1. simpl.
    rewrite !draws_app, Hn. simpl.
    eexists. split; [reflexivity|]. simpl. repeat split; congruence.
  - unfold cmd_meta_set_ds_view, cmd_meta_set_ds_state, cmd_fail, emit,
      cmd_draw_meta, bind, ret, events_of.
    destruct (intel_att_view_create_for_ds _ _) as [res view].
    destruct (VkResult_eq_dec res VK_SUCCESS); simpl;
      (eexists; split; [reflexivity|]; simpl; repeat split).
Qed.

Lemma clear_image_level_draws cmd img format range array_size i meta :
  uint32 (img_mip_levels img) -> uint32 (img_array_size img) ->
  uint32 (range_baseMipLevel range) -> uint32 (range_baseArraySlice range) ->
  0 <= i -> range_baseMipLevel range + i < img_mip_levels img ->
  i < range_mipLevels range ->
  array_size <= img_array_size img - range_baseArraySlice range ->
  array_size <= range_arraySize range ->
  Forall (in_clear_range img range)
    (draws (events_of (clear_image_level cmd img format range array_size i meta)))
  /\ ds_op (meta_ds (fst (clear_image_level cmd img format range array_size
                            i meta)))
     = ds_op (meta_ds meta)
  /\ (ds_op (meta_ds meta) = INTEL_CMD_META_DS_NOP ->
      length (draws (events_of
                (clear_image_level cmd img format range array_size i meta)))
      = Z.to_nat array_size).
Proof.
  unfold uint32. intros Hm Ha Hbm Hba Hi Him Hir Has Har.
  unfold clear_image_level. cbv zeta.
  set (meta1 := set_height _ _).
  assert (Hlod : m_lod (meta_dst meta1) = range_baseMipLevel range + i).
  { subst meta1. simpl. apply u32_small. lia. }
  assert (Hlay : m_layer (meta_dst meta1) = range_baseArraySlice range)
    by reflexivity.
  assert (Hop : ds_op (meta_ds meta1) = ds_op (meta_ds meta)) by reflexivity.
  match goal with |- context [if ?c then _ else _] => destruct c eqn:Hgate end.
  - split; [constructor|]. split; [exact Hop|].
    intros Hnop. rewrite Hop, Hnop in Hgate. simpl in Hgate. discriminate.
  - split; [|split].
    + apply (repeat_loop_inv_ix
               (fun k m => m_lod (meta_dst m) = range_baseMipLevel range + i
                           /\ m_layer (meta_dst m)
                              = range_baseArraySlice range + Z.of_nat k)
               (fun t => Forall (in_clear_range img range) (draws t)));
        [constructor | | | split; [exact Hlod | rewrite Hlay; lia]].
      * intros t1 t2 H1 H2. rewrite draws_app. apply Forall_app. tauto.
      * intros k m Hk [Hl Hy].
        destruct (clear_image_layer_draw cmd img format range m)
          as (m1 & Hd & Hl1 & Hy1 & Hl2 & Hy2 & _).
        rewrite Hd, Hl2, Hy2, Hl, Hy. split.
        -- split; [reflexivity|]. rewrite u32_small by lia. lia.
        -- repeat constructor; rewrite ?Hl1, ?Hy1, ?Hl, ?Hy; lia.
    + apply (repeat_loop_inv
               (fun m => ds_op (meta_ds m) = ds_op (meta_ds meta))
               (fun _ => True)); [exact I | tauto | | exact Hop].
      intros m Hmop.
      destruct (clear_image_layer_draw cmd img format range m)
        as (m1 & _ & _ & _ & _ & _ & Hop2).
      split; [congruence | exact I].
    + intros _.
      destruct (repeat_loop_count_inv (fun _ => True) 1 (Z.to_nat array_size)
                  (clear_image_layer cmd img format range)) with (s := meta1)
        as [_ Hc]; [|exact I|rewrite Hc; lia].
      intros m _. split; [exact I|].
      destruct (clear_image_layer_draw cmd img format range m) as (m1 & -> & _).
      reflexivity.
Qed.

(** C8: a range whose base mip level or base array slice lies outside the
    image is skipped: cmd_meta_clear_image returns the descriptor untouched
    and emits nothing (no draw, no error).  Otherwise the mip and layer
    counts are clamped to what the image has left: every draw targets a level
    and a layer that belong both to the image and to the range, and a clear
    that is not gated on HiZ issues as many draws as the product of the
    clamped counts. *)
Theorem clear_image_range (cmd : intel_cmd) (img : intel_img)
    (format : VkFormat) (meta : intel_cmd_meta)
    (range : VkImageSubresourceRange) :
  (range_baseMipLevel range >= img_mip_levels img
   \/ range_baseArraySlice range >= img_array_size img ->
   cmd_meta_clear_image cmd img format meta range = (meta, []))
  /\ (uint32 (img_mip_levels img) -> uint32 (img_array_size img) ->
      uint32 (range_baseMipLevel range) -> uint32 (range_baseArraySlice range) ->
      range_baseMipLevel range < img_mip_levels img ->
      range_baseArraySlice range < img_array_size img ->
      let t := events_of (cmd_meta_clear_image cmd img format meta range) in
      Forall (in_clear_range img range) (draws t)
      /\ (ds_op (meta_ds meta) = INTEL_CMD_META_DS_NOP ->
          length (draws t)
          = (Z.to_nat (clamped_mip_levels img range)
             * Z.to_nat (clamped_array_size img range))%nat)).
Proof.
  split.
  - intros H. unfold cmd_meta_clear_image.
    assert ((img_mip_levels img <=? range_baseMipLevel range)
            || (img_array_size img <=? range_baseArraySlice range) = true) as ->.
    { apply orb_true_iff. rewrite !Z.leb_le. lia. }
    reflexivity.
  - intros Hm Ha Hbm Hba Hlm Hla. unfold uint32 in *. cbv zeta.
    unfold cmd_meta_clear_image.
    assert ((img_mip_levels img <=? range_baseMipLevel range)
            || (img_array_size img <=? range_baseArraySlice range) = false) as ->.
    { apply orb_false_iff. rewrite !Z.leb_gt. lia. }
    cbv zeta.
    rewrite !(u32_small (img_mip_levels img - range_baseMipLevel range)),
            !(u32_small (img_array_size img - range_baseArraySlice range))
      by lia.
    set (mips := if range_mipLevels range
                    <? img_mip_levels img - range_baseMipLevel range
                 then _ else _).
    set (layers := if range_arraySize range
                      <? img_array_size img - range_baseArraySlice range
                   then _ else _).
    assert (Hmips : mips = clamped_mip_levels img range).
    { subst mips. unfold clamped_mip_levels.
      destruct (Z.ltb_spec (range_mipLevels range)
                  (img_mip_levels img - range_baseMipLevel range)); lia. }
    assert (Hlayers : layers = clamped_array_size img range).
    { subst layers. unfold clamped_array_size.
      destruct (Z.ltb_spec (range_arraySize range)
                  (img_array_size img - range_baseArraySlice range)); lia. }
    assert (Hstep : forall i m, In i (upto mips) ->
              Forall (in_clear_range img range)
                (draws (events_of
                   (clear_image_level cmd img format range layers i m)))
              /\ ds_op (meta_ds (fst (clear_image_level cmd img format range
                                        layers i m)))
                 = ds_op (meta_ds m)
              /\ (ds_op (meta_ds m) = INTEL_CMD_META_DS_NOP ->
                  length (draws (events_of
                     (clear_image_level cmd img format range layers i m)))
                  = Z.to_nat layers)).
    { intros i m Hi. apply In_upto in Hi.
      apply clear_image_level_draws; unfold uint32, clamped_mip_levels,
        clamped_array_size in *; lia. }
    split.
    + apply (for_each_inv (fun _ => True)
               (fun t => Forall (in_clear_range img range) (draws t)));
        [constructor | | | exact I].
      * intros t1 t2 H1 H2. rewrite draws_app. apply Forall_app. tauto.
      * intros i m Hi _. split; [exact I|]. apply (Hstep i m Hi).
    + intros Hnop.
      rewrite (for_each_count_inv
                 (fun m => ds_op (meta_ds m) = INTEL_CMD_META_DS_NOP)
                 (fun _ => Z.to_nat layers)).
      * rewrite list_sum_const, length_upto, Hmips, Hlayers. reflexivity.
      * intros i m Hi Hmop. destruct (Hstep i m Hi) as (_ & Hop & Hc).
        split; [congruence | exact (Hc Hmop)].
      * exact Hnop.
Qed.

End ClearImage.

(** On the sample platform (an image of 3 mip levels and 4 layers): a
    range starting at mip level 5 is skipped; a range starting at level 1,
    layer 2 and asking for 10 levels and all remaining layers is clamped to
    2 levels of 2 layers. *)
Lemma clear_image_range_witness :
  cmd_meta_clear_image Sample.cmd7 (Sample.img2d VK_FORMAT_R8G8B8A8_UINT 1)
    VK_FORMAT_R8G8B8A8_UINT zero_meta
    {| range_aspect := VK_IMAGE_ASPECT_COLOR;
       range_baseMipLevel := 5; range_mipLevels := 1;
       range_baseArraySlice := 0; range_arraySize := 1 |}
  = (zero_meta, [])
  /\ length (draws (events_of
       (cmd_meta_clear_image Sample.cmd7
          (Sample.img2d VK_FORMAT_R8G8B8A8_UINT 1)
          VK_FORMAT_R8G8B8A8_UINT zero_meta
          {| range_aspect := VK_IMAGE_ASPECT_COLOR;
             range_baseMipLevel := 1; range_mipLevels := 10;
             range_baseArraySlice := 2;
             range_arraySize := VK_LAST_ARRAY_SLICE |}))) = 4%nat.
Proof.
  split.
  - apply (clear_image_range Sample.cmd7
             (Sample.img2d VK_FORMAT_R8G8B8A8_UINT 1)
             VK_FORMAT_R8G8B8A8_UINT zero_meta).
    left. simpl. lia.
  - destruct (clear_image_range Sample.cmd7
                (Sample.img2d VK_FORMAT_R8G8B8A8_UINT 1)
                VK_FORMAT_R8G8B8A8_UINT zero_meta
                {| range_aspect := VK_IMAGE_ASPECT_COLOR;
                   range_baseMipLevel := 1; range_mipLevels := 10;
                   range_baseArraySlice := 2;
                   range_arraySize := VK_LAST_ARRAY_SLICE |}) as [_ H].
    assert (Hu : forall z, 0 <= z < 8 -> uint32 z) by (unfold uint32; lia).
    destruct H as [_ H];
      [apply Hu; simpl; lia | apply Hu; simpl; lia | apply Hu; simpl; lia
      | apply Hu; simpl; lia | simpl; lia | simpl; lia |].
    apply H. reflexivity.
Defined.

(** ** Attachment clears *)

Section ClearAttachment.

Context {X : externals}.

Lemma clear_image_single_level cmd img format meta range :
  range_mipLevels range = 1 ->
  Forall (fun m => m_lod (meta_dst m) = u32 (range_baseMipLevel range))
    (draws (events_of (cmd_meta_clear_image cmd img format meta range))).
Proof.
  intros H1. unfold cmd_meta_clear_image.
  destruct (_ || _); [constructor|]. cbv zeta. rewrite H1.
  set (mips := if _ <? _ then _ else _).
  assert (Hmips : mips <= 1).
  { subst mips. destruct (Z.ltb_spec 1
      (u32 (img_mip_levels img - range_baseMipLevel range))); lia. }
  set (layers := if _ <? _ then _ else _). clearbody layers.
  apply (for_each_inv (fun _ => True)
           (fun t => Forall (fun m => m_lod (meta_dst m)
                                      = u32 (range_baseMipLevel range))
                       (draws t))); [constructor | | | exact I].
  - intros t1 t2 Ha Hb. rewrite draws_app. apply Forall_app. tauto.
  - intros i m Hi _. split; [exact I|]. apply In_upto in Hi.
    assert (i = 0) as -> by lia.
    unfold clear_image_level. cbv zeta. rewrite !Z.add_0_r.
    match goal with |- context [if ?c then _ else _] => destruct c end;
      [constructor|].
    apply (repeat_loop_inv
             (fun m => m_lod (meta_dst m) = u32 (range_baseMipLevel range))
             (fun t => Forall (fun m => m_lod (meta_dst m)
                                        = u32 (range_baseMipLevel range))
                         (draws t))); [constructor | | | reflexivity].
    + intros t1 t2 Ha Hb. rewrite draws_app. apply Forall_app. tauto.
    + intros m' Hm'.
      destruct (clear_image_layer_draw cmd img format range m')
        as (m1 & Hd & Hl1 & _ & Hl2 & _).
      rewrite Hd, Hl2. split; [exact Hm'|].
      repeat constructor. congruence.
Qed.

Lemma clear_depth_stencil_image_single cmd img imageLayout depth stencil range :
  range_mipLevels range = 1 ->
  Forall (fun m => m_lod (meta_dst m) = u32 (range_baseMipLevel range))
    (draws (events_of (cmd_meta_clear_depth_stencil_image cmd img imageLayout
                         depth stencil [range]))).
Proof.
  intros H1. unfold cmd_meta_clear_depth_stencil_image. cbv zeta.
  msteps. simpl for_each. msteps. simpl. rewrite !app_nil_r.
  apply clear_image_single_level. exact H1.
Qed.

Lemma clear_color_image_single cmd img imageLayout pClearColor range :
  range_mipLevels range = 1 ->
  Forall (fun m => m_lod (meta_dst m) = u32 (range_baseMipLevel range))
    (draws (events_of (cmd_meta_clear_color_image cmd img imageLayout
                         pClearColor [range]))).
Proof.
  intros H1. unfold cmd_meta_clear_color_image. cbv zeta.
  msteps. simpl for_each. msteps. simpl. rewrite !app_nil_r.
  apply clear_image_single_level. exact H1.
Qed.

End ClearAttachment.

(** ** Buffer bindings *)

(** A loop's trace, seen through a projection that respects concatenation,
    is the concatenation of what each iteration contributes. *)
Section Projections.

Context {B : Type} (p : list event -> list B).
Hypothesis p_nil : p [] = [].
Hypothesis p_app : forall t1 t2, p (t1 ++ t2) = p t1 ++ p t2.

Lemma for_each_flat_inv {A S} (I : S -> Prop) (h : A -> list B) (l : list A)
    (body : A -> S -> M S) :
  (forall a s, In a l -> I s ->
     I (fst (body a s)) /\ p (events_of (body a s)) = h a) ->
  forall s, I s -> p (events_of (for_each l body s)) = flat_map h l.
Proof.
  induction l as [|a l IH]; intros Hb s Hs; simpl; [exact p_nil|].
  destruct (Hb a s (or_introl eq_refl) Hs) as [Hi Hp].
  rewrite events_bind, p_app, Hp.
  rewrite (IH (fun a' s' H' => Hb a' s' (or_intror H')) _ Hi). reflexivity.
Qed.

End Projections.

Section BufferBindings.

Context {X : externals}.

Lemma set_src_for_buf_frame cmd buf format meta :
  exists d, fst (cmd_meta_set_src_for_buf cmd buf format meta)
            = upd_src (fun _ => d) meta
            /\ same_coords (meta_src meta) d.
Proof.
  unfold cmd_meta_set_src_for_buf, cmd_meta_create_buf_view, cmd_fail, emit,
    bind, ret.
  destruct (intel_buf_view_create _ _) as [res view].
  destruct (VkResult_eq_dec res VK_SUCCESS); simpl.
  - eexists; split; [reflexivity | repeat split].
  - exists (meta_src meta). rewrite upd_src_id. split; [reflexivity|].
    apply same_coords_refl.
Qed.

Lemma set_dst_for_buf_frame cmd buf format meta :
  exists d, fst (cmd_meta_set_dst_for_buf cmd buf format meta)
            = upd_dst (fun _ => d) meta
            /\ same_coords (meta_dst meta) d.
Proof.
  unfold cmd_meta_set_dst_for_buf, cmd_meta_create_buf_view, cmd_fail, emit,
    bind, ret.
  destruct (intel_buf_view_create _ _) as [res view].
  destruct (VkResult_eq_dec res VK_SUCCESS); simpl.
  - eexists; split; [reflexivity | repeat split].
  - exists (meta_dst meta). rewrite upd_dst_id. split; [reflexivity|].
    apply same_coords_refl.
Qed.

Lemma set_src_for_writer_frame cmd writer size format meta :
  exists d, fst (cmd_meta_set_src_for_writer cmd writer size format meta)
            = upd_src (fun _ => d) meta
            /\ same_coords (meta_src meta) d.
Proof.
  unfold cmd_meta_set_src_for_writer, cmd_meta_create_buf_view, cmd_fail, emit,
    bind, ret.
  destruct (intel_buf_view_create _ _) as [res view].
  destruct (VkResult_eq_dec res VK_SUCCESS); simpl.
  - eexists; split; [reflexivity | repeat split].
  - exists (meta_src meta). rewrite upd_src_id. split; [reflexivity|].
    apply same_coords_refl.
Qed.

Ltac buf_binding Hok :=
  unfold cmd_meta_create_buf_view, cmd_fail, emit, bind, ret, events_of;
  match goal with |- context [intel_buf_view_create ?d ?i] =>
    let res := fresh "res" in
    let view := fresh "view" in
    try (specialize (Hok i)); destruct (intel_buf_view_create d i) as [res view];
    simpl in *; try subst res
  end;
  match goal with |- context [VkResult_eq_dec ?r VK_SUCCESS] =>
    destruct (VkResult_eq_dec r VK_SUCCESS) end;
  try reflexivity; try congruence.

Lemma set_src_for_buf_quiet cmd buf format meta :
  draws (events_of (cmd_meta_set_src_for_buf cmd buf format meta)) = []
  /\ (buf_views_ok cmd ->
      fails (events_of (cmd_meta_set_src_for_buf cmd buf format meta)) = []).
Proof.
  unfold cmd_meta_set_src_for_buf, buf_views_ok.
  split; [|intros Hok]; buf_binding Hok.
Qed.

Lemma set_dst_for_buf_quiet cmd buf format meta :
  draws (events_of (cmd_meta_set_dst_for_buf cmd buf format meta)) = []
  /\ (buf_views_ok cmd ->
      fails (events_of (cmd_meta_set_dst_for_buf cmd buf format meta)) = []).
Proof.
  unfold cmd_meta_set_dst_for_buf, buf_views_ok.
  split; [|intros Hok]; buf_binding Hok.
Qed.

Lemma set_src_for_writer_quiet cmd writer size format meta :
  draws (events_of (cmd_meta_set_src_for_writer cmd writer size format meta)) = []
  /\ (buf_views_ok cmd ->
      fails (events_of (cmd_meta_set_src_for_writer cmd writer size format meta))
      = []).
Proof.
  unfold cmd_meta_set_src_for_writer, buf_views_ok.
  split; [|intros Hok]; buf_binding Hok.
Qed.

End BufferBindings.

(** ** Buffer copies, fills and updates: alignment *)

Lemma dword_aligned_iff a b :
  Z.land (Z.lor a b) 3 = 0 <-> a mod 4 = 0 /\ b mod 4 = 0.
Proof.
  change 3 with (Z.ones 2).
  rewrite Z.land_lor_distr_l, Z.lor_eq_0_iff, !Z.land_ones by lia.
  reflexivity.
Qed.

Section Alignment.

Context {X : externals}.

Lemma mem_dword_aligned_iff cmd region :
  cmd_meta_mem_dword_aligned cmd (bc_srcOffset region) (bc_destOffset region)
    (bc_copySize region) = true
  <-> multiples_of_4 region.
Proof.
  unfold cmd_meta_mem_dword_aligned, multiples_of_4.
  rewrite Z.eqb_eq, dword_aligned_iff.
  pose proof (dword_aligned_iff (bc_srcOffset region) (bc_destOffset region))
    as H.
  change 3 with (Z.ones 2) in H. rewrite Z.land_ones in H by lia.
  change (2 ^ 2) with 4 in H. tauto.
Qed.

Lemma copy_buffer_draw_spec cmd src dst format fmt meta :
  map geometry (draws (events_of (copy_buffer_draw cmd src dst format fmt meta)))
  = [geometry meta]
  /\ (buf_views_ok cmd ->
      fails (events_of (copy_buffer_draw cmd src dst format fmt meta)) = []).
Proof.
  unfold copy_buffer_draw.
  destruct (VkFormat_eq_dec format fmt); [split; reflexivity|].
  msteps.
  destruct (set_src_for_buf_frame cmd src fmt meta) as (d1 & Hd1 & _ & _ & Hx1 & _).
  destruct (set_src_for_buf_quiet cmd src fmt meta) as [Hq1 Hf1].
  rewrite Hd1.
  destruct (set_dst_for_buf_frame cmd dst fmt (upd_src (fun _ => d1) meta))
    as (d2 & Hd2 & _ & _ & Hx2 & _).
  destruct (set_dst_for_buf_quiet cmd dst fmt (upd_src (fun _ => d1) meta))
    as [Hq2 Hf2].
  rewrite Hd2, !draws_app, !fails_app, Hq1, Hq2. simpl. split.
  - unfold geometry. simpl. rewrite Hx1, Hx2. reflexivity.
  - intros Hok. rewrite (Hf1 Hok), (Hf2 Hok). reflexivity.
Qed.

Lemma copy_buffer_region_spec cmd src dst region st :
  map geometry (draws (events_of (copy_buffer_region cmd src dst region st)))
  = region_dispatch cmd region
  /\ (buf_views_ok cmd ->
      fails (events_of (copy_buffer_region cmd src dst region st))
      = region_fails cmd region).
Proof.
  unfold copy_buffer_region, region_dispatch, region_fails.
  destruct st as [format meta]. cbv zeta.
  destruct (cmd_meta_mem_dword_aligned _ _ _ _).
  - match goal with |- context [copy_buffer_draw ?c ?s ?d ?f ?g ?m] =>
      destruct (copy_buffer_draw_spec c s d f g m) as [-> Hf] end.
    split; [reflexivity | exact Hf].
  - destruct (cmd_gen cmd =? INTEL_GEN 6); [split; reflexivity|].
    match goal with |- context [copy_buffer_draw ?c ?s ?d ?f ?g ?m] =>
      destruct (copy_buffer_draw_spec c s d f g m) as [-> Hf] end.
    split; [reflexivity | exact Hf].
Qed.

(** The dispatches of a buffer copy are fixed by the regions and the
    generation alone, whatever the view constructors answer. *)
Lemma copy_buffer_dispatches cmd src dst pRegions :
  map geometry (draws (events_of (vkCmdCopyBuffer cmd src dst pRegions)))
  = flat_map (region_dispatch cmd) pRegions.
Proof.
  unfold vkCmdCopyBuffer. msteps. simpl. rewrite app_nil_r.
  apply (for_each_flat_inv (fun t => map geometry (draws t)) eq_refl)
    with (I := fun _ => True); [|  | exact I].
  - intros t1 t2. rewrite draws_app, map_app. reflexivity.
  - intros region st _ _. split; [exact I|].
    apply copy_buffer_region_spec.
Qed.

Lemma copy_buffer_reports cmd src dst pRegions :
  buf_views_ok cmd ->
  fails (events_of (vkCmdCopyBuffer cmd src dst pRegions))
  = flat_map (region_fails cmd) pRegions.
Proof.
  intros Hok. unfold vkCmdCopyBuffer. msteps. simpl. rewrite app_nil_r.
  apply (for_each_flat_inv fails eq_refl fails_app)
    with (I := fun _ => True); [| exact I].
  intros region st _ _. split; [exact I|].
  apply copy_buffer_region_spec. exact Hok.
Qed.

(** C1, as the code has it.  A fill or an update whose offset and size are
    not both multiples of 4 reports VK_ERROR_UNKNOWN (the code the file uses
    for an unaligned operation) and does nothing else.  A copy region whose
    offsets and size are not all multiples of 4 is refused that way on
    generation 6 only; on the other generations it is dispatched with the
    byte-granular shader.  With multiples of 4 the operation is dispatched
    with the dword shader on offsets and sizes divided by 4, and nothing is
    reported as long as the device builds the buffer views.  This holds of
    every region of a copy of any number of regions: the dispatches of the
    call are those of its regions, one after the other, and so are its
    reports. *)
Theorem alignment_boundary (cmd : intel_cmd) (src dst : intel_buf) :
  (forall destOffset fillSize data,
     let t := events_of (vkCmdFillBuffer cmd dst destOffset fillSize data) in
     (~ (destOffset mod 4 = 0 /\ fillSize mod 4 = 0) ->
      t = [EvFail VK_ERROR_UNKNOWN])
     /\ (destOffset mod 4 = 0 /\ fillSize mod 4 = 0 ->
         map geometry (draws t)
         = [(INTEL_DEV_META_VS_FILL_MEM, 0,
             u32 (destOffset / 4), u32 (fillSize / 4))]
         /\ (buf_views_ok cmd -> fails t = [])))
  /\ (forall destOffset dataSize pData,
        let t := events_of (vkCmdUpdateBuffer cmd dst destOffset dataSize
                              pData) in
        (~ (destOffset mod 4 = 0 /\ dataSize mod 4 = 0) ->
         t = [EvFail VK_ERROR_UNKNOWN])
        /\ (destOffset mod 4 = 0 /\ dataSize mod 4 = 0 ->
            map meta_shader_id (draws t) = [INTEL_DEV_META_VS_COPY_MEM]
            /\ map (fun m => (m_x (meta_dst m), meta_width m)) (draws t)
               = [(u32 (destOffset / 4), u32 (dataSize / 4))]
            /\ (buf_views_ok cmd -> fails t = [])))
  /\ (forall region,
        let t := events_of (vkCmdCopyBuffer cmd src dst [region]) in
        (multiples_of_4 region ->
         map geometry (draws t)
         = [(INTEL_DEV_META_VS_COPY_MEM, u32 (bc_srcOffset region) / 4,
             u32 (bc_destOffset region) / 4, u32 (bc_copySize region) / 4)]
         /\ (buf_views_ok cmd -> fails t = []))
        /\ (~ multiples_of_4 region -> cmd_gen cmd = INTEL_GEN 6 ->
            draws t = [] /\ fails t = [VK_ERROR_UNKNOWN])
        /\ (~ multiples_of_4 region -> cmd_gen cmd <> INTEL_GEN 6 ->
            map geometry (draws t)
            = [(INTEL_DEV_META_VS_COPY_MEM_UNALIGNED, u32 (bc_srcOffset region),
                u32 (bc_destOffset region), u32 (bc_copySize region))]
            /\ (buf_views_ok cmd -> fails t = [])))
  /\ (forall pRegions,
        let t := events_of (vkCmdCopyBuffer cmd src dst pRegions) in
        map geometry (draws t) = flat_map (region_dispatch cmd) pRegions
        /\ (buf_views_ok cmd ->
            fails t = flat_map (region_fails cmd) pRegions))
  /\ (forall region,
        (multiples_of_4 region ->
         region_dispatch cmd region
         = [(INTEL_DEV_META_VS_COPY_MEM, u32 (bc_srcOffset region) / 4,
             u32 (bc_destOffset region) / 4, u32 (bc_copySize region) / 4)]
         /\ region_fails cmd region = [])
        /\ (~ multiples_of_4 region -> cmd_gen cmd = INTEL_GEN 6 ->
            region_dispatch cmd region = []
            /\ region_fails cmd region = [VK_ERROR_UNKNOWN])
        /\ (~ multiples_of_4 region -> cmd_gen cmd <> INTEL_GEN 6 ->
            region_dispatch cmd region
            = [(INTEL_DEV_META_VS_COPY_MEM_UNALIGNED, u32 (bc_srcOffset region),
                u32 (bc_destOffset region), u32 (bc_copySize region))]
            /\ region_fails cmd region = [])).
Proof.
  split; [|split; [|split; [|split]]].
  - intros destOffset fillSize data. cbv zeta. unfold vkCmdFillBuffer. split.
    + intros Hn. rewrite <- dword_aligned_iff, <- Z.eqb_eq in Hn.
      apply not_true_is_false in Hn. rewrite Hn. reflexivity.
    + intros Ha. rewrite <- dword_aligned_iff, <- Z.eqb_eq in Ha. rewrite Ha.
      simpl negb. cbv iota zeta.
      match goal with |- context [cmd_meta_set_dst_for_buf ?c ?b ?f ?m] =>
        destruct (set_dst_for_buf_frame c b f m) as (d & Hd & _ & _ & Hx & _);
        destruct (set_dst_for_buf_quiet c b f m) as [Hq Hf];
        destruct (cmd_meta_set_dst_for_buf c b f m) as [m1 e1]
      end.
      simpl in Hd. subst m1. unfold events_of in *. simpl in *.
      rewrite draws_app, fails_app, Hq. simpl. split.
      * unfold geometry. simpl. rewrite Hx. reflexivity.
      * intros Hok. rewrite (Hf Hok). reflexivity.
  - intros destOffset dataSize pData. cbv zeta. unfold vkCmdUpdateBuffer. split.
    + intros Hn. rewrite <- dword_aligned_iff, <- Z.eqb_eq in Hn.
      apply not_true_is_false in Hn. rewrite Hn. reflexivity.
    + intros Ha. rewrite <- dword_aligned_iff, <- Z.eqb_eq in Ha. rewrite Ha.
      simpl negb. cbv iota zeta.
      msteps.
      match goal with |- context [cmd_meta_set_src_for_writer ?c ?w ?z ?f ?m] =>
        destruct (set_src_for_writer_frame c w z f m) as (d1 & Hd1 & _);
        destruct (set_src_for_writer_quiet c w z f m) as [Hq1 Hf1]
      end.
      rewrite Hd1.
      match goal with |- context [cmd_meta_set_dst_for_buf ?c ?b ?f ?m] =>
        destruct (set_dst_for_buf_frame c b f m) as (d & Hd & _ & _ & Hx & _);
        destruct (set_dst_for_buf_quiet c b f m) as [Hq Hf]
      end.
      rewrite Hd, !draws_app, !fails_app, Hq1, Hq. simpl.
      split; [reflexivity|]. split.
      * rewrite Hx. reflexivity.
      * intros Hok. rewrite (Hf1 Hok), (Hf Hok). reflexivity.
  - intros region. cbv zeta.
    assert (Hd : map geometry
                   (draws (events_of (vkCmdCopyBuffer cmd src dst [region])))
                 = region_dispatch cmd region).
    { rewrite copy_buffer_dispatches. simpl. apply app_nil_r. }
    assert (Hf : buf_views_ok cmd ->
                 fails (events_of (vkCmdCopyBuffer cmd src dst [region]))
                 = region_fails cmd region).
    { intros Hok. rewrite copy_buffer_reports by exact Hok.
      simpl. apply app_nil_r. }
    unfold region_dispatch, region_fails in *.
    split; [|split].
    + intros Ha. apply mem_dword_aligned_iff with (cmd := cmd) in Ha.
      rewrite Ha in *. split; [exact Hd | exact Hf].
    + intros Hn Hg. rewrite <- (mem_dword_aligned_iff cmd) in Hn.
      apply not_true_is_false in Hn. rewrite Hn in *.
      assert ((cmd_gen cmd =? INTEL_GEN 6) = true) as Hg'
        by (apply Z.eqb_eq; exact Hg).
      rewrite Hg' in *. split; [apply map_eq_nil in Hd; exact Hd|].
      unfold vkCmdCopyBuffer, copy_buffer_init. simpl for_each.
      unfold copy_buffer_region. cbv zeta. rewrite Hn, Hg'. reflexivity.
    + intros Hn Hg. rewrite <- (mem_dword_aligned_iff cmd) in Hn.
      apply not_true_is_false in Hn. rewrite Hn in *.
      assert ((cmd_gen cmd =? INTEL_GEN 6) = false) as Hg'
        by (apply Z.eqb_neq; exact Hg).
      rewrite Hg' in *. split; [exact Hd | exact Hf].
  - intros pRegions. cbv zeta. split.
    + apply copy_buffer_dispatches.
    + apply copy_buffer_reports.
  - intros region. unfold region_dispatch, region_fails. split; [|split].
    + intros Ha. apply mem_dword_aligned_iff with (cmd := cmd) in Ha.
      rewrite Ha. split; reflexivity.
    + intros Hn Hg. rewrite <- (mem_dword_aligned_iff cmd) in Hn.
      apply not_true_is_false in Hn. apply Z.eqb_eq in Hg.
      rewrite Hn, Hg. split; reflexivity.
    + intros Hn Hg. rewrite <- (mem_dword_aligned_iff cmd) in Hn.
      apply not_true_is_false in Hn. apply Z.eqb_neq in Hg.
      rewrite Hn, Hg. split; reflexivity.
Qed.

End Alignment.

(** An unaligned copy is not always refused: on generation 7 a
    region whose source offset is 1 is not refused; nothing is reported and
    it is dispatched with the byte-granular shader. *)
Lemma unaligned_copy_counterexample :
  Z.land (Z.lor (Z.lor 1 0) 4) 3 <> 0
  /\ fails (events_of
       (vkCmdCopyBuffer Sample.cmd7 Sample.buf_a Sample.buf_b
          [ {| bc_srcOffset := 1; bc_destOffset := 0; bc_copySize := 4 |} ]))
     = []
  /\ map meta_shader_id
       (draws (events_of
          (vkCmdCopyBuffer Sample.cmd7 Sample.buf_a Sample.buf_b
             [ {| bc_srcOffset := 1; bc_destOffset := 0; bc_copySize := 4 |} ])))
     = [INTEL_DEV_META_VS_COPY_MEM_UNALIGNED].
Proof. split; [discriminate|]. split; vm_compute; reflexivity. Qed.

(** On the sample platform: an unaligned fill and an unaligned update are
    refused, aligned ones dispatched; the unaligned copy region is refused on
    generation 6 and dispatched on generation 7; of three regions on
    generation 6 the unaligned one in the middle is refused and the two
    others are dispatched. *)
Lemma alignment_boundary_witness :
  events_of (vkCmdFillBuffer Sample.cmd7 Sample.buf_b 2 8 255)
    = [EvFail VK_ERROR_UNKNOWN]
  /\ fails (events_of (vkCmdFillBuffer Sample.cmd7 Sample.buf_b 16 8 255)) = []
  /\ events_of (vkCmdUpdateBuffer Sample.cmd7 Sample.buf_b 16 6 [1; 2])
     = [EvFail VK_ERROR_UNKNOWN]
  /\ fails (events_of (vkCmdUpdateBuffer Sample.cmd7 Sample.buf_b 16 8 [1; 2]))
     = []
  /\ fails (events_of
       (vkCmdCopyBuffer Sample.cmd7 Sample.buf_a Sample.buf_b
          [ {| bc_srcOffset := 8; bc_destOffset := 0; bc_copySize := 4 |} ]))
     = []
  /\ fails (events_of
       (vkCmdCopyBuffer Sample.cmd6 Sample.buf_a Sample.buf_b
          [ {| bc_srcOffset := 1; bc_destOffset := 0; bc_copySize := 4 |} ]))
     = [VK_ERROR_UNKNOWN]
  /\ fails (events_of
       (vkCmdCopyBuffer Sample.cmd7 Sample.buf_a Sample.buf_b
          [ {| bc_srcOffset := 1; bc_destOffset := 0; bc_copySize := 4 |} ]))
     = []
  /\ map geometry
       (draws (events_of
          (vkCmdCopyBuffer Sample.cmd6 Sample.buf_a Sample.buf_b
             [copy_of 0 0 16; copy_of 1 0 4; copy_of 32 64 8])))
     = [(INTEL_DEV_META_VS_COPY_MEM, 0, 0, 4);
        (INTEL_DEV_META_VS_COPY_MEM, 8, 16, 2)]
  /\ fails (events_of
       (vkCmdCopyBuffer Sample.cmd6 Sample.buf_a Sample.buf_b
          [copy_of 0 0 16; copy_of 1 0 4; copy_of 32 64 8]))
     = [VK_ERROR_UNKNOWN].
Proof.
  destruct (alignment_boundary Sample.cmd7 Sample.buf_a Sample.buf_b)
    as (Hfill & Hupd & Hcopy & _).
  destruct (alignment_boundary Sample.cmd6 Sample.buf_a Sample.buf_b)
    as (_ & _ & Hcopy6 & Hlist6 & _).
  assert (Hok : buf_views_ok Sample.cmd7) by (intros info; reflexivity).
  assert (Hok6 : buf_views_ok Sample.cmd6) by (intros info; reflexivity).
  split.
  { apply (proj1 (Hfill 2 8 255)). intros [H _]. discriminate H. }
  split.
  { apply (proj2 (Hfill 16 8 255)); [split; reflexivity | exact Hok]. }
  split.
  { apply (proj1 (Hupd 16 6 [1; 2])). intros [_ H]. discriminate H. }
  split.
  { apply (proj2 (Hupd 16 8 [1; 2])); [split; reflexivity | exact Hok]. }
  split.
  { destruct (Hcopy {| bc_srcOffset := 8; bc_destOffset := 0;
                       bc_copySize := 4 |}) as (Ha & _).
    apply Ha; [repeat split | exact Hok]. }
  split.
  { destruct (Hcopy6 {| bc_srcOffset := 1; bc_destOffset := 0;
                        bc_copySize := 4 |}) as (_ & Hr & _).
    apply Hr; [intros [H _]; discriminate H | reflexivity]. }
  split.
  { destruct (Hcopy {| bc_srcOffset := 1; bc_destOffset := 0;
                       bc_copySize := 4 |}) as (_ & _ & Hu).
    apply Hu; [intros [H _]; discriminate H | discriminate | exact Hok]. }
  destruct (Hlist6 [copy_of 0 0 16; copy_of 1 0 4; copy_of 32 64 8])
    as [Hd Hf].
  split; [exact Hd | exact (Hf Hok6)].
Defined.

(** ** Buffer copies: a failing region does not stop the loop *)

Section BestEffort.

Context {X : externals}.

Lemma set_coords_forget a b w m :
  set_width w (upd_dst (set_x b) (upd_src (set_x a) m))
  = set_width w (upd_dst (set_x b) (upd_src (set_x a) (forget_coords m))).
Proof. destruct m as [? ? [] [] ? ? ? ? ?]. reflexivity. Qed.

Lemma copy_buffer_region_coords cmd src dst region format m m' :
  forget_coords m = forget_coords m' ->
  copy_buffer_region cmd src dst region (format, m)
  = copy_buffer_region cmd src dst region (format, m').
Proof.
  intros H. unfold copy_buffer_region. cbv zeta.
  rewrite (set_coords_forget _ _ _ m), (set_coords_forget _ _ _ m'), H.
  reflexivity.
Qed.

Lemma copy_buffer_regions_coords cmd src dst pRegions format m m' :
  forget_coords m = forget_coords m' ->
  events_of (for_each pRegions (copy_buffer_region cmd src dst) (format, m))
  = events_of (for_each pRegions (copy_buffer_region cmd src dst) (format, m')).
Proof.
  intros H. destruct pRegions as [|region l]; [reflexivity|].
  cbn [for_each].
  rewrite (copy_buffer_region_coords cmd src dst region format m m' H).
  reflexivity.
Qed.

Lemma copy_buffer_region_refused cmd src dst region format m :
  cmd_gen cmd = INTEL_GEN 6 -> ~ multiples_of_4 region ->
  exists m',
    copy_buffer_region cmd src dst region (format, m)
    = ((format, m'),
       [EvLog "unaligned vkCmdCopyBuffer unsupported"; EvFail VK_ERROR_UNKNOWN])
    /\ forget_coords m' = forget_coords m.
Proof.
  intros Hg Hn. rewrite <- (mem_dword_aligned_iff cmd) in Hn.
  apply not_true_is_false in Hn. apply Z.eqb_eq in Hg.
  unfold copy_buffer_region. cbv zeta. rewrite Hn, Hg.
  eexists. split; [reflexivity|].
  destruct m as [? ? [] [] ? ? ? ? ?]. reflexivity.
Qed.

Lemma region_dispatch_gen cmd cmd' region :
  cmd_gen cmd' = cmd_gen cmd ->
  region_dispatch cmd' region = region_dispatch cmd region.
Proof.
  intros H. unfold region_dispatch, cmd_meta_mem_dword_aligned.
  rewrite H. reflexivity.
Qed.

Lemma set_src_for_buf_refusal cmd buf fmt meta :
  refuses cmd fmt ->
  exists i r,
    request_key i = (Some buf, fmt) /\ r <> VK_SUCCESS
    /\ cmd_meta_set_src_for_buf cmd buf fmt meta
       = (meta, [EvBufViewCreate i; EvFail r]).
Proof.
  intros Href.
  unfold cmd_meta_set_src_for_buf, cmd_meta_create_buf_view, cmd_fail, emit,
    bind, ret. cbv zeta.
  match goal with |- context [intel_buf_view_create ?d ?i] =>
    pose proof (Href i eq_refl) as Hr; exists i;
    destruct (intel_buf_view_create d i) as [res view]
  end.
  simpl in Hr. exists res.
  destruct (VkResult_eq_dec res VK_SUCCESS) as [E|_]; [contradiction|].
  repeat split. exact Hr.
Qed.

Lemma set_dst_for_buf_refusal cmd buf fmt meta :
  refuses cmd fmt ->
  exists i r,
    request_key i = (Some buf, fmt) /\ r <> VK_SUCCESS
    /\ cmd_meta_set_dst_for_buf cmd buf fmt meta
       = (meta, [EvBufViewCreate i; EvFail r]).
Proof.
  intros Href.
  unfold cmd_meta_set_dst_for_buf, cmd_meta_create_buf_view, cmd_fail, emit,
    bind, ret. cbv zeta.
  match goal with |- context [intel_buf_view_create ?d ?i] =>
    pose proof (Href i eq_refl) as Hr; exists i;
    destruct (intel_buf_view_create d i) as [res view]
  end.
  simpl in Hr. exists res.
  destruct (VkResult_eq_dec res VK_SUCCESS) as [E|_]; [contradiction|].
  repeat split. exact Hr.
Qed.

(** A refused binding: both refusals are reported, the format of the loop
    is the new one all the same, and the draw is made on the descriptor as
    it was. *)
Lemma copy_buffer_draw_refused cmd src dst format fmt meta :
  format <> fmt -> refuses cmd fmt ->
  exists i1 r1 i2 r2,
    request_key i1 = (Some src, fmt) /\ request_key i2 = (Some dst, fmt)
    /\ r1 <> VK_SUCCESS /\ r2 <> VK_SUCCESS
    /\ copy_buffer_draw cmd src dst format fmt meta
       = ((fmt, meta),
          [EvBufViewCreate i1; EvFail r1; EvBufViewCreate i2; EvFail r2;
           EvDraw meta]).
Proof.
  intros Hne Href. unfold copy_buffer_draw.
  destruct (VkFormat_eq_dec format fmt) as [E|_]; [contradiction|].
  destruct (set_src_for_buf_refusal cmd src fmt meta Href)
    as (i1 & r1 & K1 & N1 & E1).
  destruct (set_dst_for_buf_refusal cmd dst fmt meta Href)
    as (i2 & r2 & K2 & N2 & E2).
  exists i1, r1, i2, r2. repeat (split; [assumption|]).
  unfold bind. rewrite E1, E2. reflexivity.
Qed.

Lemma copy_buffer_draw_same cmd src dst fmt meta :
  copy_buffer_draw cmd src dst fmt fmt meta = ((fmt, meta), [EvDraw meta]).
Proof.
  unfold copy_buffer_draw.
  destruct (VkFormat_eq_dec fmt fmt) as [_|N]; [reflexivity | contradiction].
Qed.

(** A region that is dispatched: the descriptor it draws with has the
    bindings of the loop, and the shader and coordinates of the region. *)
Lemma copy_buffer_region_dispatched cmd src dst region f1 m1 fmt :
  region_format cmd region = Some fmt ->
  exists mk,
    copy_buffer_region cmd src dst region (f1, m1)
    = copy_buffer_draw cmd src dst f1 fmt mk
    /\ bindings mk = bindings m1
    /\ [geometry mk] = region_dispatch cmd region.
Proof.
  unfold region_format, copy_buffer_region, region_dispatch. cbv zeta.
  destruct (cmd_meta_mem_dword_aligned _ _ _ _).
  - intros E. injection E as <-. eexists. split; [reflexivity|].
    split; destruct m1 as [? ? [] [] ? ? ? ? ?]; reflexivity.
  - destruct (cmd_gen cmd =? INTEL_GEN 6); [discriminate|].
    intros E. injection E as <-. eexists. split; [reflexivity|].
    split; destruct m1 as [? ? [] [] ? ? ? ? ?]; reflexivity.
Qed.

(** Regions of the format of the loop are drawn on the bindings of the
    loop: nothing is bound, nothing reported. *)
Lemma copy_buffer_same_format cmd src dst fmt after :
  Forall (fun r => region_format cmd r = Some fmt) after ->
  forall m,
    let t := events_of
               (for_each after (copy_buffer_region cmd src dst) (fmt, m)) in
    fails t = [] /\ buf_view_requests t = []
    /\ Forall (fun d => bindings d = bindings m) (draws t).
Proof.
  induction 1 as [|region after Hr _ IH]; intros m; cbv zeta.
  - repeat split. constructor.
  - cbn [for_each]. rewrite events_bind.
    destruct (copy_buffer_region_dispatched cmd src dst region fmt m fmt Hr)
      as (mk & -> & Hb & _).
    rewrite copy_buffer_draw_same. cbn [fst snd events_of].
    destruct (IH mk) as (Hf & Hq & Hd). cbv zeta in Hf, Hq, Hd.
    rewrite fails_app, draws_app, Hf. unfold buf_view_requests in *.
    rewrite flat_map_app, Hq. repeat split.
    cbn [draws app]. constructor; [exact Hb|].
    eapply Forall_impl; [|exact Hd]. intros d Hd'. cbv beta in Hd'.
    congruence.
Qed.

(** C2, as the code has it.  On generation 6 let region k of a buffer copy
    be unaligned.  The call reports VK_ERROR_UNKNOWN at that point of its
    trace and goes on: what it does for the regions after k is, event for
    event, what the call without region k does for them, and every later
    region is dispatched or refused on its own alignment.  The report of
    region k comes after those of the earlier regions and before those of
    the later ones; when nothing was reported before region k, it is the
    first one, the error the context keeps.  A failing binding does not
    change which dispatches are made either: the shaders and coordinates
    dispatched are those of any other device of the same generation, for
    instance one whose bindings all succeed.

    Let region k instead be dispatched with a stride format that is not the
    one of the loop, on a device that refuses the views of that format.  The
    two refusals are reported, region k is drawn all the same, with its own
    shader and coordinates but on the bindings the earlier regions left, and
    the loop goes on: the later regions are dispatched with their own
    shaders and coordinates.  When nothing was reported before region k, the
    refusal of the source view is the error the context keeps.  The format
    of the loop is set before the bindings are made: later regions of the
    same format are drawn on the same stale bindings, and for them no view is
    requested and nothing is reported. *)
Theorem copy_buffer_best_effort (cmd : intel_cmd) (src dst : intel_buf)
    (before after : list VkBufferCopy) (region : VkBufferCopy) :
  (cmd_gen cmd = INTEL_GEN 6 -> ~ multiples_of_4 region ->
   exists rest,
     events_of (vkCmdCopyBuffer cmd src dst (before ++ region :: after))
     = events_of (vkCmdCopyBuffer cmd src dst before)
       ++ [EvLog "unaligned vkCmdCopyBuffer unsupported";
           EvFail VK_ERROR_UNKNOWN]
       ++ rest
     /\ events_of (vkCmdCopyBuffer cmd src dst (before ++ after))
        = events_of (vkCmdCopyBuffer cmd src dst before) ++ rest
     /\ map geometry (draws rest) = flat_map (region_dispatch cmd) after
     /\ fails (events_of (vkCmdCopyBuffer cmd src dst
                            (before ++ region :: after)))
        = fails (events_of (vkCmdCopyBuffer cmd src dst before))
          ++ VK_ERROR_UNKNOWN :: fails rest
     /\ (fails (events_of (vkCmdCopyBuffer cmd src dst before)) = [] ->
         cmd_result
           (events_of (vkCmdCopyBuffer cmd src dst (before ++ region :: after)))
         = VK_ERROR_UNKNOWN))
  /\ (forall cmd' pRegions,
        cmd_gen cmd' = cmd_gen cmd ->
        map geometry (draws (events_of (vkCmdCopyBuffer cmd' src dst pRegions)))
        = map geometry (draws (events_of (vkCmdCopyBuffer cmd src dst pRegions))))
  /\ (forall fmt,
        region_format cmd region = Some fmt ->
        fst (loop_state cmd src dst before) <> fmt ->
        refuses cmd fmt ->
        exists i1 r1 i2 r2 mk rest,
          request_key i1 = (Some src, fmt) /\ request_key i2 = (Some dst, fmt)
          /\ r1 <> VK_SUCCESS /\ r2 <> VK_SUCCESS
          /\ events_of (vkCmdCopyBuffer cmd src dst (before ++ region :: after))
             = events_of (vkCmdCopyBuffer cmd src dst before)
               ++ [EvBufViewCreate i1; EvFail r1;
                   EvBufViewCreate i2; EvFail r2; EvDraw mk]
               ++ rest
          /\ [geometry mk] = region_dispatch cmd region
          /\ bindings mk = bindings (snd (loop_state cmd src dst before))
          /\ map geometry (draws rest) = flat_map (region_dispatch cmd) after
          /\ fails (events_of (vkCmdCopyBuffer cmd src dst
                                 (before ++ region :: after)))
             = fails (events_of (vkCmdCopyBuffer cmd src dst before))
               ++ r1 :: r2 :: fails rest
          /\ (fails (events_of (vkCmdCopyBuffer cmd src dst before)) = [] ->
              cmd_result
                (events_of (vkCmdCopyBuffer cmd src dst
                              (before ++ region :: after)))
              = r1)
          /\ (Forall (fun r => region_format cmd r = Some fmt) after ->
              fails rest = [] /\ buf_view_requests rest = []
              /\ Forall (fun d => bindings d = bindings mk) (draws rest))).
Proof.
  split; [|split].
  - intros Hg Hn. unfold vkCmdCopyBuffer.
    set (body := copy_buffer_region cmd src dst).
    destruct (fst (for_each before body copy_buffer_init)) as [f1 m1] eqn:E1.
    destruct (copy_buffer_region_refused cmd src dst region f1 m1 Hg Hn)
      as (m1' & Hr & Hc).
    exists (events_of (for_each after body (f1, m1))).
    assert (Ha : events_of (for_each (before ++ region :: after) body
                              copy_buffer_init)
                 = events_of (for_each before body copy_buffer_init)
                   ++ [EvLog "unaligned vkCmdCopyBuffer unsupported";
                       EvFail VK_ERROR_UNKNOWN]
                   ++ events_of (for_each after body (f1, m1))).
    { rewrite for_each_app, events_bind, E1. f_equal.
      cbn [for_each]. rewrite events_bind. fold body in Hr. rewrite Hr.
      simpl. do 2 f_equal.
      apply copy_buffer_regions_coords. exact Hc. }
    assert (Hb : events_of (for_each (before ++ after) body copy_buffer_init)
                 = events_of (for_each before body copy_buffer_init)
                   ++ events_of (for_each after body (f1, m1))).
    { rewrite for_each_app, events_bind, E1. reflexivity. }
    msteps. simpl (events_of (ret tt)). rewrite !app_nil_r.
    split; [exact Ha|]. split; [exact Hb|]. split; [|split].
    + apply (for_each_flat_inv (fun t => map geometry (draws t)) eq_refl)
        with (I := fun _ => True); [| | exact I].
      * intros t1 t2. rewrite draws_app, map_app. reflexivity.
      * intros r st _ _. split; [exact I|]. apply copy_buffer_region_spec.
    + rewrite Ha, !fails_app. reflexivity.
    + intros Hq. unfold cmd_result. rewrite Ha, !fails_app, Hq. reflexivity.
  - intros cmd' pRegions Hg. rewrite !copy_buffer_dispatches.
    apply flat_map_ext. intros r. apply region_dispatch_gen. exact Hg.
  - intros fmt Hfmt Hne Href. unfold loop_state in *. unfold vkCmdCopyBuffer.
    set (body := copy_buffer_region cmd src dst) in *.
    destruct (fst (for_each before body copy_buffer_init)) as [f1 m1] eqn:E1.
    cbn [fst snd] in Hne |- *.
    destruct (copy_buffer_region_dispatched cmd src dst region f1 m1 fmt Hfmt)
      as (mk & Hreg & Hbind & Hgeo).
    destruct (copy_buffer_draw_refused cmd src dst f1 fmt mk Hne Href)
      as (i1 & r1 & i2 & r2 & K1 & K2 & N1 & N2 & Hdraw).
    exists i1, r1, i2, r2, mk, (events_of (for_each after body (fmt, mk))).
    assert (Ha : events_of (for_each (before ++ region :: after) body
                              copy_buffer_init)
                 = events_of (for_each before body copy_buffer_init)
                   ++ [EvBufViewCreate i1; EvFail r1;
                       EvBufViewCreate i2; EvFail r2; EvDraw mk]
                   ++ events_of (for_each after body (fmt, mk))).
    { rewrite for_each_app, events_bind, E1. f_equal.
      cbn [for_each]. rewrite events_bind.
      subst body. cbv beta. rewrite Hreg, Hdraw. reflexivity. }
    msteps. simpl (events_of (ret tt)). rewrite !app_nil_r.
    repeat (split; [assumption|]).
    split; [|split].
    + apply (for_each_flat_inv (fun t => map geometry (draws t)) eq_refl)
        with (I := fun _ => True); [| | exact I].
      * intros t1 t2. rewrite draws_app, map_app. reflexivity.
      * intros r st _ _. split; [exact I|]. apply copy_buffer_region_spec.
    + rewrite Ha, !fails_app. reflexivity.
    + split.
      * intros Hq. unfold cmd_result. rewrite Ha, !fails_app, Hq. reflexivity.
      * intros Hall. subst body.
        apply (copy_buffer_same_format cmd src dst fmt after Hall mk).
Qed.

End BestEffort.

(** On the sample platform: an aligned region, an unaligned one, an
    aligned one, on generation 6; and, on a device of generation 7 that
    refuses the views of 4-byte stride, an aligned region, an unaligned one
    whose bindings are refused, and another unaligned one. *)
Lemma copy_buffer_best_effort_witness :
  (exists rest,
    events_of (vkCmdCopyBuffer Sample.cmd6 Sample.buf_a Sample.buf_b
       ([ {| bc_srcOffset := 0; bc_destOffset := 0; bc_copySize := 16 |} ]
        ++ {| bc_srcOffset := 1; bc_destOffset := 0; bc_copySize := 4 |}
        :: [ {| bc_srcOffset := 32; bc_destOffset := 64; bc_copySize := 8 |} ]))
    = events_of (vkCmdCopyBuffer Sample.cmd6 Sample.buf_a Sample.buf_b
         [ {| bc_srcOffset := 0; bc_destOffset := 0; bc_copySize := 16 |} ])
      ++ [EvLog "unaligned vkCmdCopyBuffer unsupported";
          EvFail VK_ERROR_UNKNOWN]
      ++ rest
    /\ events_of (vkCmdCopyBuffer Sample.cmd6 Sample.buf_a Sample.buf_b
         ([ {| bc_srcOffset := 0; bc_destOffset := 0; bc_copySize := 16 |} ]
          ++ [ {| bc_srcOffset := 32; bc_destOffset := 64;
                  bc_copySize := 8 |} ]))
       = events_of (vkCmdCopyBuffer Sample.cmd6 Sample.buf_a Sample.buf_b
            [ {| bc_srcOffset := 0; bc_destOffset := 0; bc_copySize := 16 |} ])
         ++ rest
    /\ map geometry (draws rest) = [(INTEL_DEV_META_VS_COPY_MEM, 8, 16, 2)]
    /\ cmd_result
         (events_of (vkCmdCopyBuffer Sample.cmd6 Sample.buf_a Sample.buf_b
            ([ {| bc_srcOffset := 0; bc_destOffset := 0; bc_copySize := 16 |} ]
             ++ {| bc_srcOffset := 1; bc_destOffset := 0; bc_copySize := 4 |}
             :: [ {| bc_srcOffset := 32; bc_destOffset := 64;
                     bc_copySize := 8 |} ])))
       = VK_ERROR_UNKNOWN)
  /\ (exists mk rest,
        fails (events_of (vkCmdCopyBuffer picky_cmd Sample.buf_a Sample.buf_b
                 ([copy_of 0 0 16] ++ copy_of 1 0 4 :: [copy_of 2 8 4])))
        = [VK_RESULT_CODE 7; VK_RESULT_CODE 7]
        /\ cmd_result
             (events_of (vkCmdCopyBuffer picky_cmd Sample.buf_a Sample.buf_b
                ([copy_of 0 0 16] ++ copy_of 1 0 4 :: [copy_of 2 8 4])))
           = VK_RESULT_CODE 7
        /\ map geometry (mk :: draws rest)
           = [(INTEL_DEV_META_VS_COPY_MEM_UNALIGNED, 1, 0, 4);
              (INTEL_DEV_META_VS_COPY_MEM_UNALIGNED, 2, 8, 4)]
        /\ Forall (fun d => bindings d = bindings mk) (draws rest)
        /\ word 0 (m_surface (meta_src mk)) = 16).
Proof.
  split.
  - destruct (proj1 (copy_buffer_best_effort Sample.cmd6 Sample.buf_a
                Sample.buf_b
                [ {| bc_srcOffset := 0; bc_destOffset := 0; bc_copySize := 16 |} ]
                [ {| bc_srcOffset := 32; bc_destOffset := 64;
                     bc_copySize := 8 |} ]
                {| bc_srcOffset := 1; bc_destOffset := 0; bc_copySize := 4 |}))
      as (rest & H1 & H2 & H3 & _ & H4).
    + reflexivity.
    + intros [H _]. discriminate H.
    + exists rest. split; [exact H1|]. split; [exact H2|]. split; [exact H3|].
      apply H4. vm_compute. reflexivity.
  - destruct (proj2 (proj2 (copy_buffer_best_effort picky_cmd Sample.buf_a
                Sample.buf_b [copy_of 0 0 16] [copy_of 2 8 4] (copy_of 1 0 4)))
                VK_FORMAT_R8G8B8A8_UINT)
      as (i1 & r1 & i2 & r2 & mk & rest & K1 & K2 & N1 & N2 & Ha & Hg & Hb
          & Hgr & Hf & Hres & Hstale).
    + reflexivity.
    + vm_compute. discriminate.
    + intros info Hi. simpl. unfold byte_stride. rewrite Hi. simpl.
      discriminate.
    + assert (Hbefore : fails (events_of (vkCmdCopyBuffer picky_cmd
                           Sample.buf_a Sample.buf_b [copy_of 0 0 16])) = [])
        by (vm_compute; reflexivity).
      destruct Hstale as (Hfr & _ & Hd); [repeat constructor|].
      assert (Er1 : r1 = VK_RESULT_CODE 7).
      { destruct i1 as [b1 t1 f1 o1 g1]. unfold request_key in K1.
        simpl in K1. injection K1 as -> ->.
        apply (f_equal fails) in Ha. rewrite !fails_app in Ha.
        rewrite Hbefore in Ha. simpl in Ha.
        vm_compute in Ha. injection Ha as Ha _. symmetry. exact Ha. }
      assert (Er2 : r2 = VK_RESULT_CODE 7).
      { apply (f_equal fails) in Ha. rewrite !fails_app in Ha.
        rewrite Hbefore in Ha. simpl in Ha.
        vm_compute in Ha. injection Ha as _ Ha _. symmetry. exact Ha. }
      exists mk, rest.
      split; [rewrite Hf, Hbefore, Hfr, Er1, Er2; reflexivity|].
      split; [rewrite (Hres Hbefore); exact Er1|].
      split.
      { change (map geometry (mk :: draws rest))
          with ([geometry mk] ++ map geometry (draws rest)).
        rewrite Hg, Hgr. reflexivity. }
      split; [exact Hd|].
      unfold bindings, binding in Hb. injection Hb as _ Hs _.
      rewrite Hs. vm_compute. reflexivity.
Defined.

(** A failing binding is not without effect on the later regions.  On a
    device that refuses the views of 4-byte stride and on the same device
    when it builds them, take an aligned region followed by two unaligned
    ones.  On the first device the second region reports two errors; the
    two calls dispatch the same shaders and coordinates, but the third
    region, for which nothing is reported, is drawn on the source view of
    16-byte stride that the first region left, where the call without
    failure draws it on a view of 4-byte stride. *)
Lemma stale_binding_counterexample :
  fails (events_of (vkCmdCopyBuffer picky_cmd Sample.buf_a Sample.buf_b
           [copy_of 0 0 16; copy_of 1 0 4; copy_of 2 8 4]))
  = [VK_RESULT_CODE 7; VK_RESULT_CODE 7]
  /\ fails (events_of (vkCmdCopyBuffer willing_cmd Sample.buf_a Sample.buf_b
              [copy_of 0 0 16; copy_of 1 0 4; copy_of 2 8 4])) = []
  /\ map geometry
       (draws (events_of (vkCmdCopyBuffer picky_cmd Sample.buf_a Sample.buf_b
                 [copy_of 0 0 16; copy_of 1 0 4; copy_of 2 8 4])))
     = map geometry
         (draws (events_of (vkCmdCopyBuffer willing_cmd Sample.buf_a
                   Sample.buf_b
                   [copy_of 0 0 16; copy_of 1 0 4; copy_of 2 8 4])))
  /\ map (fun d => word 0 (m_surface (meta_src d)))
       (draws (events_of (vkCmdCopyBuffer picky_cmd Sample.buf_a Sample.buf_b
                 [copy_of 0 0 16; copy_of 1 0 4; copy_of 2 8 4])))
     = [16; 16; 16]
  /\ map (fun d => word 0 (m_surface (meta_src d)))
       (draws (events_of (vkCmdCopyBuffer willing_cmd Sample.buf_a
                 Sample.buf_b
                 [copy_of 0 0 16; copy_of 1 0 4; copy_of 2 8 4])))
     = [16; 4; 4]
  /\ draws (events_of (vkCmdCopyBuffer picky_cmd Sample.buf_a Sample.buf_b
              [copy_of 0 0 16; copy_of 1 0 4; copy_of 2 8 4]))
     <> draws (events_of (vkCmdCopyBuffer willing_cmd Sample.buf_a
                 Sample.buf_b
                 [copy_of 0 0 16; copy_of 1 0 4; copy_of 2 8 4])).
Proof.
  repeat split; try (vm_compute; reflexivity).
  intros E.
  apply (f_equal (map (fun d => word 0 (m_surface (meta_src d))))) in E.
  vm_compute in E. discriminate E.
Qed.

(** ** Surface-state fields *)

Lemma mask_testbit f n j :
  field_bits f n -> 0 <= j ->
  Z.testbit (f_mask f) j = (f_shift f <=? j) && (j <? f_shift f + n).
Proof.
  intros (Hs & Hn & Hb & ->) Hj. rewrite Z.shiftl_spec by lia.
  destruct (Z.leb_spec (f_shift f) j).
  - rewrite Z.testbit_ones by lia.
    destruct (Z.leb_spec 0 (j - f_shift f)); [|lia].
    destruct (Z.ltb_spec (j - f_shift f) n), (Z.ltb_spec j (f_shift f + n));
      simpl; try reflexivity; lia.
  - rewrite Z.testbit_neg_r by lia. reflexivity.
Qed.

Lemma extract_testbit f n v i :
  field_bits f n -> 0 <= i ->
  Z.testbit (GEN_EXTRACT v f) i = Z.testbit v (i + f_shift f) && (i <? n).
Proof.
  intros Hf Hi. pose proof Hf as (Hs & Hn & Hb & _). unfold GEN_EXTRACT.
  rewrite Z.shiftr_spec, Z.land_spec, (mask_testbit f n) by (assumption || lia).
  destruct (Z.leb_spec (f_shift f) (i + f_shift f)); [|lia].
  destruct (Z.ltb_spec (i + f_shift f) (f_shift f + n)), (Z.ltb_spec i n);
    simpl; try reflexivity; lia.
Qed.

Lemma testbit_above x n i :
  0 <= x < 2 ^ n -> n <= i -> Z.testbit x i = false.
Proof.
  intros Hx Hi. destruct (Z.eq_dec x 0) as [->|Hnz]; [apply Z.bits_0|].
  apply Z.bits_above_log2; [lia|].
  assert (0 <= n) by (destruct (Z.le_gt_cases 0 n); [assumption|];
                      rewrite Z.pow_neg_r in Hx; lia).
  apply Z.lt_le_trans with n; [|exact Hi].
  apply Z.log2_lt_pow2; lia.
Qed.

Lemma extract_range f n v :
  field_bits f n -> 0 <= GEN_EXTRACT v f < 2 ^ n.
Proof.
  intros Hf. pose proof Hf as (Hs & Hn & Hb & _).
  assert (E : GEN_EXTRACT v f = Z.shiftr v (f_shift f) mod 2 ^ n).
  { apply Z.bits_inj'. intros i Hi.
    rewrite (extract_testbit f n) by assumption.
    destruct (Z.ltb_spec i n).
    - rewrite Z.mod_pow2_bits_low, Z.shiftr_spec, andb_true_r by lia.
      reflexivity.
    - rewrite Z.mod_pow2_bits_high, andb_false_r by lia. reflexivity. }
  rewrite E. apply Z.mod_pos_bound. apply Z.pow_pos_nonneg; lia.
Qed.

Lemma extract_eq f n w x :
  field_bits f n -> 0 <= x < 2 ^ n ->
  (forall i, 0 <= i < n -> Z.testbit w (i + f_shift f) = Z.testbit x i) ->
  GEN_EXTRACT w f = x.
Proof.
  intros Hf Hx Hbits. apply Z.bits_inj'. intros i Hi.
  rewrite (extract_testbit f n) by assumption.
  destruct (Z.ltb_spec i n).
  - rewrite andb_true_r. apply Hbits. lia.
  - rewrite andb_false_r. symmetry. apply (testbit_above x n); assumption.
Qed.

Lemma u32_testbit z j : 0 <= j < 32 -> Z.testbit (u32 z) j = Z.testbit z j.
Proof. intros Hj. unfold u32. apply Z.mod_pow2_bits_low. lia. Qed.

Lemma shift32_testbit f n x j :
  field_bits f n -> 0 <= x < 2 ^ 32 -> 0 <= j < 32 ->
  Z.testbit (GEN_SHIFT32 x f) j = Z.testbit x (j - f_shift f).
Proof.
  intros (Hs & Hn & Hb & _) Hx Hj. unfold GEN_SHIFT32.
  rewrite u32_testbit, Z.shiftl_spec, (u32_small x) by lia. reflexivity.
Qed.

(** The bits of a field after the word was cleared under a mask that covers
    the field and two values were or-ed in. *)
Lemma field_written f nf g ng v x y :
  field_bits f nf -> field_bits g ng -> fields_disjoint f nf g ng ->
  0 <= x < 2 ^ nf -> 0 <= y < 2 ^ ng ->
  GEN_EXTRACT
    (Z.lor (Z.land v (u32 (Z.lnot (Z.lor (f_mask f) (f_mask g)))))
           (Z.lor (GEN_SHIFT32 x f) (GEN_SHIFT32 y g))) f = x
  /\ GEN_EXTRACT
       (Z.lor (Z.land v (u32 (Z.lnot (Z.lor (f_mask f) (f_mask g)))))
              (Z.lor (GEN_SHIFT32 x f) (GEN_SHIFT32 y g))) g = y.
Proof.
  intros Hf Hg Hd Hx Hy.
  pose proof Hf as (Hsf & Hnf & Hbf & _). pose proof Hg as (Hsg & Hng & Hbg & _).
  assert (Hx32 : 0 <= x < 2 ^ 32).
  { split; [lia|]. apply Z.lt_le_trans with (2 ^ nf); [lia|].
    apply Z.pow_le_mono_r; lia. }
  assert (Hy32 : 0 <= y < 2 ^ 32).
  { split; [lia|]. apply Z.lt_le_trans with (2 ^ ng); [lia|].
    apply Z.pow_le_mono_r; lia. }
  split.
  - apply (extract_eq f nf); [assumption | assumption |]. intros i Hi.
    rewrite !Z.lor_spec, Z.land_spec, u32_testbit, Z.lnot_spec, Z.lor_spec,
      (mask_testbit f nf), (mask_testbit g ng),
      (shift32_testbit f nf), (shift32_testbit g ng)
      by (assumption || lia).
    replace (i + f_shift f - f_shift f) with i by lia.
    destruct (Z.leb_spec (f_shift f) (i + f_shift f)); [|lia].
    destruct (Z.ltb_spec (i + f_shift f) (f_shift f + nf)); [|lia].
    simpl. rewrite andb_false_r. simpl.
    destruct (Z.lt_ge_cases (i + f_shift f - f_shift g) 0).
    + rewrite (Z.testbit_neg_r y) by lia. apply orb_false_r.
    + rewrite (testbit_above y ng) by (destruct Hd; lia). apply orb_false_r.
  - apply (extract_eq g ng); [assumption | assumption |]. intros i Hi.
    rewrite !Z.lor_spec, Z.land_spec, u32_testbit, Z.lnot_spec, Z.lor_spec,
      (mask_testbit f nf), (mask_testbit g ng),
      (shift32_testbit f nf), (shift32_testbit g ng)
      by (assumption || lia).
    replace (i + f_shift g - f_shift g) with i by lia.
    destruct (Z.leb_spec (f_shift g) (i + f_shift g)); [|lia].
    destruct (Z.ltb_spec (i + f_shift g) (f_shift g + ng)); [|lia].
    simpl. rewrite orb_true_r. simpl.
    destruct (Z.lt_ge_cases (i + f_shift g - f_shift f) 0).
    + rewrite (Z.testbit_neg_r x) by lia. rewrite andb_false_r. reflexivity.
    + rewrite (testbit_above x nf) by (destruct Hd; lia).
      rewrite andb_false_r. reflexivity.
Qed.

(** The bits of a field, empty before, after two values were or-ed in. *)
Lemma field_ored f nf g ng v x y :
  field_bits f nf -> field_bits g ng -> fields_disjoint f nf g ng ->
  0 <= x < 2 ^ nf -> 0 <= y < 2 ^ ng ->
  GEN_EXTRACT v f = 0 -> GEN_EXTRACT v g = 0 ->
  GEN_EXTRACT (Z.lor v (Z.lor (GEN_SHIFT32 x f) (GEN_SHIFT32 y g))) f = x
  /\ GEN_EXTRACT (Z.lor v (Z.lor (GEN_SHIFT32 x f) (GEN_SHIFT32 y g))) g = y.
Proof.
  intros Hf Hg Hd Hx Hy Hvf Hvg.
  pose proof Hf as (Hsf & Hnf & Hbf & _). pose proof Hg as (Hsg & Hng & Hbg & _).
  assert (Hx32 : 0 <= x < 2 ^ 32).
  { split; [lia|]. apply Z.lt_le_trans with (2 ^ nf); [lia|].
    apply Z.pow_le_mono_r; lia. }
  assert (Hy32 : 0 <= y < 2 ^ 32).
  { split; [lia|]. apply Z.lt_le_trans with (2 ^ ng); [lia|].
    apply Z.pow_le_mono_r; lia. }
  assert (Hzf : forall i, 0 <= i < nf -> Z.testbit v (i + f_shift f) = false).
  { intros i Hi. pose proof (extract_testbit f nf v i Hf ltac:(lia)) as E.
    rewrite Hvf, Z.bits_0 in E.
    destruct (Z.ltb_spec i nf); [|lia]. rewrite andb_true_r in E. congruence. }
  assert (Hzg : forall i, 0 <= i < ng -> Z.testbit v (i + f_shift g) = false).
  { intros i Hi. pose proof (extract_testbit g ng v i Hg ltac:(lia)) as E.
    rewrite Hvg, Z.bits_0 in E.
    destruct (Z.ltb_spec i ng); [|lia]. rewrite andb_true_r in E. congruence. }
  split.
  - apply (extract_eq f nf); [assumption | assumption |]. intros i Hi.
    rewrite !Z.lor_spec, (shift32_testbit f nf), (shift32_testbit g ng),
      (Hzf i Hi) by (assumption || lia).
    replace (i + f_shift f - f_shift f) with i by lia. simpl.
    destruct (Z.lt_ge_cases (i + f_shift f - f_shift g) 0).
    + rewrite (Z.testbit_neg_r y) by lia. apply orb_false_r.
    + rewrite (testbit_above y ng) by (destruct Hd; lia). apply orb_false_r.
  - apply (extract_eq g ng); [assumption | assumption |]. intros i Hi.
    rewrite !Z.lor_spec, (shift32_testbit f nf), (shift32_testbit g ng),
      (Hzg i Hi) by (assumption || lia).
    replace (i + f_shift g - f_shift g) with i by lia. simpl.
    destruct (Z.lt_ge_cases (i + f_shift g - f_shift f) 0).
    + rewrite (Z.testbit_neg_r x) by lia. reflexivity.
    + rewrite (testbit_above x nf) by (destruct Hd; lia). reflexivity.
Qed.

Lemma field_cleared f n v :
  field_bits f n -> GEN_EXTRACT (Z.land v (u32 (Z.lnot (f_mask f)))) f = 0.
Proof.
  intros Hf. pose proof Hf as (Hs & Hn & Hb & _).
  apply (extract_eq f n); [assumption | |].
  - split; [lia|]. apply Z.pow_pos_nonneg; lia.
  - intros i Hi.
    rewrite Z.land_spec, u32_testbit, Z.lnot_spec, (mask_testbit f n), Z.bits_0
      by (assumption || lia).
    destruct (Z.leb_spec (f_shift f) (i + f_shift f)); [|lia].
    destruct (Z.ltb_spec (i + f_shift f) (f_shift f + n)); [|lia].
    simpl. apply andb_false_r.
Qed.

(** ** The compressed-layout adjuster *)

Lemma length_set_word i v l : length (set_word i v l) = length l.
Proof.
  revert i. induction l as [|h t IH]; intros [|i]; simpl;
    try reflexivity. rewrite IH. reflexivity.
Qed.

Lemma word_set_word_eq i v l :
  (i < length l)%nat -> word i (set_word i v l) = v.
Proof.
  unfold word. revert i. induction l as [|h t IH]; intros i H.
  - simpl in H. lia.
  - destruct i as [|i]; simpl; [reflexivity|]. apply IH. simpl in H. lia.
Qed.

Lemma word_set_word_ne i j v l :
  i <> j -> word j (set_word i v l) = word j l.
Proof.
  unfold word. revert i j.
  induction l as [|h t IH]; intros [|i] [|j] H; simpl; try reflexivity;
    try congruence.
  apply IH. congruence.
Qed.

Section Adjuster.

Context {X : externals}.

Lemma adjust_compressed_dst_by_table cmd img meta :
  cmd_meta_adjust_compressed_dst cmd img meta
  = adjust_with (surface_width cmd) (surface_height cmd)
      (surface_min_array_element cmd) (surface_x_offset cmd)
      (surface_y_offset cmd) img meta.
Proof.
  unfold cmd_meta_adjust_compressed_dst, adjust_with, surface_width,
    surface_height, surface_min_array_element, surface_x_offset,
    surface_y_offset.
  destruct (INTEL_GEN 7 <=? cmd_gen cmd); reflexivity.
Qed.

Lemma blocks_minus_one v b :
  0 <= v -> 0 < b -> v + b < 2 ^ 32 ->
  u32 (u32 (v + b) / b - 1) = (v + b) / b - 1
  /\ 0 <= (v + b) / b - 1 <= v
  /\ b * ((v + b) / b - 1) < v + 1 <= b * ((v + b) / b - 1 + 1).
Proof.
  intros Hv Hb Hs.
  assert (E : (v + b) / b = v / b + 1).
  { replace (v + b) with (v + 1 * b) by lia. apply Z.div_add. lia. }
  assert (Hq : 0 <= v / b <= v).
  { split; [apply Z.div_pos; lia|]. apply Z.div_le_upper_bound; nia. }
  pose proof (Z.mul_div_le v b Hb). pose proof (Z.mul_succ_div_gt v b Hb).
  rewrite (u32_small (v + b)) by lia. rewrite E.
  rewrite u32_small by lia. lia.
Qed.


End Adjuster.



(** * Further properties of the meta operations *)

(** ** Loops seen through a projection, with the counter *)

Lemma flat_map_seq_shift {B} (h : nat -> list B) (n : nat) :
  flat_map h (seq 1 n) = flat_map (fun k => h (Datatypes.S k)) (seq 0 n).
Proof. rewrite <- seq_shift, flat_map_concat_map, map_map,
         <- flat_map_concat_map. reflexivity. Qed.

Section IndexedProjections.

Context {B : Type} (p : list event -> list B).
Hypothesis p_nil : p [] = [].
Hypothesis p_app : forall t1 t2, p (t1 ++ t2) = p t1 ++ p t2.

Lemma repeat_loop_flat_ix {S} (I : nat -> S -> Prop) (h : nat -> list B)
    (n : nat) (body : S -> M S) :
  (forall k s, (k < n)%nat -> I k s ->
     I (Datatypes.S k) (fst (body s)) /\ p (events_of (body s)) = h k) ->
  forall s, I O s ->
    p (events_of (repeat_loop n body s)) = flat_map h (seq 0 n).
Proof.
  revert I h. induction n as [|n IH]; intros I h Hb s Hs; simpl;
    [exact p_nil|].
  destruct (Hb O s ltac:(lia) Hs) as [Hi Hp].
  rewrite events_bind, p_app, Hp. f_equal.
  rewrite flat_map_seq_shift.
  apply (IH (fun k => I (Datatypes.S k)) (fun k => h (Datatypes.S k)));
    [|exact Hi].
  intros k s' Hk. apply Hb. lia.
Qed.

End IndexedProjections.

Lemma u32_add_l a b : u32 (u32 a + b) = u32 (a + b).
Proof. unfold u32. apply Zplus_mod_idemp_l. Qed.

Lemma u32_add_r a b : u32 (a + u32 b) = u32 (a + b).
Proof. unfold u32. apply Zplus_mod_idemp_r. Qed.

(** ** Buffer views: the requested range *)

Section BufferViewRange.

Context {X : externals}.

(** X1: the range of a buffer view is rounded up to a whole number of elements:
    the request carries the least multiple of the format's size that is not
    below the range asked for, and the answer is the constructor's. *)
Theorem buf_view_range_rounded (cmd : intel_cmd) (buf : option intel_buf)
    (range : Z) (format : VkFormat) :
  0 < icd_format_get_size format -> 0 <= range ->
  range + icd_format_get_size format <= 2 ^ 64 ->
  exists info,
    cmd_meta_create_buf_view cmd buf range format
    = (intel_buf_view_create (cmd_dev cmd) info, [EvBufViewCreate info])
    /\ bvi_buffer info = buf /\ bvi_format info = format
    /\ bvi_range info mod icd_format_get_size format = 0
    /\ range <= bvi_range info < range + icd_format_get_size format.
Proof.
  intros Hs Hr Hb. unfold cmd_meta_create_buf_view. cbv zeta.
  set (stride := icd_format_get_size format) in *.
  eexists. split; [reflexivity|]. simpl.
  split; [reflexivity|]. split; [reflexivity|].
  pose proof (Z.mod_pos_bound range stride Hs) as Hm.
  destruct (Z.eqb_spec (range mod stride) 0) as [E|N].
  - split; [exact E | lia].
  - assert (Hu : u64 (range + (stride - range mod stride))
                 = range + (stride - range mod stride))
      by (unfold u64; apply Z.mod_small; lia).
    rewrite Hu. split; [|lia].
    pose proof (Z.div_mod range stride ltac:(lia)) as Hd.
    replace (range + (stride - range mod stride))
      with ((range / stride + 1) * stride) by lia.
    apply Z.mod_mul. lia.
Qed.

End BufferViewRange.

(** On the sample platform: a range of 10 bytes in a 4-byte format is
    requested as 12 bytes. *)
Lemma buf_view_range_rounded_witness :
  exists info,
    cmd_meta_create_buf_view Sample.cmd7 (Some Sample.buf_a) 10
      VK_FORMAT_R8G8B8A8_UINT
    = (intel_buf_view_create (cmd_dev Sample.cmd7) info,
       [EvBufViewCreate info])
    /\ bvi_range info = 12.
Proof.
  destruct (buf_view_range_rounded Sample.cmd7 (Some Sample.buf_a) 10
              VK_FORMAT_R8G8B8A8_UINT)
    as (info & E & _ & _ & Hm & Hr);
    [reflexivity | discriminate | discriminate |].
  exists info. split; [exact E|].
  change (icd_format_get_size VK_FORMAT_R8G8B8A8_UINT) with 4 in Hm, Hr.
  assert (H : bvi_range info = 4 * (bvi_range info / 4) + bvi_range info mod 4)
    by (apply Z.div_mod; lia).
  lia.
Defined.

(** ** Buffer operations: what the draws are bound to *)

Section BufferBound.

Context {X : externals}.

Ltac buf_outcome H :=
  unfold cmd_meta_create_buf_view, cmd_fail, emit, bind, ret, events_of,
    bound_to;
  match goal with |- context [intel_buf_view_create ?d ?i] =>
    let res := fresh "res" in
    let view := fresh "view" in
    specialize (H i); destruct (intel_buf_view_create d i) as [res view];
    simpl in H
  end;
  match goal with |- context [VkResult_eq_dec ?r VK_SUCCESS] =>
    destruct (VkResult_eq_dec r VK_SUCCESS) end;
  try contradiction; try congruence; simpl; repeat split.

Lemma set_src_for_buf_bound cmd buf format meta :
  buf_views_ok cmd ->
  bound_to (RELOC_BO (buf_bo buf)) []
    (meta_src (fst (cmd_meta_set_src_for_buf cmd buf format meta)))
  /\ meta_dst (fst (cmd_meta_set_src_for_buf cmd buf format meta))
     = meta_dst meta.
Proof. intros H. unfold cmd_meta_set_src_for_buf, buf_views_ok in *. buf_outcome H. Qed.

Lemma set_dst_for_buf_bound cmd buf format meta :
  buf_views_ok cmd ->
  bound_to (RELOC_BO (buf_bo buf)) [INTEL_RELOC_WRITE]
    (meta_dst (fst (cmd_meta_set_dst_for_buf cmd buf format meta)))
  /\ meta_src (fst (cmd_meta_set_dst_for_buf cmd buf format meta))
     = meta_src meta.
Proof. intros H. unfold cmd_meta_set_dst_for_buf, buf_views_ok in *. buf_outcome H. Qed.

Lemma set_src_for_writer_bound cmd writer size format meta :
  buf_views_ok cmd ->
  bound_to (RELOC_WRITER writer) [INTEL_CMD_RELOC_TARGET_IS_WRITER]
    (meta_src (fst (cmd_meta_set_src_for_writer cmd writer size format meta)))
  /\ meta_dst (fst (cmd_meta_set_src_for_writer cmd writer size format meta))
     = meta_dst meta.
Proof. intros H. unfold cmd_meta_set_src_for_writer, buf_views_ok in *. buf_outcome H. Qed.

Lemma set_src_for_buf_refused cmd buf format meta :
  buf_views_fail cmd ->
  fst (cmd_meta_set_src_for_buf cmd buf format meta) = meta
  /\ length (fails (events_of (cmd_meta_set_src_for_buf cmd buf format meta)))
     = 1%nat.
Proof. intros H. unfold cmd_meta_set_src_for_buf, buf_views_fail in *. buf_outcome H. Qed.

Lemma set_dst_for_buf_refused cmd buf format meta :
  buf_views_fail cmd ->
  fst (cmd_meta_set_dst_for_buf cmd buf format meta) = meta
  /\ length (fails (events_of (cmd_meta_set_dst_for_buf cmd buf format meta)))
     = 1%nat.
Proof. intros H. unfold cmd_meta_set_dst_for_buf, buf_views_fail in *. buf_outcome H. Qed.

Lemma copy_buffer_draw_bound cmd src dst format fmt meta :
  buf_views_ok cmd -> fmt <> VK_FORMAT_UNDEFINED ->
  format = VK_FORMAT_UNDEFINED \/ copy_bound src dst meta ->
  copy_bound src dst (snd (fst (copy_buffer_draw cmd src dst format fmt meta)))
  /\ Forall (copy_bound src dst)
       (draws (events_of (copy_buffer_draw cmd src dst format fmt meta))).
Proof.
  intros Hok Hfmt Hinv. unfold copy_buffer_draw.
  destruct (VkFormat_eq_dec format fmt) as [E|N].
  - destruct Hinv as [Hu|Hb]; [congruence|].
    simpl. split; [exact Hb | repeat constructor; apply Hb].
  - rewrite !value_bind. msteps.
    destruct (set_src_for_buf_bound cmd src fmt meta Hok) as [Hs1 Hd1].
    destruct (set_src_for_buf_quiet cmd src fmt meta) as [Hq1 _].
    set (m1 := fst (cmd_meta_set_src_for_buf cmd src fmt meta)) in *.
    destruct (set_dst_for_buf_bound cmd dst fmt m1 Hok) as [Hd2 Hs2].
    destruct (set_dst_for_buf_quiet cmd dst fmt m1) as [Hq2 _].
    set (m2 := fst (cmd_meta_set_dst_for_buf cmd dst fmt m1)) in *.
    assert (Hb : copy_bound src dst m2)
      by (split; [rewrite Hs2; exact Hs1 | exact Hd2]).
    rewrite !draws_app, Hq1, Hq2. simpl.
    split; [exact Hb | repeat constructor; apply Hb].
Qed.

Lemma copy_buffer_region_bound cmd src dst region st :
  buf_views_ok cmd ->
  fst st = VK_FORMAT_UNDEFINED \/ copy_bound src dst (snd st) ->
  (fst (fst (copy_buffer_region cmd src dst region st)) = VK_FORMAT_UNDEFINED
   \/ copy_bound src dst (snd (fst (copy_buffer_region cmd src dst region st))))
  /\ Forall (copy_bound src dst)
       (draws (events_of (copy_buffer_region cmd src dst region st))).
Proof.
  intros Hok Hinv. destruct st as [format meta]. simpl in Hinv.
  unfold copy_buffer_region. cbv zeta.
  destruct (cmd_meta_mem_dword_aligned _ _ _ _).
  - match goal with |- context [copy_buffer_draw ?c ?s ?d ?f ?g ?m] =>
      destruct (copy_buffer_draw_bound c s d f g m Hok) as [Hb Hd] end;
      [discriminate | destruct Hinv as [Hu|Hb]; [left; exact Hu | right; exact Hb]
      | split; [right; exact Hb | exact Hd]].
  - destruct (cmd_gen cmd =? INTEL_GEN 6).
    + simpl. split; [|constructor].
      destruct Hinv as [Hu|Hb]; [left; exact Hu | right; exact Hb].
    + match goal with |- context [copy_buffer_draw ?c ?s ?d ?f ?g ?m] =>
        destruct (copy_buffer_draw_bound c s d f g m Hok) as [Hb Hd] end;
        [discriminate
        | destruct Hinv as [Hu|Hb]; [left; exact Hu | right; exact Hb]
        | split; [right; exact Hb | exact Hd]].
Qed.

(** X2: when the device builds the buffer views, every draw of a buffer copy,
    fill or update carries valid bindings: the source (read-only) on the
    source buffer, or on the state writer for an update; the destination, with
    the write flag, on the destination buffer; a fill has no source. *)
Theorem buffer_draws_bound (cmd : intel_cmd) (src dst : intel_buf) :
  buf_views_ok cmd ->
  (forall pRegions,
     Forall (copy_bound src dst)
       (draws (events_of (vkCmdCopyBuffer cmd src dst pRegions))))
  /\ (forall destOffset fillSize data,
        Forall (fun m =>
                  m_valid (meta_src m) = false
                  /\ bound_to (RELOC_BO (buf_bo dst)) [INTEL_RELOC_WRITE]
                       (meta_dst m))
          (draws (events_of (vkCmdFillBuffer cmd dst destOffset fillSize data))))
  /\ (forall destOffset dataSize pData,
        Forall (fun m =>
                  bound_to (RELOC_WRITER INTEL_CMD_WRITER_STATE)
                    [INTEL_CMD_RELOC_TARGET_IS_WRITER] (meta_src m)
                  /\ bound_to (RELOC_BO (buf_bo dst)) [INTEL_RELOC_WRITE]
                       (meta_dst m))
          (draws (events_of
                    (vkCmdUpdateBuffer cmd dst destOffset dataSize pData)))).
Proof.
  intros Hok. split; [|split].
  - intros pRegions. unfold vkCmdCopyBuffer. msteps. simpl.
    rewrite app_nil_r.
    apply (for_each_inv
             (fun st => fst st = VK_FORMAT_UNDEFINED
                        \/ copy_bound src dst (snd st))
             (fun t => Forall (copy_bound src dst) (draws t)));
      [constructor | | | left; reflexivity].
    + intros t1 t2 H1 H2. rewrite draws_app. apply Forall_app. tauto.
    + intros region st _ Hst. apply copy_buffer_region_bound; assumption.
  - intros destOffset fillSize data. unfold vkCmdFillBuffer.
    destruct (negb _); [constructor|]. cbv zeta. msteps.
    match goal with |- context [cmd_meta_set_dst_for_buf ?c ?b ?f ?m] =>
      destruct (set_dst_for_buf_bound c b f m Hok) as [Hd Hs];
      destruct (set_dst_for_buf_quiet c b f m) as [Hq _];
      set (m1 := fst (cmd_meta_set_dst_for_buf c b f m)) in *
    end.
    rewrite draws_app, Hq. simpl. repeat constructor; try apply Hd.
    rewrite Hs. reflexivity.
  - intros destOffset dataSize pData. unfold vkCmdUpdateBuffer.
    destruct (negb _); [constructor|]. cbv zeta. msteps.
    match goal with |- context [cmd_meta_set_src_for_writer ?c ?w ?z ?f ?m] =>
      destruct (set_src_for_writer_bound c w z f m Hok) as [Hs1 _];
      destruct (set_src_for_writer_quiet c w z f m) as [Hq1 _];
      set (m1 := fst (cmd_meta_set_src_for_writer c w z f m)) in *
    end.
    match goal with |- context [cmd_meta_set_dst_for_buf ?c ?b ?f ?m] =>
      destruct (set_dst_for_buf_bound c b f m Hok) as [Hd Hs];
      destruct (set_dst_for_buf_quiet c b f m) as [Hq _];
      set (m2 := fst (cmd_meta_set_dst_for_buf c b f m)) in *
    end.
    rewrite !draws_app, Hq1, Hq. simpl.
    repeat constructor; try apply Hd; rewrite Hs; apply Hs1.
Qed.

Lemma copy_buffer_draw_unbound cmd src dst format fmt meta :
  buf_views_fail cmd ->
  draws (events_of (copy_buffer_draw cmd src dst format fmt meta)) = [meta]
  /\ snd (fst (copy_buffer_draw cmd src dst format fmt meta)) = meta.
Proof.
  intros Hno. unfold copy_buffer_draw.
  destruct (VkFormat_eq_dec format fmt); [split; reflexivity|].
  rewrite !value_bind. msteps.
  destruct (set_src_for_buf_refused cmd src fmt meta Hno) as [E1 _].
  destruct (set_src_for_buf_quiet cmd src fmt meta) as [Hq1 _].
  rewrite E1.
  destruct (set_dst_for_buf_refused cmd dst fmt meta Hno) as [E2 _].
  destruct (set_dst_for_buf_quiet cmd dst fmt meta) as [Hq2 _].
  rewrite E2, !draws_app, Hq1, Hq2. split; reflexivity.
Qed.

(** X3: when the device refuses the buffer views, the draws are issued all the
    same: a buffer copy dispatches the same shaders and coordinates, a fill
    its one draw, each with bindings that are not valid. *)
Theorem buffer_draws_after_failed_binding (cmd : intel_cmd)
    (src dst : intel_buf) :
  buf_views_fail cmd ->
  (forall pRegions,
     let t := events_of (vkCmdCopyBuffer cmd src dst pRegions) in
     Forall (fun m => m_valid (meta_src m) = false
                      /\ m_valid (meta_dst m) = false) (draws t)
     /\ map geometry (draws t) = flat_map (region_dispatch cmd) pRegions)
  /\ (forall destOffset fillSize data,
        destOffset mod 4 = 0 -> fillSize mod 4 = 0 ->
        let t := events_of (vkCmdFillBuffer cmd dst destOffset fillSize data) in
        length (fails t) = 1%nat
        /\ exists m, draws t = [m] /\ m_valid (meta_dst m) = false).
Proof.
  intros Hno. split.
  - intros pRegions. cbv zeta. split; [|apply copy_buffer_dispatches].
    unfold vkCmdCopyBuffer. msteps. simpl. rewrite app_nil_r.
    apply (for_each_inv
             (fun st => m_valid (meta_src (snd st)) = false
                        /\ m_valid (meta_dst (snd st)) = false)
             (fun t => Forall (fun m => m_valid (meta_src m) = false
                                        /\ m_valid (meta_dst m) = false)
                         (draws t)));
      [constructor | | | split; reflexivity].
    + intros t1 t2 H1 H2. rewrite draws_app. apply Forall_app. tauto.
    + intros region [format meta] _ Hst. simpl in Hst.
      unfold copy_buffer_region. cbv zeta.
      destruct (cmd_meta_mem_dword_aligned _ _ _ _);
        [|destruct (cmd_gen cmd =? INTEL_GEN 6)];
        try (simpl; split; [exact Hst | constructor]);
        match goal with |- context [copy_buffer_draw ?c ?s ?d ?f ?g ?m] =>
          destruct (copy_buffer_draw_unbound c s d f g m Hno) as [-> ->] end;
        simpl; (split; [exact Hst | repeat constructor; apply Hst]).
  - intros destOffset fillSize data Ho Hs. cbv zeta. unfold vkCmdFillBuffer.
    assert (Ha : Z.land (Z.lor destOffset fillSize) 3 = 0)
      by (apply dword_aligned_iff; split; assumption).
    apply Z.eqb_eq in Ha. rewrite Ha. simpl negb. cbv iota zeta. msteps.
    match goal with |- context [cmd_meta_set_dst_for_buf ?c ?b ?f ?m] =>
      destruct (set_dst_for_buf_refused c b f m Hno) as [E Hf];
      destruct (set_dst_for_buf_quiet c b f m) as [Hq _]
    end.
    rewrite E, draws_app, fails_app, Hq, length_app, Hf. simpl.
    split; [reflexivity|]. eexists. split; reflexivity.
Qed.

End BufferBound.

(** On the sample platform: a copy of two regions, a fill and an update. *)
Lemma buffer_draws_bound_witness :
  Forall (copy_bound Sample.buf_a Sample.buf_b)
    (draws (events_of
       (vkCmdCopyBuffer Sample.cmd7 Sample.buf_a Sample.buf_b
          [copy_of 0 16 8; copy_of 1 0 3])))
  /\ Forall (fun m =>
               m_valid (meta_src m) = false
               /\ bound_to (RELOC_BO (buf_bo Sample.buf_b)) [INTEL_RELOC_WRITE]
                    (meta_dst m))
       (draws (events_of (vkCmdFillBuffer Sample.cmd7 Sample.buf_b 0 64 255))).
Proof.
  assert (Hok : buf_views_ok Sample.cmd7) by (intros info; reflexivity).
  destruct (buffer_draws_bound Sample.cmd7 Sample.buf_a Sample.buf_b Hok)
    as (Hc & Hf & _).
  split; [apply Hc | apply Hf].
Defined.

(** On the sample platform, with a device that refuses every view. *)
Lemma buffer_draws_after_failed_binding_witness :
  map geometry
    (draws (events_of
       (vkCmdCopyBuffer refusing_cmd Sample.buf_a Sample.buf_b
          [copy_of 0 16 8; copy_of 1 0 3])))
  = [(INTEL_DEV_META_VS_COPY_MEM, 0, 4, 2);
     (INTEL_DEV_META_VS_COPY_MEM_UNALIGNED, 1, 0, 3)]
  /\ length (fails (events_of
       (vkCmdFillBuffer refusing_cmd Sample.buf_b 0 64 255))) = 1%nat.
Proof.
  assert (Hno : buf_views_fail refusing_cmd)
    by (intros info; simpl; discriminate).
  destruct (buffer_draws_after_failed_binding refusing_cmd
              Sample.buf_a Sample.buf_b Hno) as (Hc & Hf).
  split.
  - apply (Hc [copy_of 0 16 8; copy_of 1 0 3]).
  - apply (Hf 0 64 255); reflexivity.
Defined.

(** ** Buffer copies: the buffers are bound once *)

Lemma buf_view_requests_app t1 t2 :
  buf_view_requests (t1 ++ t2) = buf_view_requests t1 ++ buf_view_requests t2.
Proof. apply flat_map_app. Qed.

Section BindOnce.

Context {X : externals}.

Lemma set_src_for_buf_request cmd buf format meta :
  map request_key
    (buf_view_requests (events_of (cmd_meta_set_src_for_buf cmd buf format meta)))
  = [(Some buf, format)].
Proof.
  unfold cmd_meta_set_src_for_buf, cmd_meta_create_buf_view, cmd_fail, emit,
    bind, ret, events_of.
  destruct (intel_buf_view_create _ _) as [res view].
  destruct (VkResult_eq_dec res VK_SUCCESS); reflexivity.
Qed.

Lemma set_dst_for_buf_request cmd buf format meta :
  map request_key
    (buf_view_requests (events_of (cmd_meta_set_dst_for_buf cmd buf format meta)))
  = [(Some buf, format)].
Proof.
  unfold cmd_meta_set_dst_for_buf, cmd_meta_create_buf_view, cmd_fail, emit,
    bind, ret, events_of.
  destruct (intel_buf_view_create _ _) as [res view].
  destruct (VkResult_eq_dec res VK_SUCCESS); reflexivity.
Qed.

Lemma copy_buffer_draw_requests cmd src dst format fmt meta :
  fst (fst (copy_buffer_draw cmd src dst format fmt meta)) = fmt
  /\ map request_key
       (buf_view_requests (events_of (copy_buffer_draw cmd src dst format fmt
                                        meta)))
     = if VkFormat_eq_dec format fmt then []
       else [(Some src, fmt); (Some dst, fmt)].
Proof.
  unfold copy_buffer_draw.
  destruct (VkFormat_eq_dec format fmt) as [E|N];
    [split; [exact E | reflexivity]|].
  rewrite !value_bind. msteps.
  rewrite !buf_view_requests_app, !map_app, set_src_for_buf_request,
    set_dst_for_buf_request.
  split; reflexivity.
Qed.

Lemma copy_buffer_region_requests cmd src dst region format meta :
  no_fallback cmd region ->
  let aligned :=
    cmd_meta_mem_dword_aligned cmd (bc_srcOffset region) (bc_destOffset region)
      (bc_copySize region) in
  fst (fst (copy_buffer_region cmd src dst region (format, meta)))
  = (if aligned then VK_FORMAT_R32G32B32A32_UINT else format)
  /\ map request_key
       (buf_view_requests
          (events_of (copy_buffer_region cmd src dst region (format, meta))))
     = if aligned then
         if VkFormat_eq_dec format VK_FORMAT_R32G32B32A32_UINT then []
         else [(Some src, VK_FORMAT_R32G32B32A32_UINT);
               (Some dst, VK_FORMAT_R32G32B32A32_UINT)]
       else [].
Proof.
  intros Hn. cbv zeta. unfold copy_buffer_region. cbv zeta.
  destruct (cmd_meta_mem_dword_aligned _ _ _ _) eqn:Ea.
  - apply copy_buffer_draw_requests.
  - destruct Hn as [Hn|Hg]; [congruence|].
    apply Z.eqb_eq in Hg. rewrite Hg. split; reflexivity.
Qed.

Lemma copy_buffer_bound_loop cmd src dst pRegions meta :
  Forall (no_fallback cmd) pRegions ->
  buf_view_requests
    (events_of (for_each pRegions (copy_buffer_region cmd src dst)
                  (VK_FORMAT_R32G32B32A32_UINT, meta))) = [].
Proof.
  intros Hall.
  rewrite (for_each_flat_inv buf_view_requests eq_refl buf_view_requests_app
             (fun st => fst st = VK_FORMAT_R32G32B32A32_UINT)
             (fun _ => [])).
  - induction pRegions; simpl; [reflexivity|]. apply IHpRegions.
    inversion Hall; assumption.
  - intros region [format m] Hin Hst. simpl in Hst. subst format.
    rewrite Forall_forall in Hall.
    destruct (copy_buffer_region_requests cmd src dst region
                VK_FORMAT_R32G32B32A32_UINT m (Hall _ Hin)) as [Hf Hr].
    cbv zeta in Hf, Hr. split.
    + rewrite Hf. destruct (cmd_meta_mem_dword_aligned _ _ _ _); reflexivity.
    + destruct (cmd_meta_mem_dword_aligned _ _ _ _);
        [destruct (VkFormat_eq_dec _ _); [|congruence]|];
        apply map_eq_nil in Hr; exact Hr.
  - reflexivity.
Qed.

(** X4: on generation 6, or when every region is dword-aligned, a buffer copy
    binds its buffers once, whatever the number of regions: the views
    requested are one on the source and one on the destination, both in the
    16-byte stride format, at the first aligned region; none if no region is
    aligned. *)
Theorem copy_buffer_binds_once (cmd : intel_cmd) (src dst : intel_buf)
    (pRegions : list VkBufferCopy) :
  cmd_gen cmd = INTEL_GEN 6 \/ Forall multiples_of_4 pRegions ->
  map request_key
    (buf_view_requests (events_of (vkCmdCopyBuffer cmd src dst pRegions)))
  = if existsb (fun region =>
                  cmd_meta_mem_dword_aligned cmd (bc_srcOffset region)
                    (bc_destOffset region) (bc_copySize region)) pRegions
    then [(Some src, VK_FORMAT_R32G32B32A32_UINT);
          (Some dst, VK_FORMAT_R32G32B32A32_UINT)]
    else [].
Proof.
  intros H.
  assert (Hall : Forall (no_fallback cmd) pRegions).
  { destruct H as [Hg|Ha].
    - apply Forall_forall. intros r _. right. exact Hg.
    - apply Forall_forall. intros r Hr. left.
      apply mem_dword_aligned_iff. rewrite Forall_forall in Ha. auto. }
  clear H. unfold vkCmdCopyBuffer. msteps. simpl (events_of (ret tt)).
  rewrite app_nil_r. unfold copy_buffer_init.
  generalize (set_samples 1
                (set_height 1 (set_mode INTEL_CMD_META_VS_POINTS zero_meta))).
  induction Hall as [|region l Hr Hl IH]; intros meta; [reflexivity|].
  cbn [for_each existsb]. rewrite events_bind, buf_view_requests_app, map_app.
  destruct (copy_buffer_region_requests cmd src dst region
              VK_FORMAT_UNDEFINED meta Hr) as [Hf Hq].
  cbv zeta in Hf, Hq. rewrite Hq.
  destruct (copy_buffer_region cmd src dst region (VK_FORMAT_UNDEFINED, meta))
    as [[f1 m1] e1]. simpl in Hf. simpl fst. subst f1.
  destruct (cmd_meta_mem_dword_aligned _ _ _ _).
  - rewrite copy_buffer_bound_loop by exact Hl. reflexivity.
  - simpl. apply IH.
Qed.

End BindOnce.

(** On the sample platform, generation 6: an unaligned region is refused, the
    two aligned ones share one pair of bindings. *)
Lemma copy_buffer_binds_once_witness :
  map request_key
    (buf_view_requests
       (events_of (vkCmdCopyBuffer Sample.cmd6 Sample.buf_a Sample.buf_b
                     [copy_of 1 0 4; copy_of 0 0 16; copy_of 32 64 8])))
  = [(Some Sample.buf_a, VK_FORMAT_R32G32B32A32_UINT);
     (Some Sample.buf_b, VK_FORMAT_R32G32B32A32_UINT)].
Proof.
  apply (copy_buffer_binds_once Sample.cmd6 Sample.buf_a Sample.buf_b
           [copy_of 1 0 4; copy_of 0 0 16; copy_of 32 64 8]).
  left. reflexivity.
Defined.

(** ** Image copies: where each draw reads and writes *)

Lemma draw_coords_app t1 t2 :
  map draw_coords (draws (t1 ++ t2))
  = map draw_coords (draws t1) ++ map draw_coords (draws t2).
Proof. rewrite draws_app, map_app. reflexivity. Qed.

Lemma flat_map_singleton {A B} (f : A -> B) (l : list A) :
  flat_map (fun a => [f a]) l = map f l.
Proof. induction l as [|a l IH]; simpl; [reflexivity|]. rewrite IH. reflexivity. Qed.

Lemma value_run_checked {A} (c : checked A) :
  fst (run_checked c) = checked_value c.
Proof. destruct c; reflexivity. Qed.

Section CopyImageCoords.

Context {X : externals}.

Lemma copy_image_layer_coords cmd dst format meta :
  map draw_coords (draws (events_of (copy_image_layer cmd dst format meta)))
  = [draw_coords meta]
  /\ draw_coords (fst (copy_image_layer cmd dst format meta))
     = ((m_lod (meta_src meta), u32 (m_layer (meta_src meta) + 1),
         m_x (meta_src meta), m_y (meta_src meta)),
        (m_lod (meta_dst meta), u32 (m_layer (meta_dst meta) + 1),
         m_x (meta_dst meta), m_y (meta_dst meta)),
        (meta_width meta, meta_height meta))
  /\ meta_samples (fst (copy_image_layer cmd dst format meta))
     = meta_samples meta
  /\ Forall (fun m => meta_samples m = meta_samples meta
                      /\ meta_mode m = meta_mode meta)
       (draws (events_of (copy_image_layer cmd dst format meta)))
  /\ meta_mode (fst (copy_image_layer cmd dst format meta)) = meta_mode meta.
Proof.
  unfold copy_image_layer.
  destruct (set_dst_for_img_frame cmd dst format
              (m_lod (meta_dst meta)) (m_layer (meta_dst meta)) meta)
    as (d & Hd & Hl & Hy & Hx & Hyy).
  pose proof (set_dst_for_img_draws cmd dst format
                (m_lod (meta_dst meta)) (m_layer (meta_dst meta)) meta) as Hn.
  destruct (cmd_meta_set_dst_for_img _ _ _ _ _ _) as [m1 e1].
  unfold events_of in *. simpl in Hd, Hn. subst m1. simpl.
  rewrite draws_app, Hn. simpl.
  unfold draw_coords, surface_coords. simpl. rewrite Hl, Hy, Hx, Hyy.
  repeat split. repeat constructor.
Qed.

Lemma copy_image_region_coords cmd src dst raw region meta :
  map draw_coords
    (draws (events_of (copy_image_region cmd src dst raw region meta)))
  = map (copy_image_expected raw region) (seq 0 (region_layers region)).
Proof.
  unfold copy_image_region. cbv zeta.
  set (format := match raw with
                 | Some raw_format => raw_format
                 | None => layout_format (img_layout dst)
                 end).
  match goal with |- context [repeat_loop _ _ ?m] => set (meta0 := m) end.
  rewrite (repeat_loop_flat_ix (fun t => map draw_coords (draws t)) eq_refl
             draw_coords_app
             (fun k m => draw_coords m
                         = copy_image_expected raw region k)
             (fun k => [copy_image_expected raw region k])).
  - apply flat_map_singleton.
  - intros k m _ Hm.
    destruct (copy_image_layer_coords cmd dst format m) as (Hd & Hr & _).
    rewrite Hd, Hr, Hm. split; [|reflexivity].
    unfold draw_coords, surface_coords in Hm.
    injection Hm as H1 H2 H3 H4 H5 H6 H7 H8 H9 H10.
    rewrite H1, H2, H3, H4, H5, H6, H7, H8, H9, H10.
    unfold copy_image_expected. cbv zeta.
    rewrite !u32_add_l. rewrite Nat2Z.inj_succ.
    replace (Z.succ (Z.of_nat k)) with (Z.of_nat k + 1) by lia.
    rewrite !Z.add_assoc. reflexivity.
  - subst meta0. unfold copy_image_expected, draw_coords, surface_coords.
    destruct raw; simpl; rewrite !Z.add_0_r; reflexivity.
Qed.

Lemma copy_image_regions_coords cmd src dst raw pRegions :
  map draw_coords
    (draws (events_of (copy_image_regions cmd src dst raw pRegions)))
  = flat_map (fun region =>
                map (copy_image_expected raw region)
                  (seq 0 (region_layers region))) pRegions.
Proof.
  unfold copy_image_regions. cbv zeta. msteps.
  rewrite !draw_coords_app, set_src_for_img_draws. simpl. rewrite app_nil_r.
  apply (for_each_flat_inv (fun t => map draw_coords (draws t)) eq_refl
           draw_coords_app (fun _ => True)); [|exact I].
  intros region m _ _. split; [exact I|]. apply copy_image_region_coords.
Qed.

(** X5: every layer of every region of an accepted image copy is drawn once, in
    order: layer j of a region reads source layer (slice + z + j) and writes
    destination layer (slice + z + j) at the region's mip levels; x, y, width
    and height are those of the region, divided by the block width of the raw
    format when the two images have the same format. *)
Theorem copy_image_draw_coords (cmd : intel_cmd) (src dst : intel_img)
    (pRegions : list VkImageCopy) :
  img_type src = img_type dst ->
  (layout_format (img_layout src) = layout_format (img_layout dst) ->
   map draw_coords (draws (events_of (vkCmdCopyImage cmd src dst pRegions)))
   = flat_map (fun region =>
                 map (copy_image_expected
                        (Some (checked_value
                                 (cmd_meta_img_raw_format cmd
                                    (layout_format (img_layout src)))))
                        region)
                   (seq 0 (region_layers region))) pRegions)
  /\ (layout_format (img_layout src) <> layout_format (img_layout dst) ->
      icd_format_is_compressed (layout_format (img_layout src)) = false ->
      icd_format_is_compressed (layout_format (img_layout dst)) = false ->
      map draw_coords (draws (events_of (vkCmdCopyImage cmd src dst pRegions)))
      = flat_map (fun region =>
                    map (copy_image_expected None region)
                      (seq 0 (region_layers region))) pRegions).
Proof.
  intros Ht. unfold vkCmdCopyImage.
  destruct (VkImageType_eq_dec _ _) as [_|N]; [|contradiction].
  split.
  - intros Hf. destruct (VkFormat_eq_dec _ _) as [_|N]; [|contradiction].
    msteps. rewrite draw_coords_app, run_checked_draws, value_run_checked.
    apply copy_image_regions_coords.
  - intros Hf Hs Hd. destruct (VkFormat_eq_dec _ _) as [E|_]; [contradiction|].
    rewrite Hs, Hd. simpl. apply copy_image_regions_coords.
Qed.

End CopyImageCoords.

(** On the sample platform: a raw copy within a block-compressed image and a
    copy between two uncompressed formats, each two layers deep from layer 1
    to layer 2, of a 16x16 region at (8, 4). *)
Lemma copy_image_draw_coords_witness :
  map draw_coords
    (draws (events_of
       (vkCmdCopyImage Sample.cmd7 Sample.bc1_img Sample.bc1_img
          [layered_copy])))
  = [((0, 1, 8, 4), (1, 2, 0, 0), (16, 16));
     ((0, 2, 8, 4), (1, 3, 0, 0), (16, 16))]
  /\ map draw_coords
       (draws (events_of
          (vkCmdCopyImage Sample.cmd7 (Sample.img2d VK_FORMAT_R32_UINT 1)
             (Sample.img2d VK_FORMAT_R8G8B8A8_UINT 1) [layered_copy])))
     = [((0, 1, 8, 4), (1, 2, 0, 0), (16, 16));
        ((0, 2, 8, 4), (1, 3, 0, 0), (16, 16))].
Proof.
  split.
  - exact (proj1 (copy_image_draw_coords Sample.cmd7 Sample.bc1_img
                    Sample.bc1_img [layered_copy] eq_refl) eq_refl).
  - refine (proj2 (copy_image_draw_coords Sample.cmd7
                     (Sample.img2d VK_FORMAT_R32_UINT 1)
                     (Sample.img2d VK_FORMAT_R8G8B8A8_UINT 1) [layered_copy]
                     eq_refl)
              _ eq_refl eq_refl).
    discriminate.
Defined.

(** ** Copies between buffers and images *)

Lemma to_img_draw_app t1 t2 :
  map to_img_draw (draws (t1 ++ t2))
  = map to_img_draw (draws t1) ++ map to_img_draw (draws t2).
Proof. rewrite draws_app, map_app. reflexivity. Qed.

Lemma to_mem_draw_app t1 t2 :
  map to_mem_draw (draws (t1 ++ t2))
  = map to_mem_draw (draws t1) ++ map to_mem_draw (draws t2).
Proof. rewrite draws_app, map_app. reflexivity. Qed.

Lemma u32_advance a k wh :
  u32 (u32 (a + Z.of_nat k * wh) + u32 wh)
  = u32 (a + Z.of_nat (Datatypes.S k) * wh).
Proof.
  rewrite u32_add_r, u32_add_l, Nat2Z.inj_succ. f_equal. unfold Z.succ. ring.
Qed.

Lemma u32_next a k :
  u32 (u32 (a + Z.of_nat k) + 1) = u32 (a + Z.of_nat (Datatypes.S k)).
Proof. rewrite u32_add_l, Nat2Z.inj_succ. f_equal. lia. Qed.

Section BufferImageCopies.

Context {X : externals}.

Lemma copy_mem_to_img_layer_shape cmd img format meta :
  map to_img_draw (draws (events_of (copy_mem_to_img_layer cmd img format meta)))
  = [to_img_draw meta]
  /\ to_img_draw (fst (copy_mem_to_img_layer cmd img format meta))
     = (draw_kind meta,
        (u32 (m_x (meta_src meta) + u32 (meta_width meta * meta_height meta)),
         (m_lod (meta_dst meta), u32 (m_layer (meta_dst meta) + 1),
          m_x (meta_dst meta), m_y (meta_dst meta)),
         (meta_width meta, meta_height meta))).
Proof.
  unfold copy_mem_to_img_layer.
  destruct (set_dst_for_img_frame cmd img format
              (m_lod (meta_dst meta)) (m_layer (meta_dst meta)) meta)
    as (d & Hd & Hl & Hy & Hx & Hyy).
  pose proof (set_dst_for_img_draws cmd img format
                (m_lod (meta_dst meta)) (m_layer (meta_dst meta)) meta) as Hn.
  destruct (cmd_meta_set_dst_for_img _ _ _ _ _ _) as [m1 e1].
  unfold events_of in *. simpl in Hd, Hn. subst m1. simpl.
  rewrite draws_app, Hn. simpl.
  unfold to_img_draw, draw_kind, surface_coords. simpl.
  rewrite Hl, Hy, Hx, Hyy. split; reflexivity.
Qed.

Lemma copy_buffer_to_image_defined cmd buf img pRegions :
  icd_format_get_size (raw_format_of cmd img) <> 0 ->
  vkCmdCopyBufferToImage cmd buf img pRegions
  = Some (copy_mem_to_img_regions cmd buf img pRegions).
Proof.
  intros Hnz. unfold vkCmdCopyBufferToImage. cbv zeta.
  unfold raw_format_of, checked_value in Hnz.
  apply Z.eqb_neq in Hnz. rewrite Hnz. reflexivity.
Qed.

(** X6: a copy from a buffer to an image divides by the size of the raw
    format of the image and has no result when that size is 0.  For an image
    whose texel size has a raw format of non-zero size, it draws every layer
    of every region once, in order, as a rectangle with the memory-to-image
    shader at the sample count of the image.  Layer j of a region writes
    array layer (slice + z + j) of the region's mip level, at the region's
    offset and size in blocks of the image format, and reads the buffer from
    element bufferOffset / size + j * width * height, in elements of the raw
    format: the layers are packed in the buffer. *)
Theorem copy_buffer_to_image_layers (cmd : intel_cmd) (buf : intel_buf)
    (img : intel_img) (pRegions : list VkBufferImageCopy) :
  (icd_format_get_size (raw_format_of cmd img) = 0 ->
   vkCmdCopyBufferToImage cmd buf img pRegions = None)
  /\ (In (icd_format_get_size (layout_format (img_layout img))) raw_sizes ->
      icd_format_get_size (raw_format_of cmd img) <> 0 ->
      exists m,
        vkCmdCopyBufferToImage cmd buf img pRegions = Some m
        /\ map to_img_draw (draws (events_of m))
           = flat_map
               (fun region =>
                  map (fun j =>
                         ((INTEL_CMD_META_FS_RECT,
                           INTEL_DEV_META_FS_COPY_MEM_TO_IMG, img_samples img),
                          buffer_image_expected
                            (icd_format_get_size (raw_format_of cmd img))
                            (u32 (icd_format_get_block_width
                                    (layout_format (img_layout img))))
                            region j))
                    (seq 0 (buffer_image_layers region)))
               pRegions).
Proof.
  split.
  { intros Hz. unfold vkCmdCopyBufferToImage. cbv zeta.
    unfold raw_format_of, checked_value in Hz. rewrite Hz. reflexivity. }
  intros _ Hnz. eexists.
  split; [apply copy_buffer_to_image_defined; exact Hnz|].
  unfold copy_mem_to_img_regions. cbv zeta. msteps.
  rewrite !to_img_draw_app, run_checked_draws, value_run_checked.
  fold (raw_format_of cmd img).
  match goal with |- context [cmd_meta_set_src_for_buf ?c ?b ?f ?m] =>
    destruct (set_src_for_buf_frame c b f m) as (d & Hd & _);
    rewrite (proj1 (set_src_for_buf_quiet c b f m)), Hd
  end.
  simpl. rewrite app_nil_r.
  apply (for_each_flat_inv (fun t => map to_img_draw (draws t)) eq_refl
           to_img_draw_app
           (fun m => draw_kind m
                     = (INTEL_CMD_META_FS_RECT,
                        INTEL_DEV_META_FS_COPY_MEM_TO_IMG, img_samples img)));
    [|reflexivity].
  intros region m _ Hm.
  match goal with |- context [repeat_loop ?n ?b ?m0] =>
    set (body := b); set (meta0 := m0)
  end.
  split.
  - apply (repeat_loop_inv
             (fun m => draw_kind m
                       = (INTEL_CMD_META_FS_RECT,
                          INTEL_DEV_META_FS_COPY_MEM_TO_IMG, img_samples img))
             (fun _ => True) I (fun _ _ _ _ => I)); [|exact Hm].
    intros s Hs. split; [|exact I].
    destruct (copy_mem_to_img_layer_shape cmd img (raw_format_of cmd img) s)
      as [_ Hr].
    unfold to_img_draw in Hr. apply (f_equal fst) in Hr. cbn [fst] in Hr.
    subst body. rewrite Hr. exact Hs.
  - set (expected := fun k =>
           ((INTEL_CMD_META_FS_RECT, INTEL_DEV_META_FS_COPY_MEM_TO_IMG,
             img_samples img),
            buffer_image_expected
              (icd_format_get_size (raw_format_of cmd img))
              (u32 (icd_format_get_block_width
                      (layout_format (img_layout img))))
              region k)).
    rewrite (repeat_loop_flat_ix (fun t => map to_img_draw (draws t)) eq_refl
               to_img_draw_app
               (fun k s => to_img_draw s = expected k)
               (fun k => [expected k]));
      [apply flat_map_singleton | | ]; subst expected; cbv beta.
    + intros k s _ Hs. subst body.
      destruct (copy_mem_to_img_layer_shape cmd img (raw_format_of cmd img) s)
        as [Hd' Hr].
      rewrite Hd', Hr, Hs. split; [|reflexivity].
      unfold to_img_draw in Hs.
      pose proof (f_equal fst Hs) as Hk. pose proof (f_equal snd Hs) as Hc.
      cbn [fst snd] in Hk, Hc. rewrite Hk.
      unfold surface_coords, buffer_image_expected in Hc. cbv zeta in Hc.
      injection Hc as H1 H2 H3 H4 H5 H6 H7.
      rewrite H1, H2, H3, H4, H5, H6, H7.
      unfold buffer_image_expected. cbv zeta.
      rewrite u32_advance, u32_next. reflexivity.
    + subst meta0. unfold to_img_draw, surface_coords, buffer_image_expected.
      unfold draw_kind in Hm. injection Hm as Hmode Hsh Hsa.
      unfold draw_kind. simpl. rewrite Hmode, Hsh, Hsa.
      rewrite ?Z.mul_0_l, ?Z.add_0_r. reflexivity.
Qed.

Lemma copy_img_to_mem_layer_shape cmd meta :
  draws (events_of (copy_img_to_mem_layer cmd meta)) = [meta]
  /\ buf_view_requests (events_of (copy_img_to_mem_layer cmd meta)) = []
  /\ to_mem_draw (fst (copy_img_to_mem_layer cmd meta))
     = (draw_kind meta,
        (u32 (m_x (meta_dst meta) + u32 (meta_width meta * meta_height meta)),
         (m_lod (meta_src meta), u32 (m_layer (meta_src meta) + 1),
          m_x (meta_src meta), m_y (meta_src meta)),
         (meta_width meta, meta_height meta))).
Proof. repeat split. Qed.

Lemma set_src_for_img_no_buf_request cmd img format aspect meta :
  buf_view_requests
    (events_of (cmd_meta_set_src_for_img cmd img format aspect meta)) = [].
Proof.
  unfold cmd_meta_set_src_for_img, cmd_fail, emit, bind, ret, events_of.
  destruct (intel_img_view_create _ _) as [res view].
  destruct (VkResult_eq_dec res VK_SUCCESS); reflexivity.
Qed.

(** The loop of vkCmdCopyImageToBuffer, from variables of a known kind. *)
Lemma copy_img_to_mem_regions cmd kind elem_size block_width pRegions meta :
  draw_kind meta = kind ->
  let t :=
    events_of
      (for_each pRegions
         (fun region meta =>
            let meta := upd_src (set_lod
                          (sub_mipLevel (bic_imageSubresource region))) meta in
            let meta := upd_src (set_layer
                          (u32 (sub_arraySlice (bic_imageSubresource region)
                                + off_z (bic_imageOffset region)))) meta in
            let meta := upd_src (set_x
                          (u32 (off_x (bic_imageOffset region)) / block_width))
                          meta in
            let meta := upd_src (set_y
                          (u32 (off_y (bic_imageOffset region)) / block_width))
                          meta in
            let meta := upd_dst (set_x
                          (u32 (bic_bufferOffset region / elem_size))) meta in
            let meta := set_width
                          (u32 (ext_width (bic_imageExtent region)) / block_width)
                          meta in
            let meta := set_height
                          (u32 (ext_height (bic_imageExtent region)) / block_width)
                          meta in
            repeat_loop (Z.to_nat (u32 (ext_depth (bic_imageExtent region))))
              (copy_img_to_mem_layer cmd) meta)
         meta) in
  map to_mem_draw (draws t)
  = flat_map
      (fun region =>
         map (fun j =>
                (kind, buffer_image_expected elem_size block_width region j))
           (seq 0 (buffer_image_layers region)))
      pRegions
  /\ buf_view_requests t = [].
Proof.
  intros Hk t. subst t. split.
  - apply (for_each_flat_inv (fun t => map to_mem_draw (draws t)) eq_refl
             to_mem_draw_app (fun m => draw_kind m = kind)); [|exact Hk].
    intros region m _ Hm. cbv zeta.
    match goal with |- context [repeat_loop ?n ?b ?m0] => set (meta0 := m0) end.
    split.
    + apply (repeat_loop_inv (fun m => draw_kind m = kind)
               (fun _ => True) I (fun _ _ _ _ => I)); [|exact Hm].
      intros s Hs. split; [exact Hs | exact I].
    + set (expected := fun k =>
             (kind, buffer_image_expected elem_size block_width region k)).
      rewrite (repeat_loop_flat_ix (fun t => map to_mem_draw (draws t)) eq_refl
                 to_mem_draw_app
                 (fun k s => to_mem_draw s = expected k)
                 (fun k => [expected k]));
        [apply flat_map_singleton | | ]; subst expected; cbv beta.
      * intros k s _ Hs.
        destruct (copy_img_to_mem_layer_shape cmd s) as (Hd' & _ & Hr).
        rewrite Hd', Hr. cbn [map]. rewrite Hs. split; [|reflexivity].
        unfold to_mem_draw in Hs.
        pose proof (f_equal fst Hs) as Hk'. pose proof (f_equal snd Hs) as Hc.
        cbn [fst snd] in Hk', Hc. rewrite Hk'.
        unfold surface_coords, buffer_image_expected in Hc. cbv zeta in Hc.
        injection Hc as H1 H2 H3 H4 H5 H6 H7.
        rewrite H1, H2, H3, H4, H5, H6, H7.
        unfold buffer_image_expected. cbv zeta.
        rewrite u32_advance, u32_next. reflexivity.
      * rewrite <- Hm. subst meta0.
        unfold to_mem_draw, draw_kind, surface_coords, buffer_image_expected.
        simpl. rewrite ?Z.mul_0_l, ?Z.add_0_r. reflexivity.
  - apply (for_each_inv (fun _ => True) (fun t => buf_view_requests t = []));
      [reflexivity | | | exact I].
    + intros t1 t2 H1 H2. rewrite buf_view_requests_app, H1, H2. reflexivity.
    + intros region m _ _. cbv zeta.
      apply (repeat_loop_inv (fun _ => True)
               (fun t => buf_view_requests t = [])); [reflexivity | | | exact I].
      * intros t1 t2 H1 H2. rewrite buf_view_requests_app, H1, H2. reflexivity.
      * intros s _. split; [exact I | reflexivity].
Qed.

Lemma to_mem_supported cmd img :
  ~ to_mem_unsupported cmd img ->
  In (icd_format_get_size (layout_format (img_layout img))) raw_sizes
  /\ (cmd_gen cmd =? INTEL_GEN 6)
     && (icd_format_get_size (raw_format_of cmd img) <? 4) = false.
Proof.
  intros Hn. unfold to_mem_unsupported in Hn. split.
  - destruct (in_dec Z.eq_dec
                (icd_format_get_size (layout_format (img_layout img)))
                raw_sizes) as [Hi|Hi]; [exact Hi | tauto].
  - destruct (Z.eqb_spec (cmd_gen cmd) (INTEL_GEN 6)) as [He|He];
      [|reflexivity].
    destruct (Z.ltb_spec (icd_format_get_size (raw_format_of cmd img)) 4)
      as [Hl|Hl]; [tauto | reflexivity].
Qed.

(** X7: a copy from an image to a buffer that the device can serve draws every
    layer of every region once, in order, as points at one sample, with the
    shader of the image's texel size (1, 2, 4, 8 or 16 bytes).  Layer j of a
    region reads array layer (slice + z + j) of the region's mip level and
    writes the buffer from element bufferOffset / size + j * width * height,
    in elements of the raw format; offsets and sizes in the image are in
    blocks of the raw format.  The buffer is bound once, with a four-byte
    stride format for texels of one or two bytes and a sixteen-byte one
    otherwise. *)
Theorem copy_image_to_buffer_layers (cmd : intel_cmd) (img : intel_img)
    (buf : intel_buf) (pRegions : list VkBufferImageCopy) :
  ~ to_mem_unsupported cmd img ->
  map to_mem_draw
    (draws (events_of (vkCmdCopyImageToBuffer cmd img buf pRegions)))
  = flat_map
      (fun region =>
         map (fun j =>
                ((INTEL_CMD_META_VS_POINTS,
                  to_mem_shader
                    (icd_format_get_size (layout_format (img_layout img))),
                  1),
                 buffer_image_expected
                   (icd_format_get_size (raw_format_of cmd img))
                   (u32 (icd_format_get_block_width (raw_format_of cmd img)))
                   region j))
           (seq 0 (buffer_image_layers region)))
      pRegions
  /\ map request_key
       (buf_view_requests
          (events_of (vkCmdCopyImageToBuffer cmd img buf pRegions)))
     = [(Some buf,
         to_mem_buf_format
           (icd_format_get_size (layout_format (img_layout img))))].
Proof.
  intros Hn. destruct (to_mem_supported cmd img Hn) as [Hin Hgen].
  unfold vkCmdCopyImageToBuffer. cbv zeta. msteps.
  rewrite !to_mem_draw_app, !buf_view_requests_app, run_checked_draws,
    value_run_checked.
  fold (raw_format_of cmd img).
  replace (buf_view_requests
             (events_of
                (run_checked
                   (cmd_meta_img_raw_format cmd
                      (layout_format (img_layout img)))))) with
    (@nil VkBufferViewCreateInfo)
    by (destruct (cmd_meta_img_raw_format _ _); reflexivity).
  revert Hgen. unfold raw_format_of, cmd_meta_img_raw_format.
  unfold raw_sizes in Hin. simpl in Hin.
  destruct Hin as [<-|[<-|[<-|[<-|[<-|[]]]]]]; cbn [checked_value];
    intros Hgen;
    (destruct (VkFormat_eq_dec _ VK_FORMAT_UNDEFINED) as [E|_];
       [discriminate E|]);
    cbn [orb]; rewrite Hgen; msteps;
    rewrite !to_mem_draw_app, !buf_view_requests_app, !map_app,
      set_src_for_img_draws, set_src_for_img_no_buf_request,
      set_dst_for_buf_request;
    match goal with |- context [cmd_meta_set_dst_for_buf ?c ?b ?f ?m] =>
      rewrite (proj1 (set_dst_for_buf_quiet c b f m));
      destruct (set_dst_for_buf_frame c b f m) as (d & -> & _)
    end;
    match goal with |- context [cmd_meta_set_src_for_img ?c ?i ?f ?a ?m] =>
      destruct (set_src_for_img_frame c i f a m) as (d' & -> & _)
    end;
    match goal with |- context [for_each pRegions ?b ?m] =>
      match goal with
      |- context [(_, to_mem_shader ?size, _, buffer_image_expected ?e ?w _ _)] =>
        destruct (copy_img_to_mem_regions cmd
                    (INTEL_CMD_META_VS_POINTS, to_mem_shader size, 1)
                    e w pRegions m eq_refl) as [Hd Hq]
      end
    end;
    cbv zeta in Hd, Hq; simpl; rewrite ?app_nil_r;
    (split; [exact Hd | rewrite Hq; reflexivity]).
Qed.

(** X8: a copy from an image to a buffer that the device cannot serve reports
    VK_ERROR_UNKNOWN once and does nothing else: no draw, no view requested. *)
Theorem copy_image_to_buffer_unsupported (cmd : intel_cmd) (img : intel_img)
    (buf : intel_buf) (pRegions : list VkBufferImageCopy) :
  to_mem_unsupported cmd img ->
  draws (events_of (vkCmdCopyImageToBuffer cmd img buf pRegions)) = []
  /\ fails (events_of (vkCmdCopyImageToBuffer cmd img buf pRegions))
     = [VK_ERROR_UNKNOWN]
  /\ buf_view_requests (events_of (vkCmdCopyImageToBuffer cmd img buf pRegions))
     = []
  /\ img_view_requests (events_of (vkCmdCopyImageToBuffer cmd img buf pRegions))
     = [].
Proof.
  unfold to_mem_unsupported, raw_format_of, vkCmdCopyImageToBuffer,
    cmd_meta_img_raw_format, raw_sizes.
  intros [Hn | [Hg Hs]].
  - destruct (icd_format_get_size (layout_format (img_layout img)))
      as [|p|p]; [repeat split | | repeat split].
    do 5 (try destruct p as [p|p|]); try (repeat split; fail);
      exfalso; apply Hn; simpl; tauto.
  - apply Z.eqb_eq in Hg. apply Z.ltb_lt in Hs. revert Hs.
    destruct (icd_format_get_size (layout_format (img_layout img)))
      as [|p|p]; [repeat split | | repeat split].
    do 5 (try destruct p as [p|p|]); try (repeat split; fail);
      cbn [checked_value]; intros Hs; cbv zeta; msteps;
      cbn [run_checked ret fst snd events_of];
      (destruct (VkFormat_eq_dec _ VK_FORMAT_UNDEFINED) as [E|_];
         [discriminate E|]);
      cbn [orb]; rewrite Hg, Hs; repeat split.
Qed.

End BufferImageCopies.

(** On the sample platform, generation 7: two layers of four-byte texels
    from layer 1, to byte 64 of the buffer. *)
Lemma copy_image_to_buffer_layers_witness :
  map to_mem_draw
    (draws (events_of
       (vkCmdCopyImageToBuffer Sample.cmd7
          (Sample.img2d VK_FORMAT_R8G8B8A8_UINT 1) Sample.buf_b
          [buffer_image_copy 64 1 2])))
  = [((INTEL_CMD_META_VS_POINTS, INTEL_DEV_META_VS_COPY_R32_TO_MEM, 1),
      (16, (0, 1, 8, 4), (16, 8)));
     ((INTEL_CMD_META_VS_POINTS, INTEL_DEV_META_VS_COPY_R32_TO_MEM, 1),
      (144, (0, 2, 8, 4), (16, 8)))]
  /\ map request_key
       (buf_view_requests (events_of
          (vkCmdCopyImageToBuffer Sample.cmd7
             (Sample.img2d VK_FORMAT_R8G8B8A8_UINT 1) Sample.buf_b
             [buffer_image_copy 64 1 2])))
     = [(Some Sample.buf_b, VK_FORMAT_R32G32B32A32_UINT)].
Proof.
  refine (copy_image_to_buffer_layers Sample.cmd7
            (Sample.img2d VK_FORMAT_R8G8B8A8_UINT 1) Sample.buf_b
            [buffer_image_copy 64 1 2] _).
  intros [H | [H _]].
  - apply H. simpl. tauto.
  - discriminate H.
Defined.

(** On the sample platform, generation 6: one-byte texels are refused. *)
Lemma copy_image_to_buffer_unsupported_witness :
  draws (events_of
    (vkCmdCopyImageToBuffer Sample.cmd6 (Sample.img2d VK_FORMAT_R8_UINT 1)
       Sample.buf_b [buffer_image_copy 64 1 2])) = []
  /\ fails (events_of
       (vkCmdCopyImageToBuffer Sample.cmd6 (Sample.img2d VK_FORMAT_R8_UINT 1)
          Sample.buf_b [buffer_image_copy 64 1 2])) = [VK_ERROR_UNKNOWN]
  /\ buf_view_requests (events_of
       (vkCmdCopyImageToBuffer Sample.cmd6 (Sample.img2d VK_FORMAT_R8_UINT 1)
          Sample.buf_b [buffer_image_copy 64 1 2])) = []
  /\ img_view_requests (events_of
       (vkCmdCopyImageToBuffer Sample.cmd6 (Sample.img2d VK_FORMAT_R8_UINT 1)
          Sample.buf_b [buffer_image_copy 64 1 2])) = [].
Proof.
  apply (copy_image_to_buffer_unsupported Sample.cmd6
           (Sample.img2d VK_FORMAT_R8_UINT 1) Sample.buf_b
           [buffer_image_copy 64 1 2]).
  right. split; [reflexivity | vm_compute; reflexivity].
Defined.

(** ** Image clears: what every draw carries *)

Lemma Forall_draws_app (P : intel_cmd_meta -> Prop) t1 t2 :
  Forall P (draws t1) -> Forall P (draws t2) -> Forall P (draws (t1 ++ t2)).
Proof. intros H1 H2. rewrite draws_app. apply Forall_app. tauto. Qed.

Lemma clear_kept_refl meta : clear_kept meta meta.
Proof. repeat split. Qed.

Lemma clear_kept_trans a b c : clear_kept a b -> clear_kept b c -> clear_kept a c.
Proof. unfold clear_kept. intuition congruence. Qed.

Section ClearDraws.

Context {X : externals}.

Lemma clear_image_layer_kept cmd img format range meta :
  exists m1,
    draws (events_of (clear_image_layer cmd img format range meta)) = [m1]
    /\ clear_kept meta m1
    /\ m_lod (meta_dst m1) = m_lod (meta_dst meta)
    /\ meta_width m1 = meta_width meta /\ meta_height m1 = meta_height meta
    /\ ds_state_set range m1
    /\ clear_kept meta (fst (clear_image_layer cmd img format range meta))
    /\ m_lod (meta_dst (fst (clear_image_layer cmd img format range meta)))
       = m_lod (meta_dst meta)
    /\ meta_width (fst (clear_image_layer cmd img format range meta))
       = meta_width meta
    /\ meta_height (fst (clear_image_layer cmd img format range meta))
       = meta_height meta.
Proof.
  unfold clear_image_layer, ds_state_set.
  destruct (VkImageAspect_eq_dec (range_aspect range) VK_IMAGE_ASPECT_COLOR)
    as [Ec|Ec].
  - destruct (set_dst_for_img_frame cmd img format
                (m_lod (meta_dst meta)) (m_layer (meta_dst meta)) meta)
      as (d & Hd & Hl & Hy & Hx & Hyy).
    pose proof (set_dst_for_img_draws cmd img format
                  (m_lod (meta_dst meta)) (m_layer (meta_dst meta)) meta) as Hn.
    destruct (cmd_meta_set_dst_for_img _ _ _ _ _ _) as [m1 e1].
    unfold events_of in *. simpl in Hd, Hn. subst m1. simpl.
    rewrite !draws_app, Hn. simpl.
    eexists. split; [reflexivity|]. unfold clear_kept. simpl.
    repeat split; try congruence; contradiction.
  - unfold cmd_meta_set_ds_view, cmd_meta_set_ds_state, cmd_fail, emit,
      cmd_draw_meta, bind, ret, events_of.
    destruct (intel_att_view_create_for_ds _ _) as [res view].
    destruct (VkResult_eq_dec res VK_SUCCESS); simpl;
      (eexists; split; [reflexivity|]; unfold clear_kept; simpl;
       repeat split).
Qed.

Lemma clear_image_level_kept cmd img format range array_size i meta :
  Forall (fun m => clear_kept meta m /\ whole_level img m /\ hiz_gated img m
                   /\ ds_state_set range m)
    (draws (events_of (clear_image_level cmd img format range array_size i meta)))
  /\ clear_kept meta
       (fst (clear_image_level cmd img format range array_size i meta)).
Proof.
  unfold clear_image_level. cbv zeta.
  set (meta1 := set_height _ _).
  assert (Hk1 : clear_kept meta meta1) by (subst meta1; repeat split).
  assert (Hw1 : whole_level img meta1) by (subst meta1; split; reflexivity).
  clearbody meta1.
  destruct (intel_cmd_meta_ds_op_eq_dec (ds_op (meta_ds meta1))
              INTEL_CMD_META_DS_NOP) as [Eop|Eop]; cbn [andb].
  2: destruct (intel_img_can_enable_hiz img (m_lod (meta_dst meta1))) eqn:Ehiz;
       cbn [negb]; [|split; [constructor | exact Hk1]].
  all: assert (Hg : ds_op (meta_ds meta1) <> INTEL_CMD_META_DS_NOP ->
                    intel_img_can_enable_hiz img (m_lod (meta_dst meta1)) = true)
         by (intros; first [contradiction | assumption]).
  all: destruct (repeat_loop_inv
         (fun s => clear_kept meta1 s
                   /\ m_lod (meta_dst s) = m_lod (meta_dst meta1)
                   /\ meta_width s = meta_width meta1
                   /\ meta_height s = meta_height meta1)
         (fun t => Forall (fun m => clear_kept meta m /\ whole_level img m
                                    /\ hiz_gated img m /\ ds_state_set range m)
                     (draws t))
         (Forall_nil _)
         (Forall_draws_app _)
         (Z.to_nat array_size) (clear_image_layer cmd img format range))
       with (s := meta1) as [(Hk & _) Hq];
    [ intros s (Hks & Hls & Hws & Hhs);
      destruct (clear_image_layer_kept cmd img format range s)
        as (m1 & Hd & Hkm & Hlm & Hwm & Hhm & Hds & Hkr & Hlr & Hwr & Hhr);
      rewrite Hd; split;
      [ split; [exact (clear_kept_trans _ _ _ Hks Hkr)|];
        repeat split; congruence
      | constructor; [|constructor];
        split; [exact (clear_kept_trans _ _ _ Hk1 (clear_kept_trans _ _ _ Hks Hkm))|];
        split; [destruct Hw1 as [Hw1 Hh1]; split; congruence|];
        split; [|exact Hds];
        unfold hiz_gated; rewrite Hlm, Hls;
        destruct Hks as (_ & _ & _ & _ & Hop & _);
        destruct Hkm as (_ & _ & _ & _ & Hop' & _);
        rewrite Hop', Hop; exact Hg ]
    | split; [apply clear_kept_refl | repeat split]
    | split; [exact Hq | exact (clear_kept_trans _ _ _ Hk1 Hk)] .. ].
Qed.

Lemma clear_image_kept cmd img format meta range :
  Forall (fun m => clear_kept meta m /\ whole_level img m /\ hiz_gated img m
                   /\ ds_state_set range m)
    (draws (events_of (cmd_meta_clear_image cmd img format meta range)))
  /\ clear_kept meta (fst (cmd_meta_clear_image cmd img format meta range)).
Proof.
  unfold cmd_meta_clear_image.
  destruct (_ || _); [split; [constructor | apply clear_kept_refl]|].
  cbv zeta.
  set (mips := if _ <? _ then _ else _). clearbody mips.
  set (layers := if _ <? _ then _ else _). clearbody layers.
  apply and_comm.
  apply (for_each_inv (fun s => clear_kept meta s)
           (fun t => Forall (fun m => clear_kept meta m /\ whole_level img m
                                      /\ hiz_gated img m /\ ds_state_set range m)
                       (draws t))
           (Forall_nil _) (Forall_draws_app _));
    [|apply clear_kept_refl].
  intros i s _ Hs.
  destruct (clear_image_level_kept cmd img format range layers i s) as [Hd Hk].
  split; [exact (clear_kept_trans _ _ _ Hs Hk)|].
  eapply Forall_impl; [|exact Hd].
  intros m (Hkm & Hrest). split; [exact (clear_kept_trans _ _ _ Hs Hkm)|].
  exact Hrest.
Qed.

End ClearDraws.

Section ClearOperations.

Context {X : externals}.

(** The ranges of a clear, from variables the ranges before left as the
    caller set them. *)
Lemma clear_ranges_kept cmd img format meta
    (pRanges : list VkImageSubresourceRange) :
  Forall (fun m => clear_kept meta m /\ whole_level img m /\ hiz_gated img m
                   /\ exists range, In range pRanges /\ ds_state_set range m)
    (draws (events_of
       (for_each pRanges
          (fun range meta => cmd_meta_clear_image cmd img format meta range)
          meta))).
Proof.
  apply (for_each_inv (fun s => clear_kept meta s)
           (fun t => Forall (fun m => clear_kept meta m /\ whole_level img m
                               /\ hiz_gated img m
                               /\ exists range, In range pRanges
                                                /\ ds_state_set range m)
                       (draws t))
           (Forall_nil _) (Forall_draws_app _));
    [|apply clear_kept_refl].
  intros range s Hin Hs.
  destruct (clear_image_kept cmd img format s range) as [Hd Hk].
  split; [exact (clear_kept_trans _ _ _ Hs Hk)|].
  eapply Forall_impl; [|exact Hd].
  intros m (Hkm & Hw & Hg & Hds).
  split; [exact (clear_kept_trans _ _ _ Hs Hkm)|].
  split; [exact Hw|]. split; [exact Hg|].
  exists range. split; assumption.
Qed.

Lemma color_clear_draws (cmd : intel_cmd) (img : intel_img)
    (imageLayout : VkImageLayout) (pClearColor : list Z)
    (pRanges : list VkImageSubresourceRange) :
  Forall (color_clear_draw img pClearColor)
    (draws (events_of
       (cmd_meta_clear_color_image cmd img imageLayout pClearColor pRanges))).
Proof.
  unfold cmd_meta_clear_color_image. cbv zeta. msteps.
  rewrite draws_app. simpl. rewrite app_nil_r.
  eapply Forall_impl; [|apply clear_ranges_kept].
  intros m ((Hmode & Hsh & Hsa & Hcv & _ & _ & Hx & Hy) & Hw & _).
  unfold color_clear_draw, draw_kind, from_origin.
  rewrite Hmode, Hsh, Hsa, Hcv, Hx, Hy. repeat split; apply Hw.
Qed.

Lemma depth_clear_draws (cmd : intel_cmd) (img : intel_img)
    (imageLayout : VkImageLayout) (depth : c_float) (stencil : Z)
    (pRanges : list VkImageSubresourceRange) :
  Forall (depth_clear_draw img imageLayout depth stencil)
    (draws (events_of
       (cmd_meta_clear_depth_stencil_image cmd img imageLayout depth stencil
          pRanges)))
  /\ (Forall (fun range => range_aspect range <> VK_IMAGE_ASPECT_COLOR)
        pRanges ->
      Forall (fun m => In (ds_aspect (meta_ds m)) (map range_aspect pRanges)
                       /\ ds_stencil_ref (meta_ds m) = stencil)
        (draws (events_of
           (cmd_meta_clear_depth_stencil_image cmd img imageLayout depth
              stencil pRanges)))).
Proof.
  unfold cmd_meta_clear_depth_stencil_image. cbv zeta. msteps.
  rewrite draws_app. simpl draws at 2 4. rewrite app_nil_r.
  match goal with |- context [for_each pRanges ?b ?m] =>
    set (meta0 := m);
    pose proof (clear_ranges_kept cmd img (layout_format (img_layout img))
                  meta0 pRanges) as H
  end.
  assert (H0 : draw_kind meta0
               = (INTEL_CMD_META_DEPTH_STENCIL_RECT,
                  INTEL_DEV_META_FS_CLEAR_DEPTH, img_samples img)
               /\ word 0 (meta_clear_val meta0) = u_fui depth
               /\ word 1 (meta_clear_val meta0) = stencil
               /\ ds_op (meta_ds meta0) = INTEL_CMD_META_DS_NOP
               /\ ds_optimal (meta_ds meta0) = optimal_layout imageLayout
               /\ from_origin meta0).
  { subst meta0. destruct imageLayout; repeat split. }
  clearbody meta0.
  destruct H0 as (Hkind & Hd & Hs & Hop & Hopt & Hx0 & Hy0).
  split.
  - eapply Forall_impl; [|exact H].
    intros m ((Hmode & Hsh & Hsa & Hcv & Hop' & Hopt' & Hx & Hy) & Hw & _).
    unfold depth_clear_draw, draw_kind, from_origin.
    rewrite Hmode, Hsh, Hsa, Hcv, Hop', Hopt', Hx, Hy.
    repeat split; try assumption; apply Hw.
  - intros Hall. eapply Forall_impl; [|exact H].
    intros m ((_ & _ & _ & Hcv & _) & _ & _ & range & Hin & Hds).
    rewrite Forall_forall in Hall.
    destruct (Hds (Hall range Hin)) as [Ha Hr].
    split.
    + rewrite Ha. apply in_map. exact Hin.
    + rewrite Hr, Hcv. exact Hs.
Qed.

(** X9: every draw of a color clear is a rectangle with the color-clear shader
    at the sample count of the image, carries the four clear values, and
    covers the whole of the mip level it targets, from the origin. *)
Theorem clear_color_image_draws (cmd : intel_cmd) (img : intel_img)
    (imageLayout : VkImageLayout) (pClearColor : list Z)
    (pRanges : list VkImageSubresourceRange) :
  Forall (color_clear_draw img pClearColor)
    (draws (events_of
       (vkCmdClearColorImage cmd img imageLayout pClearColor pRanges))).
Proof.
  unfold vkCmdClearColorImage.
  unfold cmd_meta_clear_color_image. cbv zeta. msteps.
  rewrite draws_app. simpl. rewrite app_nil_r.
  eapply Forall_impl; [|apply clear_ranges_kept].
  intros m ((Hmode & Hsh & Hsa & Hcv & _ & _ & Hx & Hy) & Hw & _).
  unfold color_clear_draw, draw_kind, from_origin.
  rewrite Hmode, Hsh, Hsa, Hcv, Hx, Hy. repeat split; apply Hw.
Qed.

(** X10: every draw of a depth/stencil clear is a depth/stencil rectangle with
    the depth-clear shader: the first clear value is the bits of the depth,
    the second the stencil; it carries no HiZ operation, is marked optimal
    exactly in the two depth/stencil layouts, and covers the whole of the mip
    level it targets.  When no range is a color range, each draw has the
    aspect of one of the ranges and the stencil as stencil reference. *)
Theorem clear_depth_stencil_image_draws (cmd : intel_cmd) (img : intel_img)
    (imageLayout : VkImageLayout) (depth : c_float) (stencil : Z)
    (pRanges : list VkImageSubresourceRange) :
  Forall (depth_clear_draw img imageLayout depth stencil)
    (draws (events_of
       (vkCmdClearDepthStencilImage cmd img imageLayout depth stencil
          pRanges)))
  /\ (Forall (fun range => range_aspect range <> VK_IMAGE_ASPECT_COLOR)
        pRanges ->
      Forall (fun m => In (ds_aspect (meta_ds m)) (map range_aspect pRanges)
                       /\ ds_stencil_ref (meta_ds m) = stencil)
        (draws (events_of
           (vkCmdClearDepthStencilImage cmd img imageLayout depth
              stencil pRanges)))).
Proof.
  unfold vkCmdClearDepthStencilImage.
  unfold cmd_meta_clear_depth_stencil_image. cbv zeta. msteps.
  rewrite draws_app. simpl draws at 2 4. rewrite app_nil_r.
  match goal with |- context [for_each pRanges ?b ?m] =>
    set (meta0 := m);
    pose proof (clear_ranges_kept cmd img (layout_format (img_layout img))
                  meta0 pRanges) as H
  end.
  assert (H0 : draw_kind meta0
               = (INTEL_CMD_META_DEPTH_STENCIL_RECT,
                  INTEL_DEV_META_FS_CLEAR_DEPTH, img_samples img)
               /\ word 0 (meta_clear_val meta0) = u_fui depth
               /\ word 1 (meta_clear_val meta0) = stencil
               /\ ds_op (meta_ds meta0) = INTEL_CMD_META_DS_NOP
               /\ ds_optimal (meta_ds meta0) = optimal_layout imageLayout
               /\ from_origin meta0).
  { subst meta0. destruct imageLayout; repeat split. }
  clearbody meta0.
  destruct H0 as (Hkind & Hd & Hs & Hop & Hopt & Hx0 & Hy0).
  split.
  - eapply Forall_impl; [|exact H].
    intros m ((Hmode & Hsh & Hsa & Hcv & Hop' & Hopt' & Hx & Hy) & Hw & _).
    unfold depth_clear_draw, draw_kind, from_origin.
    rewrite Hmode, Hsh, Hsa, Hcv, Hop', Hopt', Hx, Hy.
    repeat split; try assumption; apply Hw.
  - intros Hall. eapply Forall_impl; [|exact H].
    intros m ((_ & _ & _ & Hcv & _) & _ & _ & range & Hin & Hds).
    rewrite Forall_forall in Hall.
    destruct (Hds (Hall range Hin)) as [Ha Hr].
    split.
    + rewrite Ha. apply in_map. exact Hin.
    + rewrite Hr, Hcv. exact Hs.
Qed.

(** X11: a HiZ operation does nothing on an image without a HiZ buffer or on a
    range that is not a depth range.  Otherwise each of its draws is a
    depth/stencil rectangle of the depth aspect, marked optimal, that carries
    the operation and covers a whole mip level; an operation other than the
    no-op only draws to the levels of the image that can have HiZ. *)
Theorem ds_op_gated (cmd : intel_cmd) (op : intel_cmd_meta_ds_op)
    (img : intel_img) (range : VkImageSubresourceRange) :
  (layout_aux (img_layout img) <> INTEL_LAYOUT_AUX_HIZ
   \/ range_aspect range <> VK_IMAGE_ASPECT_DEPTH ->
   cmd_meta_ds_op cmd op img range = (tt, []))
  /\ Forall (fun m =>
               meta_mode m = INTEL_CMD_META_DEPTH_STENCIL_RECT
               /\ meta_samples m = img_samples img
               /\ ds_op (meta_ds m) = op
               /\ ds_optimal (meta_ds m) = true
               /\ ds_aspect (meta_ds m) = VK_IMAGE_ASPECT_DEPTH
               /\ whole_level img m
               /\ (op <> INTEL_CMD_META_DS_NOP ->
                   intel_img_can_enable_hiz img (m_lod (meta_dst m)) = true))
       (draws (events_of (cmd_meta_ds_op cmd op img range))).
Proof.
  unfold cmd_meta_ds_op. split.
  - intros [H|H]; destruct (layout_aux (img_layout img));
      destruct (range_aspect range); try reflexivity; contradiction.
  - destruct (layout_aux (img_layout img)); try constructor.
    destruct (range_aspect range) eqn:Ea; try constructor.
    cbv zeta. msteps. rewrite draws_app. simpl draws at 2. rewrite app_nil_r.
    eapply Forall_impl; [|apply clear_image_kept].
    intros m ((Hmode & _ & Hsa & _ & Hop & Hopt & _) & Hw & Hg & Hds).
    simpl in Hmode, Hsa, Hop, Hopt.
    destruct Hds as [Ha _]; [rewrite Ea; discriminate|].
    rewrite Ea in Ha.
    repeat split; try assumption; try apply Hw.
    intros Hne. apply Hg. rewrite Hop. exact Hne.
Qed.

(** X12: attachment clears take only the depth range of a rectangle: whatever
    its x, y, width and height, every draw covers the whole mip level from
    the origin, with the values of the call. *)
Theorem attachment_clears_whole_level (cmd : intel_cmd)
    (imageAspectMask : VkImageAspectFlags) (imageLayout : VkImageLayout)
    (depth : c_float) (stencil : Z) (colorAttachment : Z) (pColor : list Z)
    (pRects : list VkRect3D) :
  (forall index view,
     nth_error (subpass_color_indices (cmd_bind_render_pass_subpass cmd))
       (Z.to_nat colorAttachment) = Some index ->
     fb_view cmd index = Some view ->
     exists m,
       vkCmdClearColorAttachment cmd colorAttachment imageLayout pColor pRects
       = Some m
       /\ Forall (color_clear_draw (att_view_img view) pColor)
            (draws (events_of m)))
  /\ (forall view,
        fb_view cmd (subpass_ds_index (cmd_bind_render_pass_subpass cmd))
        = Some view ->
        exists m,
          vkCmdClearDepthStencilAttachment cmd imageAspectMask imageLayout
            depth stencil pRects = Some m
          /\ Forall (fun d =>
                       depth_clear_draw (att_view_img view) imageLayout depth
                         stencil d
                       /\ ds_stencil_ref (meta_ds d) = stencil
                       /\ (ds_aspect (meta_ds d) = VK_IMAGE_ASPECT_DEPTH
                           /\ VK_IMAGE_ASPECT_DEPTH_BIT imageAspectMask = true
                           \/ ds_aspect (meta_ds d) = VK_IMAGE_ASPECT_STENCIL
                              /\ VK_IMAGE_ASPECT_STENCIL_BIT imageAspectMask
                                 = true))
               (draws (events_of m))).
Proof.
  split.
  - intros index view Hi Hv. unfold vkCmdClearColorAttachment.
    rewrite Hi, Hv. eexists. split; [reflexivity|].
    apply (for_each_inv (fun _ => True)
             (fun t => Forall (color_clear_draw (att_view_img view) pColor)
                         (draws t))
             (Forall_nil _) (Forall_draws_app _)); [|exact I].
    intros rect s _ _. split; [exact I|]. apply color_clear_draws.
  - intros view Hv. unfold vkCmdClearDepthStencilAttachment.
    rewrite Hv. eexists. split; [reflexivity|].
    apply (for_each_inv (fun _ => True)
             (fun t => Forall _ (draws t))
             (Forall_nil _) (Forall_draws_app _)); [|exact I].
    intros rect s _ _. split; [exact I|]. msteps.
    apply Forall_draws_app.
    + destruct (VK_IMAGE_ASPECT_DEPTH_BIT imageAspectMask) eqn:Eb;
        [|constructor].
      match goal with
      |- context [cmd_meta_clear_depth_stencil_image ?c ?i ?l ?d ?s ?r] =>
        destruct (depth_clear_draws c i l d s r) as [Ha Hb]
      end.
      specialize (Hb ltac:(repeat constructor; discriminate)).
      rewrite Forall_forall in Ha, Hb |- *. intros d Hd.
      split; [exact (Ha d Hd)|]. destruct (Hb d Hd) as [[Hc|[]] Hr].
      split; [exact Hr|]. left. split; [symmetry; exact Hc | reflexivity].
    + destruct (VK_IMAGE_ASPECT_STENCIL_BIT imageAspectMask) eqn:Eb;
        [|constructor].
      match goal with
      |- context [cmd_meta_clear_depth_stencil_image ?c ?i ?l ?d ?s ?r] =>
        destruct (depth_clear_draws c i l d s r) as [Ha Hb]
      end.
      specialize (Hb ltac:(repeat constructor; discriminate)).
      rewrite Forall_forall in Ha, Hb |- *. intros d Hd.
      split; [exact (Ha d Hd)|]. destruct (Hb d Hd) as [[Hc|[]] Hr].
      split; [exact Hr|]. right. split; [symmetry; exact Hc | reflexivity].
Qed.

End ClearOperations.

(** On the sample platform: a depth clear of three levels and four layers. *)
Lemma clear_depth_stencil_image_draws_witness :
  Forall (depth_clear_draw (X := Sample.platform) hiz_img
            VK_IMAGE_LAYOUT_DEPTH_STENCIL_ATTACHMENT_OPTIMAL 5 7)
    (draws (events_of
       (vkCmdClearDepthStencilImage (X := Sample.platform) Sample.cmd7 hiz_img
          VK_IMAGE_LAYOUT_DEPTH_STENCIL_ATTACHMENT_OPTIMAL 5 7 [depth_range])))
  /\ Forall (fun m => In (ds_aspect (meta_ds m))
                        (map range_aspect [depth_range])
                      /\ ds_stencil_ref (meta_ds m) = 7)
       (draws (events_of
          (vkCmdClearDepthStencilImage (X := Sample.platform) Sample.cmd7
             hiz_img VK_IMAGE_LAYOUT_DEPTH_STENCIL_ATTACHMENT_OPTIMAL 5 7
             [depth_range]))).
Proof.
  destruct (clear_depth_stencil_image_draws (X := Sample.platform)
              Sample.cmd7 hiz_img
              VK_IMAGE_LAYOUT_DEPTH_STENCIL_ATTACHMENT_OPTIMAL 5 7
              [depth_range]) as [Ha Hb].
  split; [exact Ha|]. apply Hb. repeat constructor. discriminate.
Defined.

(** On the sample platform: a HiZ clear of an image without HiZ, and of one
    with HiZ, where only level 0 can have it. *)
Lemma ds_op_gated_witness :
  cmd_meta_ds_op Sample.cmd7 INTEL_CMD_META_DS_HIZ_CLEAR
    (Sample.img2d VK_FORMAT_R32_UINT 1) depth_range = (tt, [])
  /\ Forall (fun m => m_lod (meta_dst m) = 0)
       (draws (events_of
          (cmd_meta_ds_op Sample.cmd7 INTEL_CMD_META_DS_HIZ_CLEAR hiz_img
             depth_range)))
  /\ length (draws (events_of
       (cmd_meta_ds_op Sample.cmd7 INTEL_CMD_META_DS_HIZ_CLEAR hiz_img
          depth_range))) = 4%nat.
Proof.
  split; [|split; [|reflexivity]].
  - apply (ds_op_gated Sample.cmd7 INTEL_CMD_META_DS_HIZ_CLEAR
             (Sample.img2d VK_FORMAT_R32_UINT 1) depth_range).
    left. discriminate.
  - eapply Forall_impl;
      [|exact (proj2 (ds_op_gated Sample.cmd7 INTEL_CMD_META_DS_HIZ_CLEAR
                        hiz_img depth_range))].
    intros m (_ & _ & _ & _ & _ & _ & Hg).
    apply Z.eqb_eq. apply Hg. discriminate.
Defined.

(** On the sample platform: a rectangle away from the origin, on the bound
    color and depth/stencil attachments. *)
Lemma attachment_clears_whole_level_witness :
  (exists m,
     vkCmdClearColorAttachment Sample.cmd7 0 (VK_IMAGE_LAYOUT_CODE 0)
       [1; 2; 3; 4] [offset_rect] = Some m
     /\ Forall (color_clear_draw (Sample.img2d VK_FORMAT_R8G8B8A8_UINT 1)
                  [1; 2; 3; 4])
          (draws (events_of m)))
  /\ (exists m,
        vkCmdClearDepthStencilAttachment (X := Sample.platform) Sample.cmd7
          both_aspects (VK_IMAGE_LAYOUT_CODE 0) 5 7 [offset_rect] = Some m
        /\ Forall (fun d => ds_stencil_ref (meta_ds d) = 7)
             (draws (events_of m))).
Proof.
  destruct (attachment_clears_whole_level (X := Sample.platform)
              Sample.cmd7 both_aspects
              (VK_IMAGE_LAYOUT_CODE 0) 5 7 0 [1; 2; 3; 4] [offset_rect])
    as [Hc Hds].
  split.
  - exact (Hc 0 _ eq_refl eq_refl).
  - destruct (Hds _ eq_refl) as (m & Hm & Hall).
    exists m. split; [exact Hm|].
    eapply Forall_impl; [|exact Hall]. intros d (_ & Hr & _). exact Hr.
Defined.

(** ** Views: built and destroyed *)

Lemma destroyed_app t1 t2 : destroyed (t1 ++ t2) = destroyed t1 ++ destroyed t2.
Proof. apply flat_map_app. Qed.

Lemma built_app dev t1 t2 : built dev (t1 ++ t2) = built dev t1 ++ built dev t2.
Proof. apply flat_map_app. Qed.

Lemma balanced_ret {A} dev (a : A) : balanced dev (ret a).
Proof. reflexivity. Qed.

Lemma balanced_bind {A B} dev (m : M A) (k : A -> M B) :
  balanced dev m -> (forall a, balanced dev (k a)) -> balanced dev (bind m k).
Proof.
  unfold balanced. intros Hm Hk.
  rewrite events_bind, destroyed_app, built_app, map_app, Hm, Hk. reflexivity.
Qed.

Lemma balanced_for_each {A S} dev (l : list A) (body : A -> S -> M S) s :
  (forall a s, balanced dev (body a s)) -> balanced dev (for_each l body s).
Proof.
  intros Hb. revert s. induction l as [|a l IH]; intros s; simpl.
  - apply balanced_ret.
  - apply balanced_bind; [apply Hb | exact IH].
Qed.

Lemma balanced_repeat_loop {S} dev (n : nat) (body : S -> M S) s :
  (forall s, balanced dev (body s)) -> balanced dev (repeat_loop n body s).
Proof.
  intros Hb. revert s. induction n as [|n IH]; intros s; simpl.
  - apply balanced_ret.
  - apply balanced_bind; [apply Hb | exact IH].
Qed.

Lemma balanced_run_checked {A} dev (c : checked A) :
  balanced dev (run_checked c).
Proof. destruct c; reflexivity. Qed.

Section Views.

Context {X : externals}.

Ltac binding :=
  unfold balanced, cmd_meta_create_buf_view, cmd_fail, emit, bind, ret,
    events_of;
  match goal with
  | |- context [intel_buf_view_create ?d ?i] =>
      destruct (intel_buf_view_create d i) as [? ?] eqn:?
  | |- context [intel_img_view_create ?d ?i] =>
      destruct (intel_img_view_create d i) as [? ?] eqn:?
  | |- context [intel_att_view_create_for_color ?d ?i] =>
      destruct (intel_att_view_create_for_color d i) as [? ?] eqn:?
  end;
  match goal with
  | |- context [VkResult_eq_dec ?r VK_SUCCESS] =>
      destruct (VkResult_eq_dec r VK_SUCCESS)
  end;
  simpl;
  repeat match goal with H : _ = (_, _) |- _ => rewrite H; clear H end;
  simpl;
  repeat match goal with
         | |- context [VkResult_eq_dec ?r VK_SUCCESS] =>
             destruct (VkResult_eq_dec r VK_SUCCESS); try contradiction
         end;
  reflexivity.

Lemma set_src_for_buf_balanced cmd buf format meta :
  balanced (cmd_dev cmd) (cmd_meta_set_src_for_buf cmd buf format meta).
Proof. unfold cmd_meta_set_src_for_buf. binding. Qed.

Lemma set_dst_for_buf_balanced cmd buf format meta :
  balanced (cmd_dev cmd) (cmd_meta_set_dst_for_buf cmd buf format meta).
Proof. unfold cmd_meta_set_dst_for_buf. binding. Qed.

Lemma set_src_for_writer_balanced cmd writer size format meta :
  balanced (cmd_dev cmd) (cmd_meta_set_src_for_writer cmd writer size format meta).
Proof. unfold cmd_meta_set_src_for_writer. binding. Qed.

Lemma set_src_for_img_balanced cmd img format aspect meta :
  balanced (cmd_dev cmd) (cmd_meta_set_src_for_img cmd img format aspect meta).
Proof. unfold cmd_meta_set_src_for_img. binding. Qed.

Lemma set_dst_for_img_balanced cmd img format lod layer meta :
  balanced (cmd_dev cmd) (cmd_meta_set_dst_for_img cmd img format lod layer meta).
Proof. unfold cmd_meta_set_dst_for_img. binding. Qed.

Ltac balance :=
  repeat first
    [ apply balanced_ret
    | apply set_src_for_buf_balanced
    | apply set_dst_for_buf_balanced
    | apply set_src_for_writer_balanced
    | apply set_src_for_img_balanced
    | apply set_dst_for_img_balanced
    | apply balanced_run_checked
    | apply balanced_bind; [|intros]
    | apply balanced_for_each; intros
    | apply balanced_repeat_loop; intros
    | match goal with
      | |- balanced _ (cmd_draw_meta _ _) => reflexivity
      | |- balanced _ (cmd_fail _ _) => reflexivity
      | |- balanced _ (emit (EvLog _)) => reflexivity
      | |- balanced _ (emit (EvStateBlob _ _ _)) => reflexivity
      | |- balanced _ (if ?c then _ else _) => destruct c
      | |- balanced _ (match ?c with _ => _ end) => destruct c
      end
    | progress cbv zeta
    | progress unfold copy_buffer_region, copy_buffer_draw, copy_image_regions,
        copy_image_region, copy_image_layer, copy_mem_to_img_layer,
        copy_img_to_mem_layer, resolve_slice ].

Lemma copy_buffer_balanced cmd src dst pRegions :
  balanced (cmd_dev cmd) (vkCmdCopyBuffer cmd src dst pRegions).
Proof. unfold vkCmdCopyBuffer. balance. Qed.

Lemma copy_image_balanced cmd src dst pRegions :
  balanced (cmd_dev cmd) (vkCmdCopyImage cmd src dst pRegions).
Proof. unfold vkCmdCopyImage. balance. Qed.

Lemma copy_buffer_to_image_balanced cmd buf img pRegions :
  balanced (cmd_dev cmd) (copy_mem_to_img_regions cmd buf img pRegions).
Proof. unfold copy_mem_to_img_regions. balance. Qed.

Lemma copy_image_to_buffer_balanced cmd img buf pRegions :
  balanced (cmd_dev cmd) (vkCmdCopyImageToBuffer cmd img buf pRegions).
Proof. unfold vkCmdCopyImageToBuffer. balance. Qed.

Lemma update_buffer_balanced cmd dst destOffset dataSize pData :
  balanced (cmd_dev cmd) (vkCmdUpdateBuffer cmd dst destOffset dataSize pData).
Proof. unfold vkCmdUpdateBuffer. balance. Qed.

Lemma fill_buffer_balanced cmd dst destOffset fillSize data :
  balanced (cmd_dev cmd) (vkCmdFillBuffer cmd dst destOffset fillSize data).
Proof. unfold vkCmdFillBuffer. balance. Qed.

Lemma resolve_image_balanced cmd src dst pRegions :
  balanced (cmd_dev cmd) (vkCmdResolveImage cmd src dst pRegions).
Proof. unfold vkCmdResolveImage. balance. Qed.

Lemma clear_image_layer_balanced cmd img format range meta :
  ds_views_ok cmd \/ range_aspect range = VK_IMAGE_ASPECT_COLOR ->
  balanced (cmd_dev cmd) (clear_image_layer cmd img format range meta).
Proof.
  intros H. unfold clear_image_layer.
  destruct (VkImageAspect_eq_dec (range_aspect range) VK_IMAGE_ASPECT_COLOR)
    as [Ec|Ec]; [balance|].
  destruct H as [Hok|Hc]; [|contradiction].
  unfold balanced, cmd_meta_set_ds_view, cmd_meta_set_ds_state, cmd_fail, emit,
    cmd_draw_meta, bind, ret, events_of.
  match goal with |- context [intel_att_view_create_for_ds ?d ?i] =>
    pose proof (Hok i) as Hi;
    destruct (intel_att_view_create_for_ds d i) as [res view] eqn:E
  end.
  simpl in Hi. subst res.
  destruct (VkResult_eq_dec VK_SUCCESS VK_SUCCESS) as [_|N]; [|contradiction].
  simpl. rewrite E. simpl.
  destruct (VkResult_eq_dec VK_SUCCESS VK_SUCCESS) as [_|N]; [|contradiction].
  reflexivity.
Qed.

Lemma clear_image_balanced cmd img format meta range :
  ds_views_ok cmd \/ range_aspect range = VK_IMAGE_ASPECT_COLOR ->
  balanced (cmd_dev cmd) (cmd_meta_clear_image cmd img format meta range).
Proof.
  intros H. unfold cmd_meta_clear_image.
  destruct (_ || _); [apply balanced_ret|]. cbv zeta.
  apply balanced_for_each. intros i s. unfold clear_image_level. cbv zeta.
  match goal with |- context [if ?c then _ else _] => destruct c end;
    [apply balanced_ret|].
  apply balanced_repeat_loop. intros s'.
  apply clear_image_layer_balanced. exact H.
Qed.

Lemma clear_ranges_balanced cmd img format meta pRanges :
  ds_views_ok cmd \/ color_ranges pRanges ->
  balanced (cmd_dev cmd)
    (for_each pRanges
       (fun range meta => cmd_meta_clear_image cmd img format meta range) meta).
Proof.
  intros H. revert meta. induction pRanges as [|range l IH]; intros meta.
  - apply balanced_ret.
  - cbn [for_each]. apply balanced_bind.
    + apply clear_image_balanced. destruct H as [H|H]; [left; exact H|].
      right. inversion H. assumption.
    + apply IH. destruct H as [H|H]; [left; exact H|].
      right. inversion H. assumption.
Qed.

Lemma drawn_without_view_app dev t1 t2 :
  drawn_without_view dev t1 -> drawn_without_view dev t2 ->
  drawn_without_view dev (t1 ++ t2).
Proof.
  unfold drawn_without_view.
  intros (Hb1 & Hd1 & Hf1 & Ha1) (Hb2 & Hd2 & Hf2 & Ha2).
  rewrite built_app, destroyed_app, draws_app, fails_app, map_app,
    !length_app, Hb1, Hb2, Hd1, Hd2, Hf1, Hf2.
  repeat split. apply Forall_app. tauto.
Qed.

Lemma clear_image_layer_without_view cmd img format range meta :
  ds_views_fail cmd ->
  range_aspect range <> VK_IMAGE_ASPECT_COLOR ->
  ds_view (meta_ds meta) = None ->
  ds_view (meta_ds (fst (clear_image_layer cmd img format range meta))) = None
  /\ drawn_without_view (cmd_dev cmd)
       (events_of (clear_image_layer cmd img format range meta))
  /\ length (draws (events_of (clear_image_layer cmd img format range meta)))
     = 1%nat.
Proof.
  intros Hfail Hc Hv. unfold clear_image_layer.
  destruct (VkImageAspect_eq_dec (range_aspect range) VK_IMAGE_ASPECT_COLOR)
    as [Ec|_]; [contradiction|].
  unfold drawn_without_view, cmd_meta_set_ds_view, cmd_meta_set_ds_state,
    cmd_fail, emit, cmd_draw_meta, bind, ret, events_of.
  match goal with |- context [intel_att_view_create_for_ds ?d ?i] =>
    pose proof (Hfail i) as Hi;
    destruct (intel_att_view_create_for_ds d i) as [res view] eqn:E
  end.
  simpl in Hi.
  destruct (VkResult_eq_dec res VK_SUCCESS) as [Es|_]; [contradiction|].
  simpl. rewrite E, Hv. simpl.
  destruct (VkResult_eq_dec res VK_SUCCESS) as [Es|_]; [contradiction|].
  repeat split; try assumption. repeat constructor. simpl. exact Hv.
Qed.

Lemma clear_image_without_view cmd img format meta range :
  ds_views_fail cmd ->
  range_aspect range <> VK_IMAGE_ASPECT_COLOR ->
  ds_view (meta_ds meta) = None ->
  ds_view (meta_ds (fst (cmd_meta_clear_image cmd img format meta range))) = None
  /\ drawn_without_view (cmd_dev cmd)
       (events_of (cmd_meta_clear_image cmd img format meta range)).
Proof.
  intros Hfail Hc Hv. unfold cmd_meta_clear_image.
  destruct (_ || _); [split; [exact Hv | repeat split; constructor]|].
  cbv zeta.
  apply (for_each_inv (fun s => ds_view (meta_ds s) = None)
           (drawn_without_view (cmd_dev cmd))
           ltac:(repeat split; constructor)
           (drawn_without_view_app (cmd_dev cmd))); [|exact Hv].
  intros i s _ Hs. unfold clear_image_level. cbv zeta.
  match goal with |- context [if ?c then _ else _] => destruct c end;
    [split; [exact Hs | repeat split; constructor]|].
  apply (repeat_loop_inv (fun s => ds_view (meta_ds s) = None)
           (drawn_without_view (cmd_dev cmd))
           ltac:(repeat split; constructor)
           (drawn_without_view_app (cmd_dev cmd))); [|exact Hs].
  intros s' Hs'.
  destruct (clear_image_layer_without_view cmd img format range s' Hfail Hc Hs')
    as (Hr & Hq & _).
  split; assumption.
Qed.

(** X13: every view the copy, fill, update and resolve commands are handed is
    destroyed before they return, in the order it was built, and nothing else
    is destroyed, whether or not the device builds the views.  For a copy
    from a buffer to an image this is said of the calls that return: those on
    an image whose texel size has a raw format of non-zero size. *)
Theorem views_balanced (cmd : intel_cmd) :
  (forall src dst pRegions,
     balanced (cmd_dev cmd) (vkCmdCopyBuffer cmd src dst pRegions))
  /\ (forall src dst pRegions,
        balanced (cmd_dev cmd) (vkCmdCopyImage cmd src dst pRegions))
  /\ (forall buf img pRegions,
        In (icd_format_get_size (layout_format (img_layout img))) raw_sizes ->
        icd_format_get_size (raw_format_of cmd img) <> 0 ->
        exists m,
          vkCmdCopyBufferToImage cmd buf img pRegions = Some m
          /\ balanced (cmd_dev cmd) m)
  /\ (forall img buf pRegions,
        balanced (cmd_dev cmd) (vkCmdCopyImageToBuffer cmd img buf pRegions))
  /\ (forall dst destOffset dataSize pData,
        balanced (cmd_dev cmd)
          (vkCmdUpdateBuffer cmd dst destOffset dataSize pData))
  /\ (forall dst destOffset fillSize data,
        balanced (cmd_dev cmd)
          (vkCmdFillBuffer cmd dst destOffset fillSize data))
  /\ (forall src dst pRegions,
        balanced (cmd_dev cmd) (vkCmdResolveImage cmd src dst pRegions)).
Proof.
  split; [|split; [|split; [|split; [|split; [|split]]]]]; intros.
  - apply copy_buffer_balanced.
  - apply copy_image_balanced.
  - eexists. split; [apply copy_buffer_to_image_defined; assumption|].
    apply copy_buffer_to_image_balanced.
  - apply copy_image_to_buffer_balanced.
  - apply update_buffer_balanced.
  - apply fill_buffer_balanced.
  - apply resolve_image_balanced.
Qed.

(** X14: the image clears destroy exactly the views they were handed, provided
    the device builds the depth/stencil views it is asked for or every range
    is a color range; so does a HiZ operation on such a device. *)
Theorem clear_views_balanced (cmd : intel_cmd) (img : intel_img)
    (imageLayout : VkImageLayout) (pClearColor : list Z) (depth : c_float)
    (stencil : Z) (op : intel_cmd_meta_ds_op)
    (pRanges : list VkImageSubresourceRange) :
  ds_views_ok cmd \/ color_ranges pRanges ->
  balanced (cmd_dev cmd)
    (vkCmdClearColorImage cmd img imageLayout pClearColor pRanges)
  /\ balanced (cmd_dev cmd)
       (vkCmdClearDepthStencilImage cmd img imageLayout depth stencil pRanges)
  /\ (ds_views_ok cmd ->
      forall range, balanced (cmd_dev cmd) (cmd_meta_ds_op cmd op img range)).
Proof.
  intros H. split; [|split].
  - unfold vkCmdClearColorImage, cmd_meta_clear_color_image. cbv zeta.
    apply balanced_bind; [|intros; apply balanced_ret].
    apply clear_ranges_balanced. exact H.
  - unfold vkCmdClearDepthStencilImage, cmd_meta_clear_depth_stencil_image.
    cbv zeta.
    apply balanced_bind; [|intros; apply balanced_ret].
    apply clear_ranges_balanced. exact H.
  - intros Hok range. unfold cmd_meta_ds_op.
    destruct (layout_aux (img_layout img)); try apply balanced_ret.
    destruct (range_aspect range); try apply balanced_ret.
    cbv zeta. apply balanced_bind; [|intros; apply balanced_ret].
    apply clear_image_balanced. left. exact Hok.
Qed.

(** X15: on a device that builds no depth/stencil view, a depth/stencil clear of
    depth/stencil ranges still issues every draw: each draw has no view,
    comes with one error report, and is followed by a destructor call on the
    null pointer. *)
Theorem depth_clear_after_failed_view (cmd : intel_cmd) (img : intel_img)
    (imageLayout : VkImageLayout) (depth : c_float) (stencil : Z)
    (pRanges : list VkImageSubresourceRange) :
  ds_views_fail cmd -> depth_stencil_ranges pRanges ->
  drawn_without_view (cmd_dev cmd)
    (events_of
       (vkCmdClearDepthStencilImage cmd img imageLayout depth stencil pRanges)).
Proof.
  intros Hfail Hall.
  unfold vkCmdClearDepthStencilImage, cmd_meta_clear_depth_stencil_image.
  cbv zeta. msteps.
  match goal with |- context [for_each pRanges ?b ?m] =>
    set (meta0 := m); assert (H0 : ds_view (meta_ds meta0) = None)
      by (subst meta0; destruct imageLayout; reflexivity);
    clearbody meta0
  end.
  apply drawn_without_view_app; [|repeat split; constructor].
  apply (for_each_inv (fun s => ds_view (meta_ds s) = None)
           (drawn_without_view (cmd_dev cmd))
           ltac:(repeat split; constructor)
           (drawn_without_view_app (cmd_dev cmd))); [|exact H0].
  intros range s Hin Hs.
  apply clear_image_without_view; [exact Hfail | | exact Hs].
  unfold depth_stencil_ranges in Hall. rewrite Forall_forall in Hall.
  apply Hall. exact Hin.
Qed.

End Views.

(** On the sample platform: the device builds every view. *)
Lemma clear_views_balanced_witness :
  balanced (cmd_dev Sample.cmd7)
    (vkCmdClearColorImage Sample.cmd7 hiz_img (VK_IMAGE_LAYOUT_CODE 0)
       [1; 2; 3; 4] [depth_range])
  /\ balanced (cmd_dev Sample.cmd7)
       (vkCmdClearDepthStencilImage (X := Sample.platform) Sample.cmd7 hiz_img
          (VK_IMAGE_LAYOUT_CODE 0) 5 7 [depth_range])
  /\ balanced (cmd_dev Sample.cmd7)
       (cmd_meta_ds_op Sample.cmd7 INTEL_CMD_META_DS_HIZ_CLEAR hiz_img
          depth_range).
Proof.
  assert (Hok : ds_views_ok Sample.cmd7) by (intros info; reflexivity).
  destruct (clear_views_balanced (X := Sample.platform) Sample.cmd7 hiz_img
              (VK_IMAGE_LAYOUT_CODE 0) [1; 2; 3; 4] 5 7
              INTEL_CMD_META_DS_HIZ_CLEAR [depth_range] (or_introl Hok))
    as (Hc & Hd & Hop).
  split; [exact Hc|]. split; [exact Hd|]. exact (Hop Hok depth_range).
Defined.

(** On the sample platform: a device that refuses every view. *)
Lemma depth_clear_after_failed_view_witness :
  drawn_without_view (cmd_dev refusing_cmd)
    (events_of
       (vkCmdClearDepthStencilImage (X := Sample.platform) refusing_cmd hiz_img
          (VK_IMAGE_LAYOUT_CODE 0) 5 7 [depth_range])).
Proof.
  apply (depth_clear_after_failed_view (X := Sample.platform) refusing_cmd
           hiz_img (VK_IMAGE_LAYOUT_CODE 0) 5 7 [depth_range]).
  - intros info. simpl. discriminate.
  - repeat constructor. discriminate.
Defined.

(** ** Resolves: where each draw reads and writes *)

Lemma draw_shape_app t1 t2 :
  map draw_shape (draws (t1 ++ t2))
  = map draw_shape (draws t1) ++ map draw_shape (draws t2).
Proof. rewrite draws_app, map_app. reflexivity. Qed.

Section ResolveCoords.

Context {X : externals}.

Lemma resolve_slice_shape cmd dst format region k meta :
  map draw_shape (draws (events_of (resolve_slice cmd dst format region k meta)))
  = [(draw_kind meta, resolve_expected region k)]
  /\ draw_kind (fst (resolve_slice cmd dst format region k meta))
     = draw_kind meta.
Proof.
  unfold resolve_slice. cbv zeta.
  match goal with |- context [cmd_meta_set_dst_for_img ?c ?i ?f ?l ?y ?m] =>
    destruct (set_dst_for_img_frame c i f l y m) as (d & Hd & Hl & Hy & Hx & Hyy);
    pose proof (set_dst_for_img_draws c i f l y m) as Hn;
    destruct (cmd_meta_set_dst_for_img c i f l y m) as [m1 e1]
  end.
  unfold events_of in *. simpl in Hd, Hn, Hl, Hy, Hx, Hyy. subst m1. simpl.
  rewrite draws_app, Hn. simpl.
  unfold draw_shape, draw_coords, surface_coords, resolve_expected. simpl.
  rewrite Hl, Hy, Hx, Hyy. split; reflexivity.
Qed.

(** X16: an accepted resolve draws every slice of every region once, in order, as
    a rectangle at one sample with the resolve shader of the source.  Slice k
    of a region reads slice (slice + k) of the source subresource and writes
    slice (slice + k) of the destination subresource; x, y, width and height
    are those of the region, and the z of the two offsets plays no part. *)
Theorem resolve_draw_coords (cmd : intel_cmd) (src dst : intel_img)
    (pRegions : list VkImageResolve) :
  1 < img_samples src -> img_samples dst <= 1 ->
  layout_format (img_layout src) = layout_format (img_layout dst) ->
  map draw_shape (draws (events_of (vkCmdResolveImage cmd src dst pRegions)))
  = flat_map
      (fun region =>
         map (fun k =>
                ((INTEL_CMD_META_FS_RECT, resolve_shader (img_samples src), 1),
                 resolve_expected region k))
           (upto (ext_depth (ir_extent region))))
      pRegions.
Proof.
  intros Hs Hd Hf. unfold vkCmdResolveImage.
  assert ((img_samples src <=? 1) || (1 <? img_samples dst)
          || (if VkFormat_eq_dec (layout_format (img_layout src))
                                 (layout_format (img_layout dst))
              then false else true) = false) as ->.
  { destruct (VkFormat_eq_dec _ _); [|contradiction].
    destruct (Z.leb_spec (img_samples src) 1); [lia|].
    destruct (Z.ltb_spec 1 (img_samples dst)); [lia|]. reflexivity. }
  cbv zeta. msteps.
  rewrite !draw_shape_app, run_checked_draws, set_src_for_img_draws.
  simpl. rewrite app_nil_r.
  match goal with |- context [cmd_meta_set_src_for_img ?c ?i ?f ?a ?m] =>
    destruct (set_src_for_img_frame c i f a m) as (d & -> & _)
  end.
  apply (for_each_flat_inv (fun t => map draw_shape (draws t)) eq_refl
           draw_shape_app
           (fun m => draw_kind m
                     = (INTEL_CMD_META_FS_RECT,
                        resolve_shader (img_samples src), 1)));
    [|reflexivity].
  intros region m _ Hm. apply and_comm.
  generalize (upto (ext_depth (ir_extent region))). intros l. revert m Hm.
  induction l as [|k l IH]; intros m Hm; [split; [reflexivity | exact Hm]|].
  cbn [for_each map]. rewrite events_bind, value_bind, draw_shape_app.
  match goal with |- context [resolve_slice ?c ?i ?f ?r ?k ?m] =>
    destruct (resolve_slice_shape c i f r k m) as [Hd' Hk]
  end.
  rewrite Hd', Hm. rewrite Hm in Hk.
  destruct (IH _ Hk) as [IH1 IH2]. rewrite IH1. split; [reflexivity | exact IH2].
Qed.

End ResolveCoords.

(** On the sample platform: four samples resolved to one, away from the
    origin. *)
Lemma resolve_draw_coords_witness :
  map draw_shape
    (draws (events_of
       (vkCmdResolveImage Sample.cmd7 (Sample.img2d VK_FORMAT_R8G8B8A8_UINT 4)
          (Sample.img2d VK_FORMAT_R8G8B8A8_UINT 1) [offset_resolve])))
  = [((INTEL_CMD_META_FS_RECT, INTEL_DEV_META_FS_RESOLVE_4X, 1),
      ((0, 1, 8, 4), (1, 2, 0, 0), (16, 8)));
     ((INTEL_CMD_META_FS_RECT, INTEL_DEV_META_FS_RESOLVE_4X, 1),
      ((0, 2, 8, 4), (1, 3, 0, 0), (16, 8)))].
Proof.
  refine (resolve_draw_coords Sample.cmd7
            (Sample.img2d VK_FORMAT_R8G8B8A8_UINT 4)
            (Sample.img2d VK_FORMAT_R8G8B8A8_UINT 1) [offset_resolve] _ _ _).
  - simpl. lia.
  - simpl. lia.
  - reflexivity.
Defined.

(** ** Destination views: one for each draw *)

Lemma dst_view_targets_app t1 t2 :
  dst_view_targets (t1 ++ t2) = dst_view_targets t1 ++ dst_view_targets t2.
Proof. apply flat_map_app. Qed.

Lemma matched_ret {A} img (a : A) : matched img (ret a).
Proof. reflexivity. Qed.

Lemma matched_bind {A B} img (m : M A) (k : A -> M B) :
  matched img m -> (forall a, matched img (k a)) -> matched img (bind m k).
Proof.
  unfold matched. intros Hm Hk.
  rewrite events_bind, dst_view_targets_app, draws_app, map_app, Hm, Hk.
  reflexivity.
Qed.

Lemma matched_for_each {A S} img (l : list A) (body : A -> S -> M S) s :
  (forall a s, matched img (body a s)) -> matched img (for_each l body s).
Proof.
  intros Hb. revert s. induction l as [|a l IH]; intros s; simpl.
  - apply matched_ret.
  - apply matched_bind; [apply Hb | exact IH].
Qed.

Lemma matched_repeat_loop {S} img (n : nat) (body : S -> M S) s :
  (forall s, matched img (body s)) -> matched img (repeat_loop n body s).
Proof.
  intros Hb. revert s. induction n as [|n IH]; intros s; simpl.
  - apply matched_ret.
  - apply matched_bind; [apply Hb | exact IH].
Qed.

Lemma matched_run_checked {A} img (c : checked A) : matched img (run_checked c).
Proof. destruct c; reflexivity. Qed.

Section DestinationViews.

Context {X : externals}.

Lemma set_src_for_img_matched cmd img src format aspect meta :
  matched img (cmd_meta_set_src_for_img cmd src format aspect meta).
Proof.
  unfold matched, cmd_meta_set_src_for_img, cmd_fail, emit, bind, ret,
    events_of.
  destruct (intel_img_view_create _ _) as [res view].
  destruct (VkResult_eq_dec res VK_SUCCESS); reflexivity.
Qed.

Lemma set_src_for_buf_matched cmd img buf format meta :
  matched img (cmd_meta_set_src_for_buf cmd buf format meta).
Proof.
  unfold matched, cmd_meta_set_src_for_buf, cmd_meta_create_buf_view, cmd_fail,
    emit, bind, ret, events_of.
  destruct (intel_buf_view_create _ _) as [res view].
  destruct (VkResult_eq_dec res VK_SUCCESS); reflexivity.
Qed.

(** A destination bound at the level and layer of the descriptor, then
    drawn. *)
Lemma set_dst_then_draw_matched {B} cmd img format meta
    (k : intel_cmd_meta -> M B) :
  (forall m, matched img (k m)) ->
  matched img
    (bind (cmd_meta_set_dst_for_img cmd img format
             (m_lod (meta_dst meta)) (m_layer (meta_dst meta)) meta)
       (fun meta' => bind (cmd_draw_meta cmd meta') (fun _ => k meta'))).
Proof.
  intros Hk. unfold matched.
  destruct (set_dst_for_img_frame cmd img format
              (m_lod (meta_dst meta)) (m_layer (meta_dst meta)) meta)
    as (d & Hd & Hl & Hy & _).
  pose proof (set_dst_for_img_draws cmd img format
                (m_lod (meta_dst meta)) (m_layer (meta_dst meta)) meta) as Hn.
  assert (Ht : dst_view_targets
                 (events_of (cmd_meta_set_dst_for_img cmd img format
                    (m_lod (meta_dst meta)) (m_layer (meta_dst meta)) meta))
               = [(img, m_lod (meta_dst meta), m_layer (meta_dst meta), 1)]).
  { unfold cmd_meta_set_dst_for_img, cmd_fail, emit, bind, ret, events_of.
    destruct (intel_att_view_create_for_color _ _) as [res view].
    destruct (VkResult_eq_dec res VK_SUCCESS); reflexivity. }
  rewrite !events_bind, !dst_view_targets_app, !draws_app, !map_app, Ht, Hn,
    Hk, Hd.
  unfold draw_target. simpl. rewrite Hl, Hy. reflexivity.
Qed.

Lemma clear_image_layer_matched cmd img format range meta :
  matched img (clear_image_layer cmd img format range meta).
Proof.
  unfold clear_image_layer. apply matched_bind; [|intros; apply matched_ret].
  destruct (VkImageAspect_eq_dec (range_aspect range) VK_IMAGE_ASPECT_COLOR).
  - apply set_dst_then_draw_matched. intros. apply matched_ret.
  - unfold matched, cmd_meta_set_ds_view, cmd_meta_set_ds_state, cmd_fail,
      emit, cmd_draw_meta, bind, ret, events_of.
    destruct (intel_att_view_create_for_ds _ _) as [res view].
    destruct (VkResult_eq_dec res VK_SUCCESS); reflexivity.
Qed.

Lemma clear_ranges_matched cmd img format meta pRanges :
  matched img
    (for_each pRanges
       (fun range meta => cmd_meta_clear_image cmd img format meta range) meta).
Proof.
  apply matched_for_each. intros range s. unfold cmd_meta_clear_image.
  destruct (_ || _); [apply matched_ret|]. cbv zeta.
  apply matched_for_each. intros i s'. unfold clear_image_level. cbv zeta.
  match goal with |- context [if ?c then _ else _] => destruct c end;
    [apply matched_ret|].
  apply matched_repeat_loop. intros s''. apply clear_image_layer_matched.
Qed.

(** X17: the commands that write to an image request one destination view for
    each draw, for the single array slice of the mip level the draw writes
    to, and no other: the destination is bound anew before every draw.  For
    a copy from a buffer to an image this is said of the calls that return:
    those on an image whose texel size has a raw format of non-zero size. *)
Theorem destination_view_per_draw (cmd : intel_cmd) (img : intel_img) :
  (forall src pRegions, matched img (vkCmdCopyImage cmd src img pRegions))
  /\ (forall buf pRegions,
        In (icd_format_get_size (layout_format (img_layout img))) raw_sizes ->
        icd_format_get_size (raw_format_of cmd img) <> 0 ->
        exists m,
          vkCmdCopyBufferToImage cmd buf img pRegions = Some m
          /\ matched img m)
  /\ (forall src pRegions, matched img (vkCmdResolveImage cmd src img pRegions))
  /\ (forall imageLayout pClearColor pRanges,
        matched img
          (vkCmdClearColorImage cmd img imageLayout pClearColor pRanges))
  /\ (forall imageLayout depth stencil pRanges,
        matched img
          (vkCmdClearDepthStencilImage cmd img imageLayout depth stencil
             pRanges)).
Proof.
  split; [|split; [|split; [|split]]].
  - intros src pRegions. unfold vkCmdCopyImage.
    destruct (VkImageType_eq_dec _ _); [|reflexivity].
    assert (Hr : forall raw, matched img
                   (copy_image_regions cmd src img raw pRegions)).
    { intros raw. unfold copy_image_regions. cbv zeta.
      apply matched_bind; [apply set_src_for_img_matched|intros m].
      apply matched_bind; [|intros; apply matched_ret].
      apply matched_for_each. intros region s.
      unfold copy_image_region. cbv zeta.
      apply matched_repeat_loop. intros s'. unfold copy_image_layer.
      apply set_dst_then_draw_matched. intros. apply matched_ret. }
    destruct (VkFormat_eq_dec _ _).
    + apply matched_bind; [apply matched_run_checked|intros; apply Hr].
    + destruct (_ || _); [reflexivity | apply Hr].
  - intros buf pRegions _ Hnz. eexists.
    split; [apply copy_buffer_to_image_defined; exact Hnz|].
    unfold copy_mem_to_img_regions. cbv zeta.
    apply matched_bind; [apply matched_run_checked|intros format].
    apply matched_bind; [apply set_src_for_buf_matched|intros m].
    apply matched_bind; [|intros; apply matched_ret].
    apply matched_for_each. intros region s. cbv zeta.
    apply matched_repeat_loop. intros s'. unfold copy_mem_to_img_layer.
    apply set_dst_then_draw_matched. intros. apply matched_ret.
  - intros src pRegions. unfold vkCmdResolveImage.
    destruct (_ || _); [reflexivity|]. cbv zeta.
    apply matched_bind; [apply matched_run_checked|intros format].
    apply matched_bind; [apply set_src_for_img_matched|intros m].
    apply matched_bind; [|intros; apply matched_ret].
    apply matched_for_each. intros region s.
    apply matched_for_each. intros k s'. unfold resolve_slice. cbv zeta.
    apply set_dst_then_draw_matched. intros. apply matched_ret.
  - intros imageLayout pClearColor pRanges.
    unfold vkCmdClearColorImage, cmd_meta_clear_color_image. cbv zeta.
    apply matched_bind; [|intros; apply matched_ret].
    apply clear_ranges_matched.
  - intros imageLayout depth stencil pRanges.
    unfold vkCmdClearDepthStencilImage, cmd_meta_clear_depth_stencil_image.
    cbv zeta.
    apply matched_bind; [|intros; apply matched_ret].
    apply clear_ranges_matched.
Qed.

End DestinationViews.

(** ** Source views: one for each call *)

Lemma img_view_requests_app t1 t2 :
  img_view_requests (t1 ++ t2) = img_view_requests t1 ++ img_view_requests t2.
Proof. apply flat_map_app. Qed.

Lemma unsourced_ret {A} (a : A) : unsourced (ret a).
Proof. reflexivity. Qed.

Lemma unsourced_bind {A B} (m : M A) (k : A -> M B) :
  unsourced m -> (forall a, unsourced (k a)) -> unsourced (bind m k).
Proof.
  unfold unsourced. intros Hm Hk.
  rewrite events_bind, img_view_requests_app, Hm, Hk. reflexivity.
Qed.

Lemma unsourced_for_each {A S} (l : list A) (body : A -> S -> M S) s :
  (forall a s, unsourced (body a s)) -> unsourced (for_each l body s).
Proof.
  intros Hb. revert s. induction l as [|a l IH]; intros s; simpl.
  - apply unsourced_ret.
  - apply unsourced_bind; [apply Hb | exact IH].
Qed.

Lemma unsourced_repeat_loop {S} (n : nat) (body : S -> M S) s :
  (forall s, unsourced (body s)) -> unsourced (repeat_loop n body s).
Proof.
  intros Hb. revert s. induction n as [|n IH]; intros s; simpl.
  - apply unsourced_ret.
  - apply unsourced_bind; [apply Hb | exact IH].
Qed.

Section SourceViews.

Context {X : externals}.

Lemma set_src_for_img_request cmd img format aspect meta :
  map image_request_key
    (img_view_requests
       (events_of (cmd_meta_set_src_for_img cmd img format aspect meta)))
  = [(img, format,
      {| range_aspect := aspect;
         range_baseMipLevel := 0; range_mipLevels := VK_LAST_MIP_LEVEL;
         range_baseArraySlice := 0; range_arraySize := VK_LAST_ARRAY_SLICE |})].
Proof.
  unfold cmd_meta_set_src_for_img, cmd_fail, emit, bind, ret, events_of.
  destruct (intel_img_view_create _ _) as [res view].
  destruct (VkResult_eq_dec res VK_SUCCESS); reflexivity.
Qed.

Lemma set_dst_for_img_unsourced cmd img format lod layer meta :
  unsourced (cmd_meta_set_dst_for_img cmd img format lod layer meta).
Proof.
  unfold unsourced, cmd_meta_set_dst_for_img, cmd_fail, emit, bind, ret,
    events_of.
  destruct (intel_att_view_create_for_color _ _) as [res view].
  destruct (VkResult_eq_dec res VK_SUCCESS); reflexivity.
Qed.

Lemma set_dst_for_buf_unsourced cmd buf format meta :
  unsourced (cmd_meta_set_dst_for_buf cmd buf format meta).
Proof.
  unfold unsourced, cmd_meta_set_dst_for_buf, cmd_meta_create_buf_view,
    cmd_fail, emit, bind, ret, events_of.
  destruct (intel_buf_view_create _ _) as [res view].
  destruct (VkResult_eq_dec res VK_SUCCESS); reflexivity.
Qed.

Ltac quiet :=
  repeat first
    [ apply unsourced_ret
    | apply set_dst_for_img_unsourced
    | apply set_dst_for_buf_unsourced
    | apply unsourced_for_each; intros
    | apply unsourced_repeat_loop; intros
    | match goal with
      | |- unsourced (cmd_draw_meta _ _) => reflexivity
      | |- unsourced (bind _ _) => apply unsourced_bind; [|intros]
      end
    | progress cbv zeta
    | progress unfold copy_image_region, copy_image_layer,
        copy_img_to_mem_layer, resolve_slice ].

Lemma copy_image_regions_source cmd src dst raw pRegions :
  map image_request_key
    (img_view_requests
       (events_of (copy_image_regions cmd src dst raw pRegions)))
  = [(src,
      match raw with
      | Some raw_format => raw_format
      | None => layout_format (img_layout src)
      end,
      whole_color_range)].
Proof.
  unfold copy_image_regions. cbv zeta.
  rewrite events_bind, img_view_requests_app, map_app, set_src_for_img_request.
  match goal with |- context [bind (for_each ?l ?b ?m) ?k] =>
    assert (Hq : unsourced (bind (for_each l b m) k)) by quiet
  end.
  unfold unsourced in Hq. rewrite Hq. reflexivity.
Qed.

(** X18: an accepted image copy, a copy from an image to a buffer that the device
    can serve and an accepted resolve request exactly one image view: of the
    source image, over the color aspect of all its mip levels and array
    slices, in the raw format of the source (in its own format for a copy
    between images of different formats).  The source is bound once for the
    whole call. *)
Theorem source_image_bound_once (cmd : intel_cmd) (src : intel_img) :
  (forall dst pRegions,
     img_type src = img_type dst ->
     (layout_format (img_layout src) = layout_format (img_layout dst) ->
      map image_request_key
        (img_view_requests (events_of (vkCmdCopyImage cmd src dst pRegions)))
      = [(src, raw_format_of cmd src, whole_color_range)])
     /\ (layout_format (img_layout src) <> layout_format (img_layout dst) ->
         icd_format_is_compressed (layout_format (img_layout src)) = false ->
         icd_format_is_compressed (layout_format (img_layout dst)) = false ->
         map image_request_key
           (img_view_requests (events_of (vkCmdCopyImage cmd src dst pRegions)))
         = [(src, layout_format (img_layout src), whole_color_range)]))
  /\ (forall buf pRegions,
        ~ to_mem_unsupported cmd src ->
        map image_request_key
          (img_view_requests
             (events_of (vkCmdCopyImageToBuffer cmd src buf pRegions)))
        = [(src, raw_format_of cmd src, whole_color_range)])
  /\ (forall dst pRegions,
        1 < img_samples src -> img_samples dst <= 1 ->
        layout_format (img_layout src) = layout_format (img_layout dst) ->
        map image_request_key
          (img_view_requests
             (events_of (vkCmdResolveImage cmd src dst pRegions)))
        = [(src, raw_format_of cmd src, whole_color_range)]).
Proof.
  assert (Hrc : forall A (c : checked A),
            img_view_requests (events_of (run_checked c)) = []).
  { intros A c. destruct c; reflexivity. }
  split; [|split].
  - intros dst pRegions Ht. unfold vkCmdCopyImage.
    destruct (VkImageType_eq_dec _ _) as [_|N]; [|contradiction]. split.
    + intros Hf. destruct (VkFormat_eq_dec _ _) as [_|N]; [|contradiction].
      rewrite events_bind, img_view_requests_app, Hrc, value_run_checked.
      apply copy_image_regions_source.
    + intros Hf Hs Hd. destruct (VkFormat_eq_dec _ _) as [E|_]; [contradiction|].
      rewrite Hs, Hd. apply copy_image_regions_source.
  - intros buf pRegions Hn.
    destruct (to_mem_supported cmd src Hn) as [Hin Hgen].
    unfold vkCmdCopyImageToBuffer. cbv zeta.
    rewrite events_bind, img_view_requests_app, Hrc, value_run_checked.
    cbn [app]. fold (raw_format_of cmd src).
    revert Hgen. unfold raw_format_of, cmd_meta_img_raw_format.
    unfold raw_sizes in Hin. simpl in Hin.
    destruct Hin as [<-|[<-|[<-|[<-|[<-|[]]]]]]; cbn [checked_value];
      intros Hgen;
      (destruct (VkFormat_eq_dec _ VK_FORMAT_UNDEFINED) as [E|_];
         [discriminate E|]);
      cbn [orb]; rewrite Hgen;
      rewrite events_bind, img_view_requests_app, map_app,
        set_src_for_img_request;
      match goal with |- context [bind (cmd_meta_set_dst_for_buf ?c ?b ?f ?m) ?k] =>
        assert (Hq : unsourced (bind (cmd_meta_set_dst_for_buf c b f m) k))
          by quiet;
        unfold unsourced in Hq; rewrite Hq
      end;
      reflexivity.
  - intros dst pRegions Hs Hd Hf. unfold vkCmdResolveImage.
    assert ((img_samples src <=? 1) || (1 <? img_samples dst)
            || (if VkFormat_eq_dec (layout_format (img_layout src))
                                   (layout_format (img_layout dst))
                then false else true) = false) as ->.
    { destruct (VkFormat_eq_dec _ _); [|contradiction].
      destruct (Z.leb_spec (img_samples src) 1); [lia|].
      destruct (Z.ltb_spec 1 (img_samples dst)); [lia|]. reflexivity. }
    cbv zeta.
    rewrite events_bind, img_view_requests_app, Hrc, value_run_checked.
    cbn [app]. fold (raw_format_of cmd src).
    rewrite events_bind, img_view_requests_app, map_app,
      set_src_for_img_request.
    match goal with |- context [bind (for_each ?l ?b ?m) ?k] =>
      assert (Hq : unsourced (bind (for_each l b m) k)) by quiet
    end.
    unfold unsourced in Hq. rewrite Hq. reflexivity.
Qed.

End SourceViews.

(** On the sample platform: a raw copy within an image, a copy to a buffer
    and a resolve. *)
Lemma source_image_bound_once_witness :
  map image_request_key
    (img_view_requests
       (events_of (vkCmdCopyImage Sample.cmd7 Sample.bc1_img Sample.bc1_img
                     [layered_copy])))
  = [(Sample.bc1_img, VK_FORMAT_R32G32_UINT, whole_color_range)]
  /\ map image_request_key
       (img_view_requests
          (events_of (vkCmdCopyImageToBuffer Sample.cmd7
                        (Sample.img2d VK_FORMAT_R8G8B8A8_UINT 1) Sample.buf_b
                        [buffer_image_copy 64 1 2])))
     = [(Sample.img2d VK_FORMAT_R8G8B8A8_UINT 1, VK_FORMAT_R32_UINT,
         whole_color_range)]
  /\ map image_request_key
       (img_view_requests
          (events_of (vkCmdResolveImage Sample.cmd7
                        (Sample.img2d VK_FORMAT_R8G8B8A8_UINT 4)
                        (Sample.img2d VK_FORMAT_R8G8B8A8_UINT 1)
                        [offset_resolve])))
     = [(Sample.img2d VK_FORMAT_R8G8B8A8_UINT 4, VK_FORMAT_R32_UINT,
         whole_color_range)].
Proof.
  split; [|split].
  - exact (proj1 (proj1 (source_image_bound_once Sample.cmd7 Sample.bc1_img)
                    Sample.bc1_img [layered_copy] eq_refl) eq_refl).
  - refine (proj1 (proj2 (source_image_bound_once Sample.cmd7
                            (Sample.img2d VK_FORMAT_R8G8B8A8_UINT 1)))
              Sample.buf_b [buffer_image_copy 64 1 2] _).
    intros [H | [H _]]; [apply H; simpl; tauto | discriminate H].
  - refine (proj2 (proj2 (source_image_bound_once Sample.cmd7
                            (Sample.img2d VK_FORMAT_R8G8B8A8_UINT 4)))
              (Sample.img2d VK_FORMAT_R8G8B8A8_UINT 1) [offset_resolve]
              _ _ eq_refl); simpl; lia.
Defined.

(** ** Attachment clears: the subresources cleared *)

Lemma level_layer_app t1 t2 :
  map level_layer (draws (t1 ++ t2))
  = map level_layer (draws t1) ++ map level_layer (draws t2).
Proof. rewrite draws_app, map_app. reflexivity. Qed.

Section AttachmentTargets.

Context {X : externals}.

(** A clear of one level that carries no HiZ operation draws the layers of
    the range that the image has, in order, on the base level. *)
Lemma clear_image_single_level_targets cmd img format meta range :
  range_mipLevels range = 1 ->
  uint32 (img_mip_levels img) -> uint32 (img_array_size img) ->
  uint32 (range_baseMipLevel range) -> uint32 (range_baseArraySlice range) ->
  ds_op (meta_ds meta) = INTEL_CMD_META_DS_NOP ->
  map level_layer
    (draws (events_of (cmd_meta_clear_image cmd img format meta range)))
  = map (fun j => (range_baseMipLevel range,
                   u32 (range_baseArraySlice range + Z.of_nat j)))
      (seq 0 (cleared_layers img range)).
Proof.
  unfold uint32. intros H1 Hm Ha Hbm Hba Hop.
  unfold cmd_meta_clear_image, cleared_layers.
  destruct (_ || _) eqn:Eskip; [reflexivity|].
  apply orb_false_iff in Eskip. destruct Eskip as [E1 E2].
  apply Z.leb_gt in E1, E2. cbv zeta. rewrite H1.
  rewrite !(u32_small (img_mip_levels img - range_baseMipLevel range)),
          !(u32_small (img_array_size img - range_baseArraySlice range))
    by lia.
  assert ((if 1 <? img_mip_levels img - range_baseMipLevel range then 1
           else img_mip_levels img - range_baseMipLevel range) = 1) as ->.
  { destruct (Z.ltb_spec 1 (img_mip_levels img - range_baseMipLevel range));
      lia. }
  set (layers := if _ <? _ then _ else _).
  assert (Hl : Z.to_nat (Z.min (img_array_size img - range_baseArraySlice range)
                           (range_arraySize range)) = Z.to_nat layers).
  { subst layers.
    destruct (Z.ltb_spec (range_arraySize range)
                (img_array_size img - range_baseArraySlice range));
      f_equal; lia. }
  rewrite Hl. clearbody layers.
  change (upto 1) with [0]. cbn [for_each].
  rewrite events_bind, level_layer_app. cbn [ret events_of snd draws map].
  rewrite app_nil_r.
  unfold clear_image_level. cbv zeta. rewrite Z.add_0_r.
  match goal with |- context [repeat_loop _ _ ?m] => set (meta1 := m) end.
  assert (Hop1 : ds_op (meta_ds meta1) = INTEL_CMD_META_DS_NOP)
    by (subst meta1; exact Hop).
  assert (Hlod : m_lod (meta_dst meta1) = range_baseMipLevel range)
    by (subst meta1; simpl; apply u32_small; lia).
  assert (Hlay : m_layer (meta_dst meta1) = range_baseArraySlice range)
    by (subst meta1; reflexivity).
  clearbody meta1.
  destruct (intel_cmd_meta_ds_op_eq_dec (ds_op (meta_ds meta1))
              INTEL_CMD_META_DS_NOP) as [_|N]; [|contradiction].
  cbn [andb].
  rewrite (repeat_loop_flat_ix (fun t => map level_layer (draws t)) eq_refl
             level_layer_app
             (fun k m => m_lod (meta_dst m) = range_baseMipLevel range
                         /\ m_layer (meta_dst m)
                            = u32 (range_baseArraySlice range + Z.of_nat k))
             (fun k => [(range_baseMipLevel range,
                         u32 (range_baseArraySlice range + Z.of_nat k))])).
  - apply flat_map_singleton.
  - intros k m _ [Hml Hmy].
    destruct (clear_image_layer_draw cmd img format range m)
      as (m1 & Hd & Hl1 & Hy1 & Hl2 & Hy2 & _).
    rewrite Hd, Hl2, Hy2, Hml, Hmy. split.
    + split; [reflexivity|]. apply u32_next.
    + unfold level_layer. cbn [map]. rewrite Hl1, Hy1, Hml, Hmy. reflexivity.
  - split; [exact Hlod|]. rewrite Hlay, Z.add_0_r.
    symmetry. apply u32_small. lia.
Qed.

Lemma clear_depth_stencil_image_targets cmd img imageLayout depth stencil
    aspect level rect :
  uint32 (img_mip_levels img) -> uint32 (img_array_size img) ->
  uint32 level ->
  map level_layer
    (draws (events_of
       (cmd_meta_clear_depth_stencil_image cmd img imageLayout depth stencil
          [ {| range_aspect := aspect;
               range_baseMipLevel := level;
               range_mipLevels := 1;
               range_baseArraySlice := u32 (off_z (rect_offset rect));
               range_arraySize := u32 (ext_depth (rect_extent rect)) |} ])))
  = rect_targets img level rect.
Proof.
  intros Hm Ha Hlv. unfold cmd_meta_clear_depth_stencil_image. cbv zeta.
  msteps. cbn [for_each]. msteps.
  rewrite !level_layer_app. cbn [ret events_of snd draws map].
  rewrite !app_nil_r.
  rewrite clear_image_single_level_targets;
    try assumption; try reflexivity.
  - unfold uint32, u32. cbn [range_baseArraySlice].
    apply Z.mod_pos_bound. lia.
  - destruct imageLayout; reflexivity.
Qed.

Lemma clear_color_image_targets cmd img imageLayout pClearColor level rect :
  uint32 (img_mip_levels img) -> uint32 (img_array_size img) ->
  uint32 level ->
  map level_layer
    (draws (events_of
       (cmd_meta_clear_color_image cmd img imageLayout pClearColor
          [ {| range_aspect := VK_IMAGE_ASPECT_COLOR;
               range_baseMipLevel := level;
               range_mipLevels := 1;
               range_baseArraySlice := u32 (off_z (rect_offset rect));
               range_arraySize := u32 (ext_depth (rect_extent rect)) |} ])))
  = rect_targets img level rect.
Proof.
  intros Hm Ha Hlv. unfold cmd_meta_clear_color_image. cbv zeta.
  msteps. cbn [for_each]. msteps.
  rewrite !level_layer_app. cbn [ret events_of snd draws map].
  rewrite !app_nil_r.
  rewrite clear_image_single_level_targets;
    try assumption; try reflexivity.
  unfold uint32, u32. cbn [range_baseArraySlice].
  apply Z.mod_pos_bound. lia.
Qed.

(** C10: vkCmdClearDepthStencilAttachment clears, for each rectangle and
    for each aspect of the mask, the layers of the rectangle on mip level 0
    of the image of the bound depth/stencil view, whatever the mip level of
    that view; vkCmdClearColorAttachment clears the layers of each rectangle
    on the mip level of the bound color view.  All the draws of the first
    target level 0 and all the draws of the second the level of the view;
    on an image whose counts are 32-bit values the levels and layers of the
    draws are exactly those of the rectangles, in order. *)
Theorem clear_depth_stencil_attachment_level (cmd : intel_cmd)
    (imageAspectMask : VkImageAspectFlags) (imageLayout : VkImageLayout)
    (depth : c_float) (stencil : Z) (colorAttachment : Z) (pColor : list Z)
    (pRects : list VkRect3D) :
  (forall view,
     fb_view cmd (subpass_ds_index (cmd_bind_render_pass_subpass cmd))
     = Some view ->
     exists m,
       vkCmdClearDepthStencilAttachment cmd imageAspectMask imageLayout
         depth stencil pRects = Some m
       /\ Forall (fun d => m_lod (meta_dst d) = 0) (draws (events_of m))
       /\ (uint32 (img_mip_levels (att_view_img view)) ->
           uint32 (img_array_size (att_view_img view)) ->
           map level_layer (draws (events_of m))
           = flat_map
               (fun rect =>
                  (if VK_IMAGE_ASPECT_DEPTH_BIT imageAspectMask
                   then rect_targets (att_view_img view) 0 rect else [])
                  ++ (if VK_IMAGE_ASPECT_STENCIL_BIT imageAspectMask
                      then rect_targets (att_view_img view) 0 rect else []))
               pRects))
  /\ (forall index view,
        nth_error (subpass_color_indices (cmd_bind_render_pass_subpass cmd))
          (Z.to_nat colorAttachment) = Some index ->
        fb_view cmd index = Some view ->
        exists m,
          vkCmdClearColorAttachment cmd colorAttachment imageLayout pColor
            pRects = Some m
          /\ Forall (fun d => m_lod (meta_dst d)
                              = u32 (att_view_mipLevel view))
               (draws (events_of m))
          /\ (uint32 (img_mip_levels (att_view_img view)) ->
              uint32 (img_array_size (att_view_img view)) ->
              uint32 (att_view_mipLevel view) ->
              map level_layer (draws (events_of m))
              = flat_map
                  (rect_targets (att_view_img view) (att_view_mipLevel view))
                  pRects)).
Proof.
  split.
  - intros view Hv. unfold vkCmdClearDepthStencilAttachment. rewrite Hv.
    eexists. split; [reflexivity|]. split.
    + apply (for_each_inv (fun _ => True)
               (fun t => Forall (fun d => m_lod (meta_dst d) = 0) (draws t)));
        [constructor | | | exact I].
      * intros t1 t2 Ha Hb. rewrite draws_app. apply Forall_app. tauto.
      * intros rect [] _ _. split; [exact I|].
        msteps. rewrite draws_app. apply Forall_app. split.
        -- destruct (VK_IMAGE_ASPECT_DEPTH_BIT imageAspectMask); [|constructor].
           apply (clear_depth_stencil_image_single cmd (att_view_img view)
                    imageLayout depth stencil
                    (depth_stencil_attachment_range view rect)). reflexivity.
        -- destruct (VK_IMAGE_ASPECT_STENCIL_BIT imageAspectMask);
             [|constructor].
           apply (clear_depth_stencil_image_single cmd (att_view_img view)
                    imageLayout depth stencil
                    (set_range_aspect VK_IMAGE_ASPECT_STENCIL
                       (depth_stencil_attachment_range view rect))).
           reflexivity.
    + intros Hm Ha.
      apply (for_each_flat_inv (fun t => map level_layer (draws t)) eq_refl
               level_layer_app (fun _ => True)); [|exact I].
      intros rect [] _ _. split; [exact I|].
      msteps. rewrite level_layer_app. f_equal.
      * destruct (VK_IMAGE_ASPECT_DEPTH_BIT imageAspectMask); [|reflexivity].
        apply (clear_depth_stencil_image_targets cmd (att_view_img view)
                 imageLayout depth stencil VK_IMAGE_ASPECT_DEPTH 0 rect);
          [assumption | assumption | unfold uint32; lia].
      * destruct (VK_IMAGE_ASPECT_STENCIL_BIT imageAspectMask); [|reflexivity].
        apply (clear_depth_stencil_image_targets cmd (att_view_img view)
                 imageLayout depth stencil VK_IMAGE_ASPECT_STENCIL 0 rect);
          [assumption | assumption | unfold uint32; lia].
  - intros index view Hi Hv. unfold vkCmdClearColorAttachment.
    rewrite Hi, Hv. eexists. split; [reflexivity|]. split.
    + apply (for_each_inv (fun _ => True)
               (fun t => Forall (fun d => m_lod (meta_dst d)
                                          = u32 (att_view_mipLevel view))
                           (draws t)));
        [constructor | | | exact I].
      * intros t1 t2 Ha Hb. rewrite draws_app. apply Forall_app. tauto.
      * intros rect [] _ _. split; [exact I|].
        apply (clear_color_image_single cmd (att_view_img view) imageLayout
                 pColor (color_attachment_range view rect)). reflexivity.
    + intros Hm Ha Hlv.
      apply (for_each_flat_inv (fun t => map level_layer (draws t)) eq_refl
               level_layer_app (fun _ => True)); [|exact I].
      intros rect [] _ _. split; [exact I|].
      apply (clear_color_image_targets cmd (att_view_img view) imageLayout
               pColor (att_view_mipLevel view) rect); assumption.
Qed.

End AttachmentTargets.

(** On the sample platform: the bound view is mip level 2 of an image of 3
    levels and 4 layers, used as color attachment 0 and as depth/stencil
    attachment; the rectangle covers layers 1 and 2. *)
Lemma clear_depth_stencil_attachment_level_witness :
  (exists m,
     vkCmdClearDepthStencilAttachment (X := Sample.platform) Sample.cmd7
       both_aspects VK_IMAGE_LAYOUT_DEPTH_STENCIL_ATTACHMENT_OPTIMAL 0 0
       [offset_rect] = Some m
     /\ Forall (fun d => m_lod (meta_dst d) = 0) (draws (events_of m))
     /\ map level_layer (draws (events_of m))
        = [(0, 1); (0, 2); (0, 1); (0, 2)])
  /\ (exists m,
        vkCmdClearColorAttachment Sample.cmd7 0
          (VK_IMAGE_LAYOUT_CODE 0) [1; 2; 3; 4] [offset_rect] = Some m
        /\ Forall (fun d => m_lod (meta_dst d) = u32 2) (draws (events_of m))
        /\ map level_layer (draws (events_of m)) = [(2, 1); (2, 2)]).
Proof.
  destruct (clear_depth_stencil_attachment_level (X := Sample.platform)
              Sample.cmd7 both_aspects
              VK_IMAGE_LAYOUT_DEPTH_STENCIL_ATTACHMENT_OPTIMAL 0 0 0
              [1; 2; 3; 4] [offset_rect]) as (Hds & _).
  destruct (clear_depth_stencil_attachment_level (X := Sample.platform)
              Sample.cmd7 both_aspects
              (VK_IMAGE_LAYOUT_CODE 0) 0 0 0
              [1; 2; 3; 4] [offset_rect]) as (_ & Hc).
  split.
  - destruct (Hds _ eq_refl) as (m & Hm & Hlod & Ht).
    exists m. split; [exact Hm|]. split; [exact Hlod|].
    rewrite Ht; [reflexivity | | ]; unfold uint32; simpl; lia.
  - destruct (Hc 0 _ eq_refl eq_refl) as (m & Hm & Hlod & Ht).
    exists m. split; [exact Hm|]. split; [exact Hlod|].
    rewrite Ht; [reflexivity | | | ]; unfold uint32; simpl; lia.
Defined.

(** ** Copies from a buffer to an image: the sample platform *)

(** On the sample platform: an image of 12-byte texels has no raw format, the
    size of VK_FORMAT_UNDEFINED is 0, and the call has no result; on an image
    of 4-byte texels two layers are written from layer 1, from byte 64 of
    the buffer. *)
Lemma copy_buffer_to_image_layers_witness :
  vkCmdCopyBufferToImage Sample.cmd7 Sample.buf_a
    (Sample.img2d Sample.R32G32B32_UINT 1) [buffer_image_copy 64 1 2] = None
  /\ exists m,
       vkCmdCopyBufferToImage Sample.cmd7 Sample.buf_a
         (Sample.img2d VK_FORMAT_R8G8B8A8_UINT 1) [buffer_image_copy 64 1 2]
       = Some m
       /\ map to_img_draw (draws (events_of m))
          = [((INTEL_CMD_META_FS_RECT, INTEL_DEV_META_FS_COPY_MEM_TO_IMG, 1),
              (16, (0, 1, 8, 4), (16, 8)));
             ((INTEL_CMD_META_FS_RECT, INTEL_DEV_META_FS_COPY_MEM_TO_IMG, 1),
              (144, (0, 2, 8, 4), (16, 8)))].
Proof.
  split.
  - apply (proj1 (copy_buffer_to_image_layers Sample.cmd7 Sample.buf_a
                    (Sample.img2d Sample.R32G32B32_UINT 1)
                    [buffer_image_copy 64 1 2])).
    reflexivity.
  - refine (proj2 (copy_buffer_to_image_layers Sample.cmd7 Sample.buf_a
                     (Sample.img2d VK_FORMAT_R8G8B8A8_UINT 1)
                     [buffer_image_copy 64 1 2]) _ _).
    + simpl. tauto.
    + vm_compute. discriminate.
Defined.

(** On the sample platform: a copy to an image of 4-byte texels. *)
Lemma views_balanced_witness :
  exists m,
    vkCmdCopyBufferToImage Sample.cmd7 Sample.buf_a
      (Sample.img2d VK_FORMAT_R8G8B8A8_UINT 1) [buffer_image_copy 64 1 2]
    = Some m
    /\ balanced (cmd_dev Sample.cmd7) m.
Proof.
  destruct (views_balanced Sample.cmd7) as (_ & _ & H & _).
  apply H; [simpl; tauto | vm_compute; discriminate].
Defined.

(** On the sample platform: a copy to an image of 4-byte texels. *)
Lemma destination_view_per_draw_witness :
  exists m,
    vkCmdCopyBufferToImage Sample.cmd7 Sample.buf_a
      (Sample.img2d VK_FORMAT_R8G8B8A8_UINT 1) [buffer_image_copy 64 1 2]
    = Some m
    /\ matched (Sample.img2d VK_FORMAT_R8G8B8A8_UINT 1) m.
Proof.
  destruct (destination_view_per_draw Sample.cmd7
              (Sample.img2d VK_FORMAT_R8G8B8A8_UINT 1)) as (_ & H & _).
  apply H; [simpl; tauto | vm_compute; discriminate].
Defined.
